(** * Compose-hash generation and verification (dstack)

    A shallow embedding of [dstack/get-compose-hash.py] and
    [dstack/verify-deployed-hash.py]: the canonical JSON serializer, the
    literal manifest template, the SHA-256 digest and the verifier. *)

From Stdlib Require Import String Ascii List NArith ZArith Bool Lia.
From Stdlib Require Import Permutation Sorted DecimalString.
From Stdlib Require Import Floats.SpecFloat.
Import ListNotations.

Set Implicit Arguments.
Set Warnings "-register-all".

(** ** Python strings

    A Python [str] is a sequence of Unicode code points; a [bytes] object a
    sequence of octets.  Both are lists of [N]. *)

Definition pystr := list N.
Definition pybytes := list N.

(** A literal given as a Rocq string. *)
Definition py (s : string) : pystr := map N_of_ascii (list_ascii_of_string s).

(** The same, where a backquote in the literal stands for the double quote
    of the Python source (none of the literals of the source contains a
    backquote). *)
Definition pyq (s : string) : pystr :=
  map (fun c => if N.eqb c 96 then 34%N else c) (py s).

(** Python's [==] on [str]. *)
Fixpoint pystr_eqb (a b : pystr) : bool :=
  match a, b with
  | [], [] => true
  | x :: a', y :: b' => N.eqb x y && pystr_eqb a' b'
  | _, _ => false
  end.

(** Python's [<] on [str]: lexicographic on code points. *)
Fixpoint pystr_ltb (a b : pystr) : bool :=
  match a, b with
  | _, [] => false
  | [], _ :: _ => true
  | x :: a', y :: b' =>
      if N.ltb x y then true else if N.eqb x y then pystr_ltb a' b' else false
  end.

(** [s[1:-1]]: the string without its first and its last character (empty
    when it has fewer than three). *)
Definition slice_1_m1 (s : pystr) : pystr := removelast (tl s).

(** [s.startswith(old)] *)
Fixpoint startswith (old s : pystr) : bool :=
  match old, s with
  | [], _ => true
  | _ :: _, [] => false
  | x :: old', y :: s' => N.eqb x y && startswith old' s'
  end.

(** [s.replace(old, new)]: every occurrence of [old], found from the left and
    not overlapping, is replaced; [skip] counts the characters of a found
    occurrence that are still to be passed over. *)
Fixpoint replace_from (old new : pystr) (skip : nat) (s : pystr) : pystr :=
  match s with
  | [] => match old with [] => new | _ :: _ => [] end
  | c :: s' =>
      match skip with
      | S k => replace_from old new k s'
      | O =>
          if startswith old s
          then match old with
               | [] => new ++ c :: replace_from old new 0 s'
               | _ :: _ => new ++ replace_from old new (length old - 1) s'
               end
          else c :: replace_from old new 0 s'
      end
  end.

Definition replace (s old new : pystr) : pystr := replace_from old new 0 s.

(** ** Exceptions *)

Inductive pyexc :=
  | TypeError | KeyError | AttributeError | UnicodeEncodeError
  | FileNotFoundError | JSONDecodeError
  | ValueError | RecursionError | OSError.

Inductive pyresult (A : Type) :=
  | Ok (a : A)
  | Raise (e : pyexc).
Arguments Raise {A} e.

Definition bind {A B} (m : pyresult A) (k : A -> pyresult B) : pyresult B :=
  match m with
  | Ok a => k a
  | Raise e => Raise e
  end.

Declare Scope py_scope.
Delimit Scope py_scope with py_.
Notation "x <- m ;; k" := (bind m (fun x => k))
  (at level 61, m at next level, right associativity) : py_scope.
Open Scope py_scope.

Section MapM.
Variables (A B : Type) (f : A -> pyresult B).
Fixpoint mapM (l : list A) : pyresult (list B) :=
  match l with
  | [] => Ok []
  | x :: r => y <- f x ;; ys <- mapM r ;; Ok (y :: ys)
  end.
End MapM.

(** ** Python values

    The values the two programs can be handed: the JSON kinds (None, bool,
    int, float, str, list, dict) and, outside them, tuples and bytes.
    A dict keeps its items in insertion order; its keys are str, int, bool,
    None or bytes (float and tuple keys are not modelled). *)

Inductive pykey :=
  | KStr (s : pystr)
  | KInt (z : Z)
  | KBool (b : bool)
  | KNone
  | KBytes (b : pybytes).

Inductive pyval :=
  | PNone
  | PBool (b : bool)
  | PInt (z : Z)
  | PFloat (f : spec_float)
  | PStr (s : pystr)
  | PList (l : list pyval)
  | PTuple (l : list pyval)
  | PDict (d : list (pykey * pyval))
  | PBytes (b : pybytes).

Section PyvalInd.
Variable P : pyval -> Prop.
Hypothesis HNone : P PNone.
Hypothesis HBool : forall b, P (PBool b).
Hypothesis HInt : forall z, P (PInt z).
Hypothesis HFloat : forall f, P (PFloat f).
Hypothesis HStr : forall s, P (PStr s).
Hypothesis HList : forall l, Forall P l -> P (PList l).
Hypothesis HTuple : forall l, Forall P l -> P (PTuple l).
Hypothesis HDict : forall d, Forall (fun kv => P (snd kv)) d -> P (PDict d).
Hypothesis HBytes : forall b, P (PBytes b).

Fixpoint pyval_nested_ind (v : pyval) : P v :=
  match v with
  | PNone => HNone
  | PBool b => HBool b
  | PInt z => HInt z
  | PFloat f => HFloat f
  | PStr s => HStr s
  | PList l =>
      HList ((fix go (l : list pyval) : Forall P l :=
                match l with
                | [] => Forall_nil _
                | x :: r => Forall_cons x (pyval_nested_ind x) (go r)
                end) l)
  | PTuple l =>
      HTuple ((fix go (l : list pyval) : Forall P l :=
                 match l with
                 | [] => Forall_nil _
                 | x :: r => Forall_cons x (pyval_nested_ind x) (go r)
                 end) l)
  | PDict d =>
      HDict ((fix go (d : list (pykey * pyval))
                : Forall (fun kv => P (snd kv)) d :=
                match d with
                | [] => Forall_nil _
                | kv :: r =>
                    Forall_cons kv (pyval_nested_ind (snd kv)) (go r)
                end) d)
  | PBytes b => HBytes b
  end.
End PyvalInd.

(** ** The interpreter

    What the programs take from the interpreter they run on:
    - [float_repr]: [float.__repr__] on a finite float, the shortest
      round-trip decimal;
    - [compound_repr]: [repr] of a list, tuple, dict or bytes object, which
      can itself raise;
    - [int_max_str_digits]: [sys.get_int_max_str_digits()], the longest
      decimal numeral an int is converted to before ValueError is raised
      (4300 unless the interpreter was started otherwise; 0 stands for no
      limit);
    - [recursion_depth]: how many levels of nested calls a recursive function
      of the programs ([sort_object], [process_data]) can still make below
      its first call before the interpreter's recursion limit raises
      RecursionError (about 500 from a script started with the default
      limit of 1000, where a level takes two frames); a level is counted
      whatever number of frames it takes;
    - [encoder_depth]: how many containers inside one another the JSON
      encoder can enter before it raises RecursionError. *)
Record interpreter := Interpreter {
  float_repr : spec_float -> pystr;
  compound_repr : pyval -> pyresult pystr;
  int_max_str_digits : N;
  recursion_depth : nat;
  encoder_depth : nat
}.

(** The integer a key compares and hashes as, when it is an int or a bool
    ([True == 1], [False == 0]). *)
Definition key_int (k : pykey) : option Z :=
  match k with
  | KInt z => Some z
  | KBool b => Some (if b then 1%Z else 0%Z)
  | _ => None
  end.

(** [k1 == k2] on keys. *)
Definition key_eqb (k1 k2 : pykey) : bool :=
  match k1, k2 with
  | KStr a, KStr b => pystr_eqb a b
  | KBytes a, KBytes b => pystr_eqb a b
  | KNone, KNone => true
  | _, _ =>
      match key_int k1, key_int k2 with
      | Some a, Some b => Z.eqb a b
      | _, _ => false
      end
  end.

(** [k1 < k2] on keys: [None] where Python raises TypeError. *)
Definition key_lt (k1 k2 : pykey) : option bool :=
  match k1, k2 with
  | KStr a, KStr b => Some (pystr_ltb a b)
  | KBytes a, KBytes b => Some (pystr_ltb a b)
  | _, _ =>
      match key_int k1, key_int k2 with
      | Some a, Some b => Some (Z.ltb a b)
      | _, _ => None
      end
  end.

Definition pydict := list (pykey * pyval).

(** [d[k]] and [d.get(k)] *)
Fixpoint dict_lookup (d : pydict) (k : pykey) : option pyval :=
  match d with
  | [] => None
  | (k', v) :: r => if key_eqb k' k then Some v else dict_lookup r k
  end.

(** [d[k] = v]: an existing key keeps its place, a new one goes last. *)
Fixpoint dict_set (d : pydict) (k : pykey) (v : pyval) : pydict :=
  match d with
  | [] => [(k, v)]
  | (k', v') :: r =>
      if key_eqb k' k then (k', v) :: r else (k', v') :: dict_set r k v
  end.

(** [obj[k]] on any value: only a dict can be indexed by a str. *)
Definition getitem (obj : pyval) (k : pystr) : pyresult pyval :=
  match obj with
  | PDict d =>
      match dict_lookup d (KStr k) with
      | Some v => Ok v
      | None => Raise KeyError
      end
  | _ => Raise TypeError
  end.

(** [obj.get(k)]: only a dict has the method. *)
Definition get_method (obj : pyval) (k : pystr) : pyresult pyval :=
  match obj with
  | PDict d =>
      match dict_lookup d (KStr k) with
      | Some v => Ok v
      | None => Ok PNone
      end
  | _ => Raise AttributeError
  end.

(** ** The JSON encoder: [json.dumps(obj, separators=..., ensure_ascii=False)] *)

Local Open Scope N_scope.

Definition hex_digit (n : N) : N :=
  if N.ltb n 10 then (48 + n)%N else (87 + n)%N.

(** The escape table of the encoder when [ensure_ascii] is off: quote,
    backslash and the control characters below U+0020; every other code
    point stands for itself. *)
Definition escape_char (c : N) : pystr :=
  if N.eqb c 34 then [92; 34]
  else if N.eqb c 92 then [92; 92]
  else if N.eqb c 10 then [92; 110]
  else if N.eqb c 13 then [92; 114]
  else if N.eqb c 9 then [92; 116]
  else if N.eqb c 8 then [92; 98]
  else if N.eqb c 12 then [92; 102]
  else if N.ltb c 32
       then [92; 117; 48; 48; hex_digit (N.div c 16); hex_digit (N.modulo c 16)]
  else [c].

Local Close Scope N_scope.

Definition escape_body (s : pystr) : pystr := flat_map escape_char s.

Definition encode_basestring (s : pystr) : pystr :=
  34%N :: escape_body s ++ [34%N].

(** The decimal numeral of an integer, and the number of its digits. *)
Definition int_text (z : Z) : pystr := py (NilZero.string_of_int (Z.to_int z)).

Definition int_digits (z : Z) : N := N.of_nat (List.length (int_text (Z.abs z))).

(** [int.__repr__] and [str] of an int: ValueError when the numeral has more
    digits than the interpreter's limit. *)
Definition int_repr (it : interpreter) (z : Z) : pyresult pystr :=
  if N.ltb 0 (int_max_str_digits it)
     && N.ltb (int_max_str_digits it) (int_digits z)
  then Raise ValueError
  else Ok (int_text z).

(** [sep.join(chunks)] *)
Fixpoint join (sep : pystr) (chunks : list pystr) : pystr :=
  match chunks with
  | [] => []
  | [c] => c
  | c :: r => c ++ sep ++ join sep r
  end.

Section Encoder.
Variable it : interpreter.

Definition floatstr (o : spec_float) : pystr :=
  if negb (SFeqb o o) then py "NaN"
  else if SFeqb o (S754_infinity false) then py "Infinity"
  else if SFeqb o (S754_infinity true) then py "-Infinity"
  else float_repr it o.

(** The text a dict key is written as, before it is quoted; keys that are
    not str, int, float, bool or None raise TypeError. *)
Definition key_text (k : pykey) : pyresult pystr :=
  match k with
  | KStr s => Ok s
  | KBool true => Ok (py "true")
  | KBool false => Ok (py "false")
  | KNone => Ok (py "null")
  | KInt z => int_repr it z
  | KBytes _ => Raise TypeError
  end.

Variables item_separator key_separator : pystr.

(** The encoder, with [depth] the number of containers it can still enter:
    a list, tuple or dict met at depth 0 raises RecursionError, whatever it
    holds.  The key of an item is written before its value. *)
Fixpoint json_dumps (depth : nat) (o : pyval) {struct o} : pyresult pystr :=
  match o with
  | PNone => Ok (py "null")
  | PBool true => Ok (py "true")
  | PBool false => Ok (py "false")
  | PInt z => int_repr it z
  | PFloat f => Ok (floatstr f)
  | PStr s => Ok (encode_basestring s)
  | PList l | PTuple l =>
      match depth with
      | O => Raise RecursionError
      | S inner =>
          chunks <- mapM (json_dumps inner) l ;;
          Ok (py "[" ++ join item_separator chunks ++ py "]")
      end
  | PDict d =>
      match depth with
      | O => Raise RecursionError
      | S inner =>
          chunks <- mapM (fun kv =>
                            k <- key_text (fst kv) ;;
                            v <- json_dumps inner (snd kv) ;;
                            Ok (encode_basestring k ++ key_separator ++ v)) d ;;
          Ok (py "{" ++ join item_separator chunks ++ py "}")
      end
  | PBytes _ => Raise TypeError
  end.
End Encoder.

(** ** [str.encode("utf-8")] and [hashlib.sha256(...).hexdigest()] *)

Module UTF8.
Local Open Scope N_scope.

(** The octets of one code point; surrogates (and numbers that are no
    code point) cannot be encoded. *)
Definition encode_char (c : N) : option pybytes :=
  if c <? 0x80 then Some [c]
  else if c <? 0x800 then
    Some [N.lor 0xC0 (N.shiftr c 6); N.lor 0x80 (N.land c 0x3F)]
  else if c <? 0x10000 then
    if (0xD800 <=? c) && (c <? 0xE000) then None
    else Some [N.lor 0xE0 (N.shiftr c 12);
               N.lor 0x80 (N.land (N.shiftr c 6) 0x3F);
               N.lor 0x80 (N.land c 0x3F)]
  else if c <? 0x110000 then
    Some [N.lor 0xF0 (N.shiftr c 18);
          N.lor 0x80 (N.land (N.shiftr c 12) 0x3F);
          N.lor 0x80 (N.land (N.shiftr c 6) 0x3F);
          N.lor 0x80 (N.land c 0x3F)]
  else None.

Fixpoint encode (s : pystr) : pyresult pybytes :=
  match s with
  | [] => Ok []
  | c :: r =>
      match encode_char c with
      | Some b => bs <- encode r ;; Ok (b ++ bs)
      | None => Raise UnicodeEncodeError
      end
  end.
End UTF8.

Module SHA256.
Local Open Scope N_scope.

Definition w32 (x : N) : N := N.land x 0xFFFFFFFF.
Definition add32 (a b : N) : N := w32 (a + b).
Definition rotr (n x : N) : N :=
  N.lor (N.shiftr x n) (w32 (N.shiftl x (32 - n))).
Definition not32 (x : N) : N := N.lxor x 0xFFFFFFFF.

Definition Ch (x y z : N) : N := N.lxor (N.land x y) (N.land (not32 x) z).
Definition Maj (x y z : N) : N :=
  N.lxor (N.lxor (N.land x y) (N.land x z)) (N.land y z).
Definition Sigma0 (x : N) : N :=
  N.lxor (N.lxor (rotr 2 x) (rotr 13 x)) (rotr 22 x).
Definition Sigma1 (x : N) : N :=
  N.lxor (N.lxor (rotr 6 x) (rotr 11 x)) (rotr 25 x).
Definition sigma0 (x : N) : N :=
  N.lxor (N.lxor (rotr 7 x) (rotr 18 x)) (N.shiftr x 3).
Definition sigma1 (x : N) : N :=
  N.lxor (N.lxor (rotr 17 x) (rotr 19 x)) (N.shiftr x 10).

(** The constants, as the standard defines them: the first 32 bits of the
    fractional parts of the cube roots (square roots, for the initial hash
    value) of the first primes. *)
Definition is_prime (n : N) : bool :=
  (1 <? n) &&
  forallb (fun d => negb (n mod d =? 0)) (map N.of_nat (seq 2 (N.to_nat n - 2))).

Definition primes : list N := filter is_prime (map N.of_nat (seq 2 310)).

(** The integer [k]-th root of [n], found bit by bit from above. *)
Fixpoint root_bits (k n : N) (bit : nat) (x : N) : N :=
  match bit with
  | O => x
  | S b =>
      let y := x + 2 ^ N.of_nat b in
      root_bits k n b (if y ^ k <=? n then y else x)
  end.

Definition fractional_root (k p : N) : N :=
  root_bits k (p * 2 ^ (32 * k)) 36 0 mod 2 ^ 32.

Definition K : list N := Eval vm_compute in map (fractional_root 3) primes.

Definition H0 : list N :=
  Eval vm_compute in map (fractional_root 2) (firstn 8 primes).

(** Big-endian octets of a number, [n] of them. *)
Fixpoint be_bytes (n : nat) (x : N) : pybytes :=
  match n with
  | O => []
  | S n' => N.land (N.shiftr x (8 * N.of_nat n')) 0xFF :: be_bytes n' x
  end.

(** The message, the octet 0x80, zeros up to 56 modulo 64, and the length
    in bits on eight octets. *)
Definition pad (msg : pybytes) : pybytes :=
  let len := N.of_nat (List.length msg) in
  let zeros := N.to_nat ((64 - ((len + 9) mod 64)) mod 64) in
  msg ++ 0x80 :: repeat 0 zeros ++ be_bytes 8 (8 * len).

Fixpoint words (n : nat) (b : pybytes) : list N :=
  match n, b with
  | S n', b0 :: b1 :: b2 :: b3 :: r =>
      (N.shiftl b0 24 + N.shiftl b1 16 + N.shiftl b2 8 + b3) :: words n' r
  | _, _ => []
  end.

(** The 48 further words of the message schedule; [w] holds the last
    sixteen, oldest first. *)
Fixpoint extend (n : nat) (w : list N) : list N :=
  match n with
  | O => []
  | S n' =>
      let x := add32 (add32 (sigma1 (nth 14 w 0)) (nth 9 w 0))
                     (add32 (sigma0 (nth 1 w 0)) (nth 0 w 0)) in
      x :: extend n' (tl w ++ [x])
  end.

Definition schedule (block : pybytes) : list N :=
  let w := words 16 block in w ++ extend 48 w.

Record regs := Regs { ra : N; rb : N; rc : N; rd : N;
                      re : N; rf : N; rg : N; rh : N }.

Definition round (r : regs) (kw : N * N) : regs :=
  let t1 := add32 (add32 (add32 (rh r) (Sigma1 (re r)))
                         (add32 (Ch (re r) (rf r) (rg r)) (fst kw)))
                  (snd kw) in
  let t2 := add32 (Sigma0 (ra r)) (Maj (ra r) (rb r) (rc r)) in
  Regs (add32 t1 t2) (ra r) (rb r) (rc r) (add32 (rd r) t1) (re r) (rf r) (rg r).

Definition compress (h : regs) (block : pybytes) : regs :=
  let r := fold_left round (combine K (schedule block)) h in
  Regs (add32 (ra h) (ra r)) (add32 (rb h) (rb r))
       (add32 (rc h) (rc r)) (add32 (rd h) (rd r))
       (add32 (re h) (re r)) (add32 (rf h) (rf r))
       (add32 (rg h) (rg r)) (add32 (rh h) (rh r)).

Fixpoint blocks (n : nat) (h : regs) (b : pybytes) : regs :=
  match n with
  | O => h
  | S n' => blocks n' (compress h (firstn 64 b)) (skipn 64 b)
  end.

Definition init : regs :=
  Regs (nth 0 H0 0) (nth 1 H0 0) (nth 2 H0 0) (nth 3 H0 0)
       (nth 4 H0 0) (nth 5 H0 0) (nth 6 H0 0) (nth 7 H0 0).

Definition digest (msg : pybytes) : pybytes :=
  let p := pad msg in
  let r := blocks (List.length p / 64) init p in
  flat_map (be_bytes 4)
    [ra r; rb r; rc r; rd r; re r; rf r; rg r; rh r].

Definition hex_char (n : N) : N := if n <? 10 then 48 + n else 87 + n.

(** [hashlib.sha256(msg).hexdigest()]: 64 lowercase hexadecimal digits. *)
Definition hexdigest (msg : pybytes) : pystr :=
  flat_map (fun b => [hex_char (b / 16); hex_char (b mod 16)]) (digest msg).
End SHA256.

(** ** The canonical serializer *)

Definition comparable (k1 k2 : pykey) : bool :=
  match key_lt k1 k2 with Some _ => true | None => false end.

Definition key_ltb (k1 k2 : pykey) : bool :=
  match key_lt k1 k2 with Some b => b | None => false end.

Fixpoint all_comparable (ks : list pykey) : bool :=
  match ks with
  | [] => true
  | k :: r => forallb (comparable k) r && all_comparable r
  end.

Fixpoint insert_item (kv : pykey * pyval) (l : pydict) : pydict :=
  match l with
  | [] => [kv]
  | kv' :: r =>
      if key_ltb (fst kv') (fst kv) then kv' :: insert_item kv r else kv :: l
  end.

Fixpoint sort_items (d : pydict) : pydict :=
  match d with
  | [] => []
  | kv :: r => insert_item kv (sort_items r)
  end.

(** [sorted(obj.items())].  The keys of a dict are pairwise different, so
    the order of two items is the order of their keys; the sort raises
    TypeError as soon as two keys cannot be compared. *)
Definition sorted_items (d : pydict) : pyresult pydict :=
  if all_comparable (map fst d) then Ok (sort_items d) else Raise TypeError.

(** [sort_object], with [depth] the number of levels of nested calls it can
    still make: the call on an item of a list or of a dict raises
    RecursionError at depth 0.  The items of a dict are sorted first and
    their values rebuilt in that order. *)
Fixpoint sort_object (depth : nat) (obj : pyval) {struct depth}
  : pyresult pyval :=
  let nested (item : pyval) : pyresult pyval :=
    match depth with
    | O => Raise RecursionError
    | S inner => sort_object inner item
    end in
  match obj with
  | PNone => Ok obj
  | PList l => l' <- mapM nested l ;; Ok (PList l')
  | PDict d =>
      items <- sorted_items d ;;
      d' <- mapM (fun kv => v <- nested (snd kv) ;; Ok (fst kv, v)) items ;;
      Ok (PDict d')
  | _ => Ok obj
  end.

Definition pos_inf : spec_float := S754_infinity false.
Definition neg_inf : spec_float := S754_infinity true.

Definition convert_special_values (obj : pyval) : pyval :=
  match obj with
  | PFloat f =>
      if negb (SFeqb f f) then PNone
      else if SFeqb f pos_inf || SFeqb f neg_inf then PNone
      else obj
  | _ => obj
  end.

(** [process_data], with [depth] as in [sort_object]. *)
Fixpoint process_data (depth : nat) (obj : pyval) {struct obj}
  : pyresult pyval :=
  let nested (item : pyval) : pyresult pyval :=
    match depth with
    | O => Raise RecursionError
    | S inner => process_data inner item
    end in
  match obj with
  | PDict d =>
      d' <- mapM (fun kv => v <- nested (snd kv) ;; Ok (fst kv, v)) d ;;
      Ok (PDict d')
  | PList l => l' <- mapM nested l ;; Ok (PList l')
  | _ => Ok (convert_special_values obj)
  end.

Section Programs.
Variable it : interpreter.

Definition to_deterministic_json (data : pyval) : pyresult pystr :=
  sorted_data <- sort_object (recursion_depth it) data ;;
  processed_data <- process_data (recursion_depth it) sorted_data ;;
  json_dumps it (py ",") (py ":") (encoder_depth it) processed_data.

(** ** The literal template *)

Definition template : pystr := pyq
"{
    `allowed_envs`:[],
    `default_gateway_domain`:null,
    `docker_compose_file`:`DOCKER_COMPOSE_CONTENT`,
    `features`:[
        `kms`,
        `tproxy-net`
    ],
    `gateway_enabled`:true,
    `kms_enabled`:true,
    `local_key_provider_enabled`:false,
    `manifest_version`:2,
    `name`:`simple-det-app-verification`,
    `no_instance_id`:false,
    `pre_launch_script`:`PRE_LAUNCH_SCRIPT`,
    `public_logs`:true,
    `public_sysinfo`:true,
    `runner`:`docker-compose`,
    `salt`:`05fcefaecd984204bb6ccf16938eaad5`,
    `tproxy_enabled`:true
}".

(** [json.dumps(v, ensure_ascii=False)[1:-1]] *)
Definition dumps_unquoted (v : pyval) : pyresult pystr :=
  s <- json_dumps it (py ", ") (py ": ") (encoder_depth it) v ;;
  Ok (slice_1_m1 s).

Definition to_dstack_format_json (data : pyval) : pyresult pystr :=
  docker_compose_content <- getitem data (py "docker_compose_file") ;;
  pre_launch_script <- getitem data (py "pre_launch_script") ;;
  docker_compose_escaped <- dumps_unquoted docker_compose_content ;;
  pre_launch_escaped <- dumps_unquoted pre_launch_script ;;
  let result :=
    replace template (py "DOCKER_COMPOSE_CONTENT") docker_compose_escaped in
  let result := replace result (py "PRE_LAUNCH_SCRIPT") pre_launch_escaped in
  Ok result.

Definition get_compose_hash (app_compose_data : pyval) : pyresult pystr :=
  manifest_str <- to_dstack_format_json app_compose_data ;;
  manifest_bytes <- UTF8.encode manifest_str ;;
  Ok (SHA256.hexdigest manifest_bytes).

Definition get_default_pre_launch_script : pystr := pyq
"
#!/bin/bash
echo `----------------------------------------------`
echo `Running Phala Cloud Pre-Launch Script v0.0.7`
echo `----------------------------------------------`
set -e

# Function: notify host

notify_host() {
    if command -v dstack-util >/dev/null 2>&1; then
        dstack-util notify-host -e `$1` -d `$2`
    else
        tdxctl notify-host -e `$1` -d `$2`
    fi
}

notify_host_hoot_info() {
    notify_host `boot.progress` `$1`
}

notify_host_hoot_error() {
    notify_host `boot.error` `$1`
}

# Function: Perform Docker cleanup
perform_cleanup() {
    echo `Pruning unused images`
    docker image prune -af
    echo `Pruning unused volumes`
    docker volume prune -f
    notify_host_hoot_info `docker cleanup completed`
}

# Function: Check Docker login status without exposing credentials
check_docker_login() {
    # Try to verify login status without exposing credentials
    if docker info 2>/dev/null | grep -q `Username`; then
        return 0
    else
        return 1
    fi
}

# Main logic starts here
echo `Starting login process...`

# Check if Docker credentials exist
if [[ -n `$DSTACK_DOCKER_USERNAME` && -n `$DSTACK_DOCKER_PASSWORD` ]]; then
    echo `Docker credentials found`
    
    # Check if already logged in
    if check_docker_login; then
        echo `Already logged in to Docker registry`
    else
        echo `Logging in to Docker registry...`
        # Login without exposing password in process list
        if [[ -n `$DSTACK_DOCKER_REGISTRY` ]]; then
            echo `$DSTACK_DOCKER_PASSWORD` | docker login -u `$DSTACK_DOCKER_USERNAME` --password-stdin `$DSTACK_DOCKER_REGISTRY`
        else
            echo `$DSTACK_DOCKER_PASSWORD` | docker login -u `$DSTACK_DOCKER_USERNAME` --password-stdin
        fi
        
        if [ $? -eq 0 ]; then
            echo `Docker login successful`
        else
            echo `Docker login failed`
            notify_host_hoot_error `docker login failed`
            exit 1
        fi
    fi
# Check if AWS ECR credentials exist
elif [[ -n `$DSTACK_AWS_ACCESS_KEY_ID` && -n `$DSTACK_AWS_SECRET_ACCESS_KEY` && -n `$DSTACK_AWS_REGION` && -n `$DSTACK_AWS_ECR_REGISTRY` ]]; then
    echo `AWS ECR credentials found`
    
    # Check if AWS CLI is installed
    if ! command -v aws &> /dev/null; then
        notify_host_hoot_info `awscli not installed, installing...`
        echo `AWS CLI not installed, installing...`
        curl `https://awscli.amazonaws.com/awscli-exe-linux-x86_64-2.24.14.zip` -o `awscliv2.zip`
        echo `6ff031a26df7daebbfa3ccddc9af1450 awscliv2.zip` | md5sum -c
        if [ $? -ne 0 ]; then
            echo `MD5 checksum failed`
            notify_host_hoot_error `awscli install failed`
            exit 1
        fi
        unzip awscliv2.zip &> /dev/null
        ./aws/install
        
        # Clean up installation files
        rm -rf awscliv2.zip aws
    else
        echo `AWS CLI is already installed: $(which aws)`
    fi

    # Set AWS credentials as environment variables
    export AWS_ACCESS_KEY_ID=`$DSTACK_AWS_ACCESS_KEY_ID`
    export AWS_SECRET_ACCESS_KEY=`$DSTACK_AWS_SECRET_ACCESS_KEY`
    export AWS_DEFAULT_REGION=`$DSTACK_AWS_REGION`
    
    # Set session token if provided (for temporary credentials)
    if [[ -n `$DSTACK_AWS_SESSION_TOKEN` ]]; then
        echo `AWS session token found, using temporary credentials`
        export AWS_SESSION_TOKEN=`$DSTACK_AWS_SESSION_TOKEN`
    fi
    
    # Test AWS credentials before attempting ECR login
    echo `Testing AWS credentials...`
    if ! aws sts get-caller-identity &> /dev/null; then
        echo `AWS credentials test failed`
        notify_host_hoot_error `Invalid AWS credentials`
        exit 1
    fi

    echo `Logging in to AWS ECR...`
    aws ecr get-login-password --region $DSTACK_AWS_REGION | docker login --username AWS --password-stdin `$DSTACK_AWS_ECR_REGISTRY`
    if [ $? -eq 0 ]; then
        echo `AWS ECR login successful`
        notify_host_hoot_info `AWS ECR login successful`
    else
        echo `AWS ECR login failed`
        notify_host_hoot_error `AWS ECR login failed`
        exit 1
    fi
fi

perform_cleanup

#
# Set root password if DSTACK_ROOT_PASSWORD is set.
#
if [[ -n `$DSTACK_ROOT_PASSWORD` ]]; then
    echo `root:$DSTACK_ROOT_PASSWORD` | chpasswd
    unset $DSTACK_ROOT_PASSWORD
    echo `Root password set`
fi
if [[ -n `$DSTACK_ROOT_PUBLIC_KEY` ]]; then
    mkdir -p /root/.ssh
    echo `$DSTACK_ROOT_PUBLIC_KEY` > /root/.ssh/authorized_keys
    unset $DSTACK_ROOT_PUBLIC_KEY
    echo `Root public key set`
fi


if [[ -e /var/run/dstack.sock ]]; then
    export DSTACK_APP_ID=$(curl -s --unix-socket /var/run/dstack.sock http://dstack/Info | jq -j .app_id)
else
    export DSTACK_APP_ID=$(curl -s --unix-socket /var/run/tappd.sock http://dstack/prpc/Tappd.Info | jq -j .app_id)
fi
# Check if app-compose.json has default_gateway_domain field and DSTACK_GATEWAY_DOMAIN is not set
# If true, set DSTACK_GATEWAY_DOMAIN from app-compose.json
if [[ $(jq 'has(`default_gateway_domain`)' app-compose.json) == `true` && -z `$DSTACK_GATEWAY_DOMAIN` ]]; then
    export DSTACK_GATEWAY_DOMAIN=$(jq -j '.default_gateway_domain' app-compose.json)
fi
if [[ -n `$DSTACK_GATEWAY_DOMAIN` ]]; then
    export DSTACK_APP_DOMAIN=$DSTACK_APP_ID`.`$DSTACK_GATEWAY_DOMAIN
fi

echo `----------------------------------------------`
echo `Script execution completed`
echo `----------------------------------------------`
".

Definition default_salt : pystr := py "05fcefaecd984204bb6ccf16938eaad5".

(** ** Files

    What the programs read: [read_text p] is [open(p, 'r').read()],
    [read_bytes p] is [open(p, 'rb').read()] and [json_load p] is
    [json.load] on the file opened as text. *)
Record files := Files {
  read_text : pystr -> pyresult pystr;
  read_bytes : pystr -> pyresult pybytes;
  json_load : pystr -> pyresult pyval
}.

Variable fs : files.

Definition app_compose_of (docker_compose_content : pystr) : pyval :=
  PDict
    [ (KStr (py "allowed_envs"), PList []);
      (KStr (py "default_gateway_domain"), PNone);
      (KStr (py "docker_compose_file"), PStr docker_compose_content);
      (KStr (py "features"), PList [PStr (py "kms"); PStr (py "tproxy-net")]);
      (KStr (py "gateway_enabled"), PBool true);
      (KStr (py "kms_enabled"), PBool true);
      (KStr (py "local_key_provider_enabled"), PBool false);
      (KStr (py "manifest_version"), PInt 2);
      (KStr (py "name"), PStr (py "simple-det-app-verification"));
      (KStr (py "no_instance_id"), PBool false);
      (KStr (py "pre_launch_script"), PStr get_default_pre_launch_script);
      (KStr (py "public_logs"), PBool true);
      (KStr (py "public_sysinfo"), PBool true);
      (KStr (py "runner"), PStr (py "docker-compose"));
      (KStr (py "salt"), PStr default_salt);
      (KStr (py "tproxy_enabled"), PBool true) ].

Definition docker_compose_to_app_compose (docker_compose_path : pystr)
  : pyresult pyval :=
  docker_compose_content <- read_text fs docker_compose_path ;;
  Ok (app_compose_of docker_compose_content).

(** ** Writing and printing

    [path_exists dk p] is [Path(p).exists()]; [write_text dk name text] is
    [open(name, 'w')] followed by [f.write(text)], and [print_line out line]
    is [print(line)] to standard output: [None] when it succeeds, the
    exception otherwise (OSError when the file or the stream cannot be
    written, UnicodeEncodeError when its encoding has no form for a
    character of the text). *)
Record disk := Disk {
  path_exists : pystr -> bool;
  write_text : pystr -> pystr -> option pyexc
}.

Record console := Console {
  print_line : pystr -> option pyexc
}.

Definition effect (r : option pyexc) : pyresult unit :=
  match r with
  | None => Ok tt
  | Some e => Raise e
  end.

Variable dk : disk.
Variable out : console.

(** ** The verifier *)

(** [str] of a float. *)
Definition float_str (o : spec_float) : pystr :=
  if negb (SFeqb o o) then py "nan"
  else if SFeqb o (S754_infinity false) then py "inf"
  else if SFeqb o (S754_infinity true) then py "-inf"
  else float_repr it o.

(** What an f-string writes for [{v}]: [str(v)]. *)
Definition format_value (v : pyval) : pyresult pystr :=
  match v with
  | PStr s => Ok s
  | PNone => Ok (py "None")
  | PBool true => Ok (py "True")
  | PBool false => Ok (py "False")
  | PInt z => int_repr it z
  | PFloat f => Ok (float_str f)
  | _ => compound_repr it v
  end.

(** [obj[k] = v] on a value. *)
Definition setitem (obj : pyval) (k : pystr) (v : pyval) : pyresult pyval :=
  match obj with
  | PDict d => Ok (PDict (dict_set d (KStr k) v))
  | _ => Raise TypeError
  end.

(** The f-string of the verifier, piece by piece. *)
Definition verify_head : pystr := pyq
"{
    `allowed_envs`:[],
    `default_gateway_domain`:null,
    `docker_compose_file`:`".

Definition verify_middle : pystr := pyq
"`,
    `features`:[
        `kms`,
        `tproxy-net`
    ],
    `gateway_enabled`:true,
    `kms_enabled`:true,
    `local_key_provider_enabled`:false,
    `manifest_version`:2,
    `name`:`simple-det-app-verification`,
    `no_instance_id`:false,
    `pre_launch_script`:`".

Definition verify_before_salt : pystr := pyq
"`,
    `public_logs`:true,
    `public_sysinfo`:true,
    `runner`:`docker-compose`,
    `salt`:`".

Definition verify_tail : pystr := pyq
"`,
    `tproxy_enabled`:true
}".

Definition format_manifest (docker_compose_escaped pre_launch_escaped : pystr)
    (deployed_salt : pyval) : pyresult pystr :=
  salt_text <- format_value deployed_salt ;;
  Ok (verify_head ++ docker_compose_escaped ++ verify_middle
        ++ pre_launch_escaped ++ verify_before_salt
        ++ salt_text ++ verify_tail).

(** The lines of the verdict: U+2705 and U+274C open them. *)
Definition match_line : pystr :=
  9989%N :: py " HASH MATCH - Our compose generates same hash as deployed!".
Definition mismatch_line : pystr :=
  10060%N :: py " HASH MISMATCH - Need to investigate differences".

(** What a run of [verify_deployed_hash] leaves behind: the manifest saved
    to [our-app-compose-with-deployed-salt.json], the two digests it
    prints, and the value it returns. *)
Record verification := Verification {
  our_formatted_json : pystr;
  our_hash : pystr;
  deployed_hash : pystr;
  returned : bool
}.

Definition verify_deployed_hash
    (docker_compose_path deployed_app_compose_path : pystr)
  : pyresult verification :=
  deployed_app_compose <- json_load fs deployed_app_compose_path ;;
  deployed_salt <- get_method deployed_app_compose (py "salt") ;;
  deployed_bytes <- read_bytes fs deployed_app_compose_path ;;
  let deployed_hash := SHA256.hexdigest deployed_bytes in
  salt_text <- format_value deployed_salt ;;
  _ <- effect (print_line out (py "Deployed salt: " ++ salt_text)) ;;
  _ <- effect (print_line out (py "Deployed hash: " ++ deployed_hash)) ;;
  our_app_compose <- docker_compose_to_app_compose docker_compose_path ;;
  our_app_compose <- setitem our_app_compose (py "salt") deployed_salt ;;
  docker_compose_content <- getitem our_app_compose (py "docker_compose_file") ;;
  pre_launch_script <- getitem our_app_compose (py "pre_launch_script") ;;
  docker_compose_escaped <- dumps_unquoted docker_compose_content ;;
  pre_launch_escaped <- dumps_unquoted pre_launch_script ;;
  our_formatted_json <-
    format_manifest docker_compose_escaped pre_launch_escaped deployed_salt ;;
  _ <- effect (write_text dk (py "our-app-compose-with-deployed-salt.json")
                 our_formatted_json) ;;
  our_bytes <- UTF8.encode our_formatted_json ;;
  let our_hash := SHA256.hexdigest our_bytes in
  _ <- effect (print_line out (py "Our hash (with deployed salt): " ++ our_hash)) ;;
  if pystr_eqb our_hash deployed_hash
  then
    _ <- effect (print_line out match_line) ;;
    Ok (Verification our_formatted_json our_hash deployed_hash true)
  else
    _ <- effect (print_line out mismatch_line) ;;
    _ <- effect (print_line out (10%N :: py "Saved files for inspection:")) ;;
    _ <- effect (print_line out (py "- our-app-compose-with-deployed-salt.json")) ;;
    _ <- effect (print_line out (py "- " ++ deployed_app_compose_path)) ;;
    Ok (Verification our_formatted_json our_hash deployed_hash false).

(** The command line: [sys.argv] in, the exit status out. *)
Definition verify_main (argv : list pystr) : pyresult N :=
  match argv with
  | [_; docker_compose_path; deployed_app_compose_path] =>
      success <- verify_deployed_hash docker_compose_path
                   deployed_app_compose_path ;;
      Ok (if returned success then 0%N else 1%N)
  | _ =>
      _ <- effect (print_line out (py "Usage: python3 verify-deployed-hash.py <docker-compose-deploy.yml> <deployed-app-compose.json>")) ;;
      Ok 1%N
  end.
End Programs.

(** The status the process ends with: an exception that nothing catches
    ends it with status 1. *)
Definition exit_status (r : pyresult N) : N :=
  match r with
  | Ok n => n
  | Raise _ => 1%N
  end.

(** ** The generator's command line

    What [main] of get-compose-hash.py asks of the outside besides reading:
    whether a path exists ([path_exists]), and the writing of a text file
    ([write_text]; a failed write leaves no entry in the list of files
    written).  Printing is left out. *)

(** How a run of the script ends: [main] returns, [sys.exit] is called, or
    an exception goes uncaught. *)
Inductive ending :=
  | Returned (compose_hash : pystr)
  | Exited (status : N)
  | Uncaught (e : pyexc).

(** A run: the files written, in order, each with its text, and the end. *)
Record run := Run {
  written : list (pystr * pystr);
  ended : ending
}.

Inductive step (A : Type) :=
  | Done (a : A)
  | Stop (e : ending).
Arguments Stop {A} e.

(** A piece of the script: from the files written so far to the files
    written after it, and its value or the end of the run. *)
Definition script (A : Type) : Type :=
  list (pystr * pystr) -> list (pystr * pystr) * step A.

Definition script_bind {A B} (m : script A) (k : A -> script B) : script B :=
  fun w => match m w with
           | (w', Done a) => k a w'
           | (w', Stop e) => (w', Stop e)
           end.

Definition script_ret {A} (a : A) : script A := fun w => (w, Done a).

Definition lift {A} (r : pyresult A) : script A :=
  fun w => match r with
           | Ok a => (w, Done a)
           | Raise e => (w, Stop (Uncaught e))
           end.

Definition sys_exit {A} (status : N) : script A :=
  fun w => (w, Stop (Exited status)).

Notation "x <-- m ;; k" := (script_bind m (fun x => k))
  (at level 61, m at next level, right associativity) : py_scope.

Section Generator.
Variable it : interpreter.
Variable fs : files.
Variable dk : disk.

(** [with open(name, 'w') as f: f.write(text)] *)
Definition write_file (name text : pystr) : script unit :=
  fun w => match write_text dk name text with
           | None => (w ++ [(name, text)], Done tt)
           | Some e => (w, Stop (Uncaught e))
           end.

Definition main_script (argv : list pystr) : script pystr :=
  let docker_compose_path :=
    match argv with
    | _ :: path :: _ => path
    | _ => py "docker-compose.yml"
    end in
  if negb (path_exists dk docker_compose_path) then sys_exit 1%N
  else
    app_compose_data <--
      lift (docker_compose_to_app_compose fs docker_compose_path) ;;
    dstack_formatted_json <--
      lift (to_dstack_format_json it app_compose_data) ;;
    _ <-- write_file (py "app-compose-generated.json") dstack_formatted_json ;;
    deterministic_json <--
      lift (to_deterministic_json it app_compose_data) ;;
    _ <-- write_file (py "app-compose-deterministic.json") deterministic_json ;;
    compose_hash <-- lift (get_compose_hash it app_compose_data) ;;
    _ <-- write_file (py "compose-hash.txt") compose_hash ;;
    script_ret compose_hash.

(** [main()] run as the script, from [sys.argv]. *)
Definition main (argv : list pystr) : run :=
  match main_script argv [] with
  | (w, Done compose_hash) => Run w (Returned compose_hash)
  | (w, Stop e) => Run w e
  end.
End Generator.


(** * Specification vocabulary *)

(** [sub in s] *)
Fixpoint contains (sub s : pystr) : bool :=
  startswith sub s || match s with [] => false | _ :: r => contains sub r end.

(** Code points [str.encode] accepts. *)
Definition encodable (s : pystr) : bool :=
  forallb (fun c => match UTF8.encode_char c with Some _ => true | None => false end) s.

(** The manifest the template describes, with the two free texts already
    escaped and the salt as text: the layout both programs aim at. *)
Definition manifest_layout (compose_escaped script_escaped salt : pystr) : pystr :=
  verify_head ++ compose_escaped ++ verify_middle ++ script_escaped
    ++ verify_before_salt ++ salt ++ verify_tail.

(** A stand-in for [float.__repr__] and for [repr] at concrete inputs that
    hold no float and format no container. *)
Definition no_float_repr : spec_float -> pystr := fun _ => py "0.0".
Definition no_compound_repr : pyval -> pyresult pystr := fun _ => Ok (py "[]").

(** A sample interpreter: numerals of up to 4300 digits, as CPython has it
    unless told otherwise, and room for 400 levels of nesting; and one with
    room for a single level and for numerals of 640 digits, the smallest
    limit CPython accepts. *)
Definition sample_interpreter : interpreter :=
  Interpreter no_float_repr no_compound_repr 4300 400 400.
Definition shallow_interpreter : interpreter :=
  Interpreter no_float_repr no_compound_repr 640 1 1.

(** A console that prints every line; one whose encoding is ASCII; and a
    disk on which nothing can be written. *)
Definition sample_console : console := Console (fun _ => None).
Definition ascii_console : console :=
  Console (fun line => if forallb (fun c => N.ltb c 128) line then None
                       else Some UnicodeEncodeError).
Definition read_only_disk : disk := Disk (fun _ => true) (fun _ _ => Some OSError).

(** The two placeholders of the template. *)
Definition DOCKER_COMPOSE_CONTENT : pystr := py "DOCKER_COMPOSE_CONTENT".
Definition PRE_LAUNCH_SCRIPT : pystr := py "PRE_LAUNCH_SCRIPT".

(** The characters the encoder rewrites: quote, backslash and the control
    characters below U+0020. *)
Definition is_escaped (c : N) : bool :=
  (c <? 32)%N || (c =? 34)%N || (c =? 92)%N.

(** Sample data: a manifest as [docker_compose_to_app_compose] builds it,
    and the same manifest with other values in the fields the template
    fixes. *)
Definition sample_compose : pystr := py "services: {}".
Definition sample_salt : pystr := py "ffffffffffffffffffffffffffffffff".
Definition sample_manifest : pydict :=
  match app_compose_of sample_compose with PDict d => d | _ => [] end.
Definition sample_manifest_other_salt : pydict :=
  dict_set sample_manifest (KStr (py "salt")) (PStr sample_salt).
Definition sample_manifest_other_fields : pydict :=
  dict_set (dict_set (dict_set sample_manifest_other_salt
     (KStr (py "name")) (PStr (py "another-app")))
     (KStr (py "manifest_version")) (PInt 3))
     (KStr (py "features")) (PList []).

(** Sample files: a deployed manifest that is the layout itself, with
    [sample_salt] as its salt, beside the compose file it was made from; and
    a deployed document that parses to a mapping without a salt key. *)
Definition sample_deployed_text : pystr :=
  manifest_layout (escape_body sample_compose)
    (escape_body get_default_pre_launch_script) sample_salt.
Definition encoded (s : pystr) : pybytes :=
  match UTF8.encode s with Ok b => b | Raise _ => [] end.
Definition sample_deployed_bytes : pybytes := encoded sample_deployed_text.
Definition sample_files : files :=
  Files (fun _ => Ok sample_compose)
        (fun _ => Ok sample_deployed_bytes)
        (fun _ => Ok (PDict sample_manifest_other_salt)).
Definition sample_files_no_salt : files :=
  Files (fun _ => Ok sample_compose)
        (fun _ => Ok (py "{}"))
        (fun _ => Ok (PDict [])).

(** ** What the verifier writes and prints *)

(** The file the verifier saves its rendering to. *)
Definition saved_name : pystr := py "our-app-compose-with-deployed-salt.json".

(** Lines printed one after the other, up to the first that fails. *)
Fixpoint print_lines (out : console) (lines : list pystr) : pyresult unit :=
  match lines with
  | [] => Ok tt
  | line :: rest => _ <- effect (print_line out line) ;; print_lines out rest
  end.

(** The lines printed before the compose file is read, and those printed
    once the rendering is hashed. *)
Definition report_lines (salt_text deployed_hash : pystr) : list pystr :=
  [ py "Deployed salt: " ++ salt_text; py "Deployed hash: " ++ deployed_hash ].

Definition verdict_lines (deployed_app_compose_path our_hash deployed_hash : pystr)
  : list pystr :=
  (py "Our hash (with deployed salt): " ++ our_hash)
  :: (if pystr_eqb our_hash deployed_hash
      then [ match_line ]
      else [ mismatch_line;
             10%N :: py "Saved files for inspection:";
             py "- our-app-compose-with-deployed-salt.json";
             py "- " ++ deployed_app_compose_path ]).

(** ** Values within the interpreter's limits *)

(** No list or dict that [sort_object] and [process_data] reach (through
    lists and the values of dicts) lies more than [depth] levels below the
    value: what holds an item needs a level for it. *)
Fixpoint within_depth (depth : nat) (v : pyval) {struct v} : bool :=
  let nested (item : pyval) : bool :=
    match depth with
    | O => false
    | S inner => within_depth inner item
    end in
  match v with
  | PList l => forallb nested l
  | PDict d => forallb (fun kv => nested (snd kv)) d
  | _ => true
  end.

(** No more than [depth] lists, tuples and dicts lie inside one another. *)
Fixpoint encodes_within (depth : nat) (v : pyval) {struct v} : bool :=
  match v with
  | PList l | PTuple l =>
      match depth with
      | O => false
      | S inner => forallb (encodes_within inner) l
      end
  | PDict d =>
      match depth with
      | O => false
      | S inner => forallb (fun kv => encodes_within inner (snd kv)) d
      end
  | _ => true
  end.

(** The numeral of an int is within the interpreter's limit; so is every
    int of a value, as a value or as a key. *)
Definition int_fits (it : interpreter) (z : Z) : bool :=
  N.eqb (int_max_str_digits it) 0
  || N.leb (int_digits z) (int_max_str_digits it).

Definition key_fits (it : interpreter) (k : pykey) : bool :=
  match k with
  | KInt z => int_fits it z
  | _ => true
  end.

Fixpoint ints_fit (it : interpreter) (v : pyval) : bool :=
  match v with
  | PInt z => int_fits it z
  | PList l | PTuple l => forallb (ints_fit it) l
  | PDict d => forallb (fun kv => key_fits it (fst kv) && ints_fit it (snd kv)) d
  | _ => true
  end.

(** What the encoder can write on this interpreter, and what the canonical
    serializer can take. *)
Definition encoder_fits (it : interpreter) (v : pyval) : bool :=
  encodes_within (encoder_depth it) v && ints_fit it v.

Definition within_limits (it : interpreter) (v : pyval) : bool :=
  within_depth (recursion_depth it) v && encoder_fits it v.

(** The calls [sort_object] and [process_data] make on an item, one level
    down. *)
Definition sort_nested (depth : nat) (item : pyval) : pyresult pyval :=
  match depth with
  | O => Raise RecursionError
  | S inner => sort_object inner item
  end.

Definition process_nested (depth : nat) (item : pyval) : pyresult pyval :=
  match depth with
  | O => Raise RecursionError
  | S inner => process_data inner item
  end.

(** A list nested [n] times around a value, and a numeral of [n] digits. *)
Fixpoint nested_list (n : nat) (v : pyval) : pyval :=
  match n with
  | O => v
  | S m => PList [nested_list m v]
  end.

Definition long_int (n : nat) : Z := (10 ^ Z.of_nat (n - 1))%Z.

(** ** Values of the JSON sum type *)

Definition is_str_key (k : pykey) : bool :=
  match k with KStr _ => true | _ => false end.

(** Null, Boolean, Number, String, Sequence of values, Mapping from strings
    to values. *)
Fixpoint is_json (v : pyval) : bool :=
  match v with
  | PList l => forallb is_json l
  | PDict d => forallb (fun kv => is_str_key (fst kv) && is_json (snd kv)) d
  | PTuple _ | PBytes _ => false
  | _ => true
  end.

(** The invariant of every dict: its keys are pairwise different. *)
Fixpoint keys_distinct (ks : list pykey) : bool :=
  match ks with
  | [] => true
  | k :: r => negb (existsb (key_eqb k) r) && keys_distinct r
  end.

Fixpoint well_formed (v : pyval) : bool :=
  match v with
  | PList l | PTuple l => forallb well_formed l
  | PDict d =>
      keys_distinct (map fst d) && forallb (fun kv => well_formed (snd kv)) d
  | _ => true
  end.

(** [reordered v w]: [w] is [v] with the items of its mappings, at any
    depth, inserted in another order; sequences keep their order. *)
Inductive reordered : pyval -> pyval -> Prop :=
  | reordered_same (v : pyval) : reordered v v
  | reordered_list (l1 l2 : list pyval) :
      Forall2 reordered l1 l2 -> reordered (PList l1) (PList l2)
  | reordered_dict (d1 d d2 : pydict) :
      Permutation d1 d ->
      Forall2 (fun kv1 kv2 =>
                 fst kv1 = fst kv2 /\ reordered (snd kv1) (snd kv2)) d d2 ->
      reordered (PDict d1) (PDict d2).

(** Keys in strictly increasing order, in every mapping at every depth. *)
Fixpoint increasing (ks : list pykey) : bool :=
  match ks with
  | k1 :: (k2 :: _) as r => key_ltb k1 k2 && increasing r
  | _ => true
  end.

Fixpoint keys_sorted (v : pyval) : bool :=
  match v with
  | PList l => forallb keys_sorted l
  | PDict d => increasing (map fst d) && forallb (fun kv => keys_sorted (snd kv)) d
  | _ => true
  end.

(** [sort_object] without its failures: the value it returns when it
    returns one. *)
Fixpoint sorted_value (v : pyval) : pyval :=
  match v with
  | PList l => PList (map sorted_value l)
  | PDict d =>
      PDict (sort_items (map (fun kv => (fst kv, sorted_value (snd kv))) d))
  | _ => v
  end.

(** The dicts [sort_object] reaches (through lists and dict values) have
    keys that can be compared with each other. *)
Fixpoint sortable (v : pyval) : bool :=
  match v with
  | PList l => forallb sortable l
  | PDict d =>
      all_comparable (map fst d) && forallb (fun kv => sortable (snd kv)) d
  | _ => true
  end.

(** What the encoder can write: no bytes object, as a value or as a key. *)
Definition is_bytes_key (k : pykey) : bool :=
  match k with KBytes _ => true | _ => false end.

Fixpoint dumpable (v : pyval) : bool :=
  match v with
  | PList l | PTuple l => forallb dumpable l
  | PDict d =>
      forallb (fun kv => negb (is_bytes_key (fst kv)) && dumpable (snd kv)) d
  | PBytes _ => false
  | _ => true
  end.

(** Following the specification: NaN and the two infinities. *)
Definition is_nonfinite (f : spec_float) : bool :=
  match f with
  | S754_nan | S754_infinity _ => true
  | _ => false
  end.

(** Following the specification: every non-finite number of a JSON value,
    at any depth, replaced by null. *)
Fixpoint null_nonfinite (v : pyval) : pyval :=
  match v with
  | PFloat f => if is_nonfinite f then PNone else v
  | PList l => PList (map null_nonfinite l)
  | PDict d => PDict (map (fun kv => (fst kv, null_nonfinite (snd kv))) d)
  | _ => v
  end.

(** No non-finite number anywhere in a value. *)
Fixpoint all_finite (v : pyval) : bool :=
  match v with
  | PFloat f => negb (is_nonfinite f)
  | PList l | PTuple l => forallb all_finite l
  | PDict d => forallb (fun kv => all_finite (snd kv)) d
  | _ => true
  end.

(** Sample values: a nested mapping in two insertion orders, and values
    outside the JSON sum type. *)
Definition sample_nested : pyval :=
  PDict [ (KStr (py "b"), PList [PDict [ (KStr (py "z"), PInt 1);
                                         (KStr (py "a"), PFloat S754_nan) ]]);
          (KStr (py "a"), PStr (py "x")) ].
Definition sample_nested_reordered : pyval :=
  PDict [ (KStr (py "a"), PStr (py "x"));
          (KStr (py "b"), PList [PDict [ (KStr (py "a"), PFloat S754_nan);
                                         (KStr (py "z"), PInt 1) ]]) ].
Definition sample_int_keyed : pyval := PDict [ (KInt 1, PStr (py "a")) ].
Definition sample_mixed_keyed : pyval :=
  PDict [ (KInt 1, PStr (py "a")); (KStr (py "x"), PNone) ].

(** Items in the order of their keys; keys that can stand in one dict and
    be sorted: comparable and different. *)
Definition klt (kv1 kv2 : pykey * pyval) : Prop :=
  key_ltb (fst kv1) (fst kv2) = true.

Definition compatible (a b : pykey) : Prop :=
  comparable a b = true /\ key_eqb a b = false.

(** The same function on the value of every item. *)
Definition on_values (h : pyval -> pyval) (d : pydict) : pydict :=
  map (fun kv => (fst kv, h (snd kv))) d.

(** Sample values with non-finite numbers, and the same with null. *)
Definition sample_nan : pyval := PDict [ (KStr (py "x"), PFloat S754_nan) ].
Definition sample_null : pyval := PDict [ (KStr (py "x"), PNone) ].
Definition sample_infinities : pyval :=
  PList [ PDict [ (KStr (py "y"), PList [PFloat pos_inf; PInt 7]);
                  (KStr (py "x"), PFloat neg_inf) ] ].

(** ** Vocabulary of the further properties *)

(** A lowercase hexadecimal digit. *)
Definition is_hex_digit (c : N) : bool :=
  ((48 <=? c) && (c <=? 57) || (97 <=? c) && (c <=? 102))%N.

(** Reading one escaped character back from the front of a text: the
    inverse of the escape table, used to show that escaping loses nothing. *)
Definition hex_value (c : N) : N := (if c <? 58 then c - 48 else c - 87)%N.

Definition unescape_char (s : pystr) : option (N * pystr) :=
  match s with
  | [] => None
  | c :: r =>
      if (c =? 92)%N then
        match r with
        | [] => None
        | e :: r' =>
            if (e =? 117)%N then
              match r' with
              | _ :: _ :: h :: l :: r'' =>
                  Some ((16 * hex_value h + hex_value l)%N, r'')
              | _ => None
              end
            else
              Some ((if e =? 110 then 10
                     else if e =? 114 then 13
                     else if e =? 116 then 9
                     else if e =? 98 then 8
                     else if e =? 102 then 12
                     else e)%N, r')
        end
      else Some (c, r)
  end.

(** The compact form of the manifest: the fields of the template in the
    same order, without the layout's line breaks and indentation. *)
Definition compact_layout (compose_escaped script_escaped salt : pystr) : pystr :=
  pyq "{`allowed_envs`:[],`default_gateway_domain`:null,`docker_compose_file`:`"
    ++ compose_escaped
    ++ pyq "`,`features`:[`kms`,`tproxy-net`],`gateway_enabled`:true,`kms_enabled`:true,`local_key_provider_enabled`:false,`manifest_version`:2,`name`:`simple-det-app-verification`,`no_instance_id`:false,`pre_launch_script`:`"
    ++ script_escaped
    ++ pyq "`,`public_logs`:true,`public_sysinfo`:true,`runner`:`docker-compose`,`salt`:`"
    ++ salt
    ++ pyq "`,`tproxy_enabled`:true}".

(** Sample outside for the generator: every path exists, every write
    succeeds. *)
Definition sample_disk : disk := Disk (fun _ => true) (fun _ _ => None).
Definition sample_disk_empty : disk := Disk (fun _ => false) (fun _ _ => None).

(** Sample files where the text read from a path is the path itself, so
    that two paths stand for two compose files. *)
Definition sample_files_by_path : files :=
  Files (fun path => Ok path)
        (fun _ => Ok sample_deployed_bytes)
        (fun _ => Ok (PDict sample_manifest_other_salt)).

(** Sample files whose deployed document parses to a sequence. *)
Definition sample_files_list : files :=
  Files (fun _ => Ok sample_compose)
        (fun _ => Ok (py "[]"))
        (fun _ => Ok (PList [])).


(** The path the generator reads: its first argument, or the default. *)
Definition input_path (argv : list pystr) : pystr :=
  match argv with
  | _ :: path :: _ => path
  | _ => py "docker-compose.yml"
  end.

(** Sample files for a generated manifest verified against itself: the
    deployed file holds the bytes of the generator's rendering of
    [sample_compose], and parses to the manifest with the default salt. *)
Definition sample_generated_text : pystr :=
  manifest_layout (escape_body sample_compose)
    (escape_body get_default_pre_launch_script) default_salt.
Definition sample_files_generated : files :=
  Files (fun _ => Ok sample_compose)
        (fun _ => Ok (encoded sample_generated_text))
        (fun _ => Ok (PDict sample_manifest)).

(** A sample mapping with integer and boolean keys, out of order. *)
Definition sample_int_items : pydict :=
  [ (KInt 7, PList [PFloat S754_nan]); (KBool true, PDict [(KStr (py "b"), PNone); (KStr (py "a"), PInt 0)]);
    (KInt (-2), PStr (py "x")) ].

(** Sample files whose compose text is the word PRE_LAUNCH_SCRIPT, beside a
    deployed document with the default salt. *)
Definition sample_files_placeholder : files :=
  Files (fun _ => Ok PRE_LAUNCH_SCRIPT)
        (fun _ => Ok (py "{}"))
        (fun _ => Ok (PDict sample_manifest)).

(** [sample_files] with a deployed document that holds the salt alone. *)
Definition sample_files_salt_only : files :=
  Files (fun _ => Ok sample_compose)
        (fun _ => Ok sample_deployed_bytes)
        (fun _ => Ok (PDict [(KStr (py "salt"), PStr sample_salt)])).

(** * The model on known values *)

Example sha256_abc :
  SHA256.hexdigest (py "abc")
  = py "ba7816bf8f01cfea414140de5dae2223b00361a396177a9cb410ff61f20015ad".
Proof. vm_compute. reflexivity. Qed.

Example sha256_empty :
  SHA256.hexdigest []
  = py "e3b0c44298fc1c149afbf4c8996fb92427ae41e4649b934ca495991b7852b855".
Proof. vm_compute. reflexivity. Qed.

Example utf8_sample :
  UTF8.encode [104; 233; 8364; 128512]%N
  = Ok [104; 195; 169; 226; 130; 172; 240; 159; 152; 128]%N.
Proof. reflexivity. Qed.

Example utf8_surrogate : UTF8.encode [55296%N] = Raise UnicodeEncodeError.
Proof. reflexivity. Qed.

Example escape_sample :
  escape_body (pyq "a`b/c" ++ [92; 10; 9; 1; 127; 233]%N)
  = py "a" ++ [92; 34]%N ++ py "b/c" ++ [92; 92]%N ++ py "\n\t\u0001"
      ++ [127; 233]%N.
Proof. reflexivity. Qed.

Example replace_sample :
  replace (py "aXXXbXXc") (py "XX") (py "yy") = py "ayyXbyyc".
Proof. reflexivity. Qed.

Example canonical_sample :
  to_deterministic_json sample_interpreter sample_nested
  = Ok (pyq "{`a`:`x`,`b`:[{`a`:null,`z`:1}]}").
Proof. reflexivity. Qed.

(** The limits of the interpreter: where 640 digits are converted, an int
    of 640 digits is written and one of 641 digits raises ValueError,
    whatever its sign; a list nested 400 times is sorted and one nested 401
    times raises RecursionError. *)
Example int_limit_sample :
  int_repr shallow_interpreter (long_int 640) = Ok (int_text (long_int 640)) /\
  List.length (int_text (long_int 640)) = 640%nat /\
  int_repr shallow_interpreter (long_int 641) = Raise ValueError /\
  int_repr shallow_interpreter (- long_int 641) = Raise ValueError /\
  int_repr shallow_interpreter (-1234) = Ok (py "-1234").
Proof. repeat (split; [vm_compute; reflexivity|]). reflexivity. Qed.

Example recursion_limit_sample :
  sort_object 400 (nested_list 400 PNone) = Ok (nested_list 400 PNone) /\
  sort_object 400 (nested_list 401 PNone) = Raise RecursionError /\
  process_data 400 (nested_list 401 PNone) = Raise RecursionError /\
  json_dumps sample_interpreter (py ",") (py ":") 2 (nested_list 2 (PInt 7))
    = Ok (py "[[7]]") /\
  json_dumps sample_interpreter (py ",") (py ":") 2 (nested_list 3 (PInt 7))
    = Raise RecursionError /\
  json_dumps sample_interpreter (py ",") (py ":") 0 (PTuple [])
    = Raise RecursionError.
Proof. repeat (split; [vm_compute; reflexivity|]). reflexivity. Qed.

(** The error met first is the one raised: the items of a dict are visited
    in the order of their keys. *)
Example first_error_sample :
  sort_object 1
    (PDict [ (KStr (py "b"), nested_list 2 PNone);
             (KStr (py "a"), PList [sample_mixed_keyed]) ])
  = Raise RecursionError /\
  sort_object 2
    (PDict [ (KStr (py "b"), nested_list 2 PNone);
             (KStr (py "a"), PList [sample_mixed_keyed]) ])
  = Raise TypeError.
Proof. split; reflexivity. Qed.

(** A run of the verifier on a deployed manifest that matches, with a
    console that prints everything and with one whose encoding is ASCII. *)
Example verifier_sample :
  (exists v,
      verify_deployed_hash sample_interpreter sample_files sample_disk
        sample_console (py "docker-compose.yml") (py "app-compose.json")
      = Ok v /\ returned v = true) /\
  verify_deployed_hash sample_interpreter sample_files sample_disk
    ascii_console (py "docker-compose.yml") (py "app-compose.json")
  = Raise UnicodeEncodeError /\
  verify_deployed_hash sample_interpreter sample_files read_only_disk
    sample_console (py "docker-compose.yml") (py "app-compose.json")
  = Raise OSError.
Proof.
  split; [eexists; split; [vm_compute; reflexivity|reflexivity]|].
  split; vm_compute; reflexivity.
Qed.

(** The digest of the manifest of a three-line compose file with the
    default boot script and the default salt. *)
Example compose_hash_sample :
  get_compose_hash sample_interpreter
    (app_compose_of (py "services:" ++ [10%N] ++ py "  app:" ++ [10%N]
                       ++ py "    image: nginx" ++ [10%N]))
  = Ok (py "2416dbb09d8d86adb51bdd4afcabe64c0b2ef944df090a0ccb15193991f56b49").
Proof. vm_compute. reflexivity. Qed.

(** * Strings *)

Lemma startswith_app_sep (old : pystr) (c : N) (X : pystr) :
  ~ In c old -> forall B, startswith old (B ++ c :: X) = startswith old B.
Proof.
  intro Hc. induction old as [|x old IH]; intros B.
  - now destruct B.
  - destruct B as [|b B]; simpl.
    + assert (x <> c) by (intro; subst; apply Hc; now left).
      apply N.eqb_neq in H. now rewrite H.
    + rewrite IH; [reflexivity|]. intro; apply Hc; now right.
Qed.

Lemma startswith_length (old s : pystr) :
  startswith old s = true -> (List.length old <= List.length s)%nat.
Proof.
  revert s; induction old as [|x old IH]; intros [|y s]; simpl; try lia;
    try discriminate.
  intro H. apply andb_true_iff in H as [_ H]. apply IH in H. lia.
Qed.

Lemma replace_from_app_sep (old new : pystr) (c : N) (X : pystr) :
  ~ In c old -> old <> [] ->
  forall A k, (k <= List.length A)%nat ->
    replace_from old new k (A ++ c :: X)
    = replace_from old new k A ++ replace_from old new 0 (c :: X).
Proof.
  intros Hc Hne. induction A as [|a A IH]; intros k Hk.
  - simpl in Hk. assert (k = 0)%nat by lia; subst.
    destruct old; [congruence|reflexivity].
  - destruct k as [|k].
    + change ((a :: A) ++ c :: X) with (a :: (A ++ c :: X)).
      cbn [replace_from].
      change (a :: A ++ c :: X) with ((a :: A) ++ c :: X).
      rewrite startswith_app_sep by assumption.
      destruct (startswith old (a :: A)) eqn:Hs.
      * destruct old as [|o old']; [congruence|].
        apply startswith_length in Hs. simpl in Hs.
        rewrite IH by (simpl; lia). now rewrite app_assoc.
      * rewrite IH by lia. reflexivity.
    + simpl. apply IH. simpl in Hk. lia.
Qed.

Lemma replace_app_sep (old new A X : pystr) (c : N) :
  ~ In c old -> old <> [] ->
  replace (A ++ c :: X) old new = replace A old new ++ replace (c :: X) old new.
Proof.
  intros. unfold replace. apply replace_from_app_sep; auto. lia.
Qed.

Lemma replace_absent (old new s : pystr) :
  old <> [] -> contains old s = false -> replace s old new = s.
Proof.
  intros Hne. unfold replace. induction s as [|c s IH]; intro H.
  - destruct old; [congruence|reflexivity].
  - simpl in H. apply orb_false_iff in H as [H1 H2].
    cbn [replace_from]. rewrite H1. now rewrite IH.
Qed.

Lemma slice_quoted (body : pystr) : slice_1_m1 (encode_basestring body) = escape_body body.
Proof.
  unfold slice_1_m1, encode_basestring. simpl. apply removelast_last.
Qed.

(** * The literal rendering *)

Ltac not_in_literal :=
  let H := fresh in
  intro H; vm_compute in H;
  repeat (destruct H as [H|H]; [discriminate H|]); exact H.

Lemma quote_not_in_placeholder : ~ In 34%N PRE_LAUNCH_SCRIPT.
Proof. not_in_literal. Qed.

Lemma placeholder_not_empty : PRE_LAUNCH_SCRIPT <> [].
Proof. discriminate. Qed.

(** The first substitution finds the one placeholder of the template. *)
Lemma template_first_replace (dce : pystr) :
  replace template DOCKER_COMPOSE_CONTENT dce
  = verify_head ++ dce ++ verify_middle ++ PRE_LAUNCH_SCRIPT
      ++ verify_before_salt ++ default_salt ++ verify_tail.
Proof. vm_compute. reflexivity. Qed.

(** The second substitution runs over the text the first one has put in. *)
Lemma template_second_replace (dce ple : pystr) :
  replace (verify_head ++ dce ++ verify_middle ++ PRE_LAUNCH_SCRIPT
             ++ verify_before_salt ++ default_salt ++ verify_tail)
          PRE_LAUNCH_SCRIPT ple
  = manifest_layout (replace dce PRE_LAUNCH_SCRIPT ple) ple default_salt.
Proof.
  pose proof quote_not_in_placeholder as Hq.
  pose proof placeholder_not_empty as Hne.
  unfold manifest_layout.
  set (rest := verify_before_salt ++ default_salt ++ verify_tail).
  assert (Hhead : verify_head = removelast verify_head ++ [34%N]) by reflexivity.
  assert (Hmid : verify_middle = 34%N :: tl verify_middle) by reflexivity.
  set (h := removelast verify_head) in *. set (m := tl verify_middle) in *.
  assert (Hh : replace h PRE_LAUNCH_SCRIPT ple = h) by (vm_compute; reflexivity).
  assert (Ht : replace (34%N :: m ++ PRE_LAUNCH_SCRIPT ++ rest) PRE_LAUNCH_SCRIPT ple
               = 34%N :: m ++ ple ++ rest) by (vm_compute; reflexivity).
  assert (Hd : replace (34%N :: dce) PRE_LAUNCH_SCRIPT ple
               = 34%N :: replace dce PRE_LAUNCH_SCRIPT ple) by reflexivity.
  rewrite Hhead, Hmid. clearbody h m rest.
  rewrite <- !app_assoc. cbn [app].
  rewrite (@replace_app_sep PRE_LAUNCH_SCRIPT ple h _ 34%N Hq Hne).
  change (34%N :: dce ++ 34%N :: m ++ PRE_LAUNCH_SCRIPT ++ rest)
    with ((34%N :: dce) ++ 34%N :: m ++ PRE_LAUNCH_SCRIPT ++ rest).
  rewrite (@replace_app_sep PRE_LAUNCH_SCRIPT ple (34%N :: dce) _ 34%N Hq Hne).
  rewrite Hh, Hd, Ht. reflexivity.
Qed.

Lemma template_rendering (dce ple : pystr) :
  replace (replace template DOCKER_COMPOSE_CONTENT dce) PRE_LAUNCH_SCRIPT ple
  = manifest_layout (replace dce PRE_LAUNCH_SCRIPT ple) ple default_salt.
Proof. rewrite template_first_replace. apply template_second_replace. Qed.

Lemma pystr_eqb_eq (a b : pystr) : pystr_eqb a b = true <-> a = b.
Proof.
  revert b; induction a as [|x a IH]; intros [|y b]; simpl; split;
    try congruence; try discriminate.
  - intro H. apply andb_true_iff in H as [H1 H2].
    apply N.eqb_eq in H1. apply IH in H2. congruence.
  - intro H. injection H as -> ->. rewrite N.eqb_refl. now apply IH.
Qed.

Lemma pystr_eqb_refl (a : pystr) : pystr_eqb a a = true.
Proof. now apply pystr_eqb_eq. Qed.

Lemma key_eqb_str_inv (k : pykey) (s : pystr) :
  key_eqb k (KStr s) = true -> k = KStr s.
Proof.
  destruct k as [a|z|b| |b]; simpl; try discriminate.
  intro H. apply pystr_eqb_eq in H. now subst.
Qed.

(** Setting one str key leaves the lookup of another str key as it was. *)
Lemma dict_lookup_set_other (d : pydict) (a b : pystr) (v : pyval) :
  a <> b ->
  dict_lookup (dict_set d (KStr a) v) (KStr b) = dict_lookup d (KStr b).
Proof.
  intro Hab. induction d as [|[k w] d IH]; simpl.
  - destruct (pystr_eqb a b) eqn:E; [|reflexivity].
    apply pystr_eqb_eq in E. contradiction.
  - destruct (key_eqb k (KStr a)) eqn:Ea; simpl.
    + apply key_eqb_str_inv in Ea. subst k. simpl.
      destruct (pystr_eqb a b) eqn:E; [|reflexivity].
      apply pystr_eqb_eq in E. contradiction.
    + now rewrite IH.
Qed.

Section Rendering.
Variable it : interpreter.

(** The rendering in one equation: the layout of the template, with the
    second substitution run over the escaped compose text. *)
Lemma to_dstack_format_json_eq (data : pyval) :
  to_dstack_format_json it data =
  (c <- getitem data (py "docker_compose_file") ;;
   p <- getitem data (py "pre_launch_script") ;;
   dce <- dumps_unquoted it c ;;
   ple <- dumps_unquoted it p ;;
   Ok (manifest_layout (replace dce PRE_LAUNCH_SCRIPT ple) ple default_salt)).
Proof.
  unfold to_dstack_format_json.
  destruct (getitem data (py "docker_compose_file")) as [c|]; [|reflexivity].
  destruct (getitem data (py "pre_launch_script")) as [p|]; [|reflexivity].
  cbn [bind].
  destruct (dumps_unquoted it c) as [dce|]; [|reflexivity].
  destruct (dumps_unquoted it p) as [ple|]; [|reflexivity].
  cbn [bind]. f_equal. apply template_rendering.
Qed.

Lemma dumps_unquoted_str (s : pystr) :
  dumps_unquoted it (PStr s) = Ok (escape_body s).
Proof. unfold dumps_unquoted. cbn. f_equal. apply slice_quoted. Qed.

Lemma to_dstack_format_json_strings (d : pydict) (c p : pystr) :
  dict_lookup d (KStr (py "docker_compose_file")) = Some (PStr c) ->
  dict_lookup d (KStr (py "pre_launch_script")) = Some (PStr p) ->
  to_dstack_format_json it (PDict d) =
  Ok (manifest_layout
        (replace (escape_body c) PRE_LAUNCH_SCRIPT (escape_body p))
        (escape_body p) default_salt).
Proof.
  intros Hc Hp. rewrite to_dstack_format_json_eq. unfold getitem.
  rewrite Hc, Hp. cbn [bind]. now rewrite !dumps_unquoted_str.
Qed.
End Rendering.

(** What the escape table does to each character: a backslash sequence for
    quote, backslash and control characters, the character itself for the
    rest (so for the forward slash and for everything beyond ASCII). *)
Lemma escape_char_spec (c : N) :
  if is_escaped c
  then hd 0%N (escape_char c) = 92%N /\ (2 <= List.length (escape_char c))%nat
  else escape_char c = [c].
Proof.
  unfold is_escaped, escape_char.
  destruct (N.eqb_spec c 34) as [->|H34]; [now split|].
  destruct (N.eqb_spec c 92) as [->|H92]; [now split|].
  rewrite !orb_false_r.
  destruct (N.ltb_spec c 32) as [Hlt|Hge].
  - repeat match goal with
           | |- context [N.eqb c ?n] => destruct (N.eqb c n)
           end; split; simpl; try reflexivity; lia.
  - repeat match goal with
           | |- context [N.eqb c ?n] =>
               destruct (N.eqb_spec c n) as [->|?]; [lia|]
           end.
    reflexivity.
Qed.

(** C9: the literal rendering reads only the [docker_compose_file] and
    [pre_launch_script] fields of its input: two mappings that agree on these
    two fields are rendered to the same text (or fail alike), whatever their
    other fields hold. *)
Theorem literal_rendering_reads_two_fields
    (it : interpreter) (d1 d2 : pydict) :
  dict_lookup d1 (KStr (py "docker_compose_file"))
    = dict_lookup d2 (KStr (py "docker_compose_file")) ->
  dict_lookup d1 (KStr (py "pre_launch_script"))
    = dict_lookup d2 (KStr (py "pre_launch_script")) ->
  to_dstack_format_json it (PDict d1)
    = to_dstack_format_json it (PDict d2).
Proof.
  intros H1 H2. rewrite !to_dstack_format_json_eq. unfold getitem.
  now rewrite H1, H2.
Qed.

Lemma literal_rendering_reads_two_fields_witness :
  dict_lookup sample_manifest (KStr (py "salt"))
    <> dict_lookup sample_manifest_other_fields (KStr (py "salt")) /\
  to_dstack_format_json sample_interpreter (PDict sample_manifest)
    = to_dstack_format_json sample_interpreter (PDict sample_manifest_other_fields).
Proof.
  split.
  - vm_compute. discriminate.
  - apply (@literal_rendering_reads_two_fields sample_interpreter
             sample_manifest sample_manifest_other_fields);
      vm_compute; reflexivity.
Defined.

(** C1, as the code has it: the literal rendering writes the default salt
    constant at the salt position of the template, whatever the salt field
    of the manifest holds; a manifest and the same manifest with another
    salt have the same rendering and the same digest. *)
Theorem literal_rendering_ignores_salt
    (it : interpreter) (d : pydict) (salt : pyval) :
  to_dstack_format_json it (PDict (dict_set d (KStr (py "salt")) salt))
    = to_dstack_format_json it (PDict d) /\
  get_compose_hash it (PDict (dict_set d (KStr (py "salt")) salt))
    = get_compose_hash it (PDict d) /\
  match to_dstack_format_json it (PDict d) with
  | Ok r => exists body,
      r = body ++ verify_before_salt ++ default_salt ++ verify_tail
  | Raise _ => True
  end.
Proof.
  assert (E : to_dstack_format_json it
                (PDict (dict_set d (KStr (py "salt")) salt))
              = to_dstack_format_json it (PDict d)).
  { rewrite !to_dstack_format_json_eq. unfold getitem.
    rewrite !dict_lookup_set_other by (vm_compute; discriminate).
    reflexivity. }
  split; [exact E|]. split.
  - unfold get_compose_hash. now rewrite E.
  - rewrite to_dstack_format_json_eq.
    destruct (getitem (PDict d) (py "docker_compose_file")) as [c|]; [|exact I].
    destruct (getitem (PDict d) (py "pre_launch_script")) as [p|]; [|exact I].
    cbn [bind].
    destruct (dumps_unquoted it c) as [dce|]; [|exact I].
    destruct (dumps_unquoted it p) as [ple|]; [|exact I].
    cbn [bind]. unfold manifest_layout.
    exists (verify_head ++ replace dce PRE_LAUNCH_SCRIPT ple ++ verify_middle ++ ple).
    now rewrite <- !app_assoc.
Qed.

(** C1, as stated, fails: a manifest whose salt field holds an override
    different from the default constant is rendered without the override,
    to the same text and the same digest as with the default salt. *)
Lemma salt_override_is_not_rendered :
  dict_lookup sample_manifest_other_salt (KStr (py "salt"))
    = Some (PStr sample_salt) /\
  pystr_eqb sample_salt default_salt = false /\
  to_dstack_format_json sample_interpreter (PDict sample_manifest_other_salt)
    = to_dstack_format_json sample_interpreter (PDict sample_manifest) /\
  get_compose_hash sample_interpreter (PDict sample_manifest_other_salt)
    = get_compose_hash sample_interpreter (PDict sample_manifest) /\
  match to_dstack_format_json sample_interpreter (PDict sample_manifest_other_salt) with
  | Ok r => contains sample_salt r = false /\ contains default_salt r = true
  | Raise _ => False
  end.
Proof. vm_compute. repeat split. Qed.

(** C2 at a compose text that holds the second placeholder: the rendering
    puts the escaped boot script where the compose text should stand, so the
    result is not the layout with the escaped compose text in it; it is the
    rendering of another compose text, the boot script itself. *)
Theorem placeholder_in_compose_text_is_substituted :
  to_dstack_format_json sample_interpreter (app_compose_of PRE_LAUNCH_SCRIPT)
    = Ok (manifest_layout (escape_body get_default_pre_launch_script)
            (escape_body get_default_pre_launch_script) default_salt) /\
  pystr_eqb
    (manifest_layout (escape_body get_default_pre_launch_script)
       (escape_body get_default_pre_launch_script) default_salt)
    (manifest_layout (escape_body PRE_LAUNCH_SCRIPT)
       (escape_body get_default_pre_launch_script) default_salt) = false /\
  to_dstack_format_json sample_interpreter (app_compose_of PRE_LAUNCH_SCRIPT)
    = to_dstack_format_json sample_interpreter
        (app_compose_of get_default_pre_launch_script).
Proof. vm_compute. repeat split. Qed.

(** Where the escaped compose text holds no placeholder, the rendering is
    the layout with both escaped texts in it. *)
Lemma literal_rendering_without_placeholder
    (it : interpreter) (d : pydict) (c p : pystr) :
  dict_lookup d (KStr (py "docker_compose_file")) = Some (PStr c) ->
  dict_lookup d (KStr (py "pre_launch_script")) = Some (PStr p) ->
  contains PRE_LAUNCH_SCRIPT (escape_body c) = false ->
  to_dstack_format_json it (PDict d)
    = Ok (manifest_layout (escape_body c) (escape_body p) default_salt).
Proof.
  intros Hc Hp Hno. rewrite (to_dstack_format_json_strings _ _ Hc Hp).
  now rewrite (@replace_absent PRE_LAUNCH_SCRIPT (escape_body p) (escape_body c)
                 placeholder_not_empty Hno).
Qed.

(** * The traversals, one level at a time *)

Lemma sort_object_eq (depth : nat) (obj : pyval) :
  sort_object depth obj =
  match obj with
  | PList l => l' <- mapM (sort_nested depth) l ;; Ok (PList l')
  | PDict d =>
      items <- sorted_items d ;;
      d' <- mapM (fun kv => v <- sort_nested depth (snd kv) ;; Ok (fst kv, v))
              items ;;
      Ok (PDict d')
  | _ => Ok obj
  end.
Proof. destruct depth, obj; reflexivity. Qed.

Lemma process_data_eq (depth : nat) (obj : pyval) :
  process_data depth obj =
  match obj with
  | PDict d =>
      d' <- mapM (fun kv => v <- process_nested depth (snd kv) ;; Ok (fst kv, v))
              d ;;
      Ok (PDict d')
  | PList l => l' <- mapM (process_nested depth) l ;; Ok (PList l')
  | _ => Ok (convert_special_values obj)
  end.
Proof. destruct depth, obj; reflexivity. Qed.

(** A string passes through the canonical serializer at any depth. *)
Lemma to_deterministic_json_str (it : interpreter) (s : pystr) :
  to_deterministic_json it (PStr s) = Ok (encode_basestring s).
Proof.
  unfold to_deterministic_json. rewrite sort_object_eq. cbn [bind].
  rewrite process_data_eq. reflexivity.
Qed.

(** * Escaping in the two serializers *)

(** C8: the escaped form the literal renderer embeds for a string (the
    string encoded as JSON, outer quotes removed) is the escaped form the
    canonical serializer writes between the quotes of that string, alone or
    as one of the two free-text fields of a mapping (which the serializer
    writes on every interpreter that has room for one level of nesting, and
    refuses with RecursionError on one that has not); both are
    [escape_body], which leaves every character outside quote, backslash
    and the control characters as it is. *)
Theorem escaping_is_the_same_in_both_serializers
    (it : interpreter) (s t : pystr) :
  dumps_unquoted it (PStr s) = Ok (escape_body s) /\
  to_deterministic_json it (PStr s)
    = Ok (pyq "`" ++ escape_body s ++ pyq "`") /\
  to_deterministic_json it
    (PDict [ (KStr (py "pre_launch_script"), PStr t);
             (KStr (py "docker_compose_file"), PStr s) ])
    = (if Nat.leb 1 (recursion_depth it) && Nat.leb 1 (encoder_depth it)
       then Ok (pyq "{`docker_compose_file`:`" ++ escape_body s
                  ++ pyq "`,`pre_launch_script`:`" ++ escape_body t ++ pyq "`}")
       else Raise RecursionError) /\
  (forall c, escape_body [c] = if is_escaped c then escape_char c else [c]).
Proof.
  split; [apply dumps_unquoted_str|].
  split; [apply to_deterministic_json_str|]. split.
  - unfold to_deterministic_json.
    destruct (recursion_depth it) as [|r]; [reflexivity|].
    rewrite sort_object_eq.
    match goal with
    | |- context [sorted_items ?d] =>
        assert (Hs : sorted_items d
                     = Ok [ (KStr (py "docker_compose_file"), PStr s);
                            (KStr (py "pre_launch_script"), PStr t) ])
          by (vm_compute; reflexivity);
        rewrite Hs
    end.
    cbn [bind mapM fst snd sort_nested].
    rewrite !sort_object_eq. cbn [bind fst].
    rewrite process_data_eq. cbn [mapM bind snd fst process_nested].
    rewrite !process_data_eq. cbn [bind convert_special_values Nat.leb andb].
    destruct (encoder_depth it) as [|e]; [reflexivity|].
    cbn. unfold encode_basestring.
    f_equal. cbn. rewrite <- ?app_assoc. cbn. rewrite <- ?app_assoc. reflexivity.
  - intro c. unfold escape_body. cbn [flat_map]. rewrite app_nil_r.
    pose proof (escape_char_spec c) as H.
    destruct (is_escaped c); [reflexivity|exact H].
Qed.

(** * Encoding to UTF-8 *)


Lemma encodable_app (a b : pystr) :
  encodable (a ++ b) = encodable a && encodable b.
Proof. apply forallb_app. Qed.

Lemma encodable_escape_char (c : N) :
  encodable [c] = true -> encodable (escape_char c) = true.
Proof.
  intro Hc. pose proof (escape_char_spec c) as H.
  destruct (is_escaped c) eqn:E; [|now rewrite H].
  clear H Hc.
  assert (Hall : forallb (fun n => encodable (escape_char (N.of_nat n)))
                   (seq 0 93) = true) by (vm_compute; reflexivity).
  rewrite forallb_forall in Hall.
  assert (Hlt : (c < 93)%N).
  { unfold is_escaped in E.
    destruct (N.ltb_spec c 32); [lia|].
    destruct (N.eqb_spec c 34); [lia|].
    destruct (N.eqb_spec c 92); [lia|discriminate]. }
  specialize (Hall (N.to_nat c)). rewrite N2Nat.id in Hall.
  apply Hall. apply in_seq. lia.
Qed.

Lemma encodable_escape_body (s : pystr) :
  encodable s = true -> encodable (escape_body s) = true.
Proof.
  induction s as [|c s IH]; [reflexivity|].
  intro H. change (c :: s) with ([c] ++ s) in H.
  rewrite encodable_app in H. apply andb_true_iff in H as [Hc Hs].
  change (escape_body (c :: s)) with (escape_char c ++ escape_body s).
  rewrite encodable_app.
  now rewrite (encodable_escape_char _ Hc), (IH Hs).
Qed.

Lemma encodable_manifest_layout (c p salt : pystr) :
  encodable c = true -> encodable p = true -> encodable salt = true ->
  encodable (manifest_layout c p salt) = true.
Proof.
  intros Hc Hp Hs. unfold manifest_layout.
  rewrite !encodable_app, Hc, Hp, Hs.
  vm_compute. reflexivity.
Qed.

Lemma encodable_default_script :
  encodable (escape_body get_default_pre_launch_script) = true.
Proof. vm_compute. reflexivity. Qed.

(** * Results *)

Lemma Ok_inj (A : Type) (a b : A) : Ok a = Ok b -> a = b.
Proof. intro H. now injection H. Qed.

Lemma Raise_inj (A : Type) (e e' : pyexc) : @Raise A e = Raise e' -> e = e'.
Proof. intro H. now injection H. Qed.

Ltac bind_inv E :=
  repeat match type of E with
         | bind ?m _ = Ok _ =>
             let a := fresh "a" in
             let Ha := fresh "Ha" in
             destruct m as [a|] eqn:Ha; cbn [bind] in E; [|discriminate E]
         end.

Lemma manifest_layout_salt_inj (c p s1 s2 : pystr) :
  manifest_layout c p s1 = manifest_layout c p s2 -> s1 = s2.
Proof.
  unfold manifest_layout. intro H.
  repeat apply app_inv_head in H. now apply app_inv_tail in H.
Qed.

(** * The order of keys *)

Ltac cmp_cases :=
  repeat match goal with
         | |- context [N.ltb ?x ?y] => destruct (N.ltb_spec x y)
         | |- context [N.eqb ?x ?y] => destruct (N.eqb_spec x y)
         | H : context [N.ltb ?x ?y] |- _ => destruct (N.ltb_spec x y)
         | H : context [N.eqb ?x ?y] |- _ => destruct (N.eqb_spec x y)
         end.

Lemma pystr_ltb_asym (a b : pystr) :
  pystr_ltb a b = true -> pystr_ltb b a = false.
Proof.
  revert b; induction a as [|x a IH]; intros [|y b]; simpl; try congruence.
  intro H. cmp_cases; try congruence; try lia. now apply IH.
Qed.

Lemma pystr_ltb_trans (a b c : pystr) :
  pystr_ltb a b = true -> pystr_ltb b c = true -> pystr_ltb a c = true.
Proof.
  revert b c; induction a as [|x a IH]; intros [|y b] [|z c]; simpl;
    try congruence.
  intros H1 H2. cmp_cases; try congruence; try lia. eapply IH; eassumption.
Qed.

Lemma pystr_ltb_total (a b : pystr) :
  pystr_ltb a b = false -> pystr_ltb b a = false -> a = b.
Proof.
  revert b; induction a as [|x a IH]; intros [|y b]; simpl; try congruence.
  intros H1 H2. cmp_cases; try congruence; try lia.
  subst. f_equal. now apply IH.
Qed.

Lemma key_ltb_asym (a b : pykey) : key_ltb a b = true -> key_ltb b a = false.
Proof.
  unfold key_ltb.
  destruct a as [s|z|e| |s], b as [t|w|f| |t]; cbn [key_lt key_eqb key_int];
    try congruence;
    try apply pystr_ltb_asym;
    intro H; apply Z.ltb_lt in H; apply Z.ltb_ge; lia.
Qed.

Lemma key_ltb_trans (a b c : pykey) :
  key_ltb a b = true -> key_ltb b c = true -> key_ltb a c = true.
Proof.
  unfold key_ltb.
  destruct a as [s|z|e| |s], b as [t|w|f| |t], c as [u|x|g| |u];
    cbn [key_lt key_eqb key_int]; try congruence; try apply pystr_ltb_trans;
    intros H1 H2; apply Z.ltb_lt in H1; apply Z.ltb_lt in H2;
    apply Z.ltb_lt; lia.
Qed.

(** Two keys that can be compared and are not equal are in order, one way
    or the other. *)
Lemma key_ltb_total (a b : pykey) :
  comparable a b = true -> key_eqb a b = false -> key_ltb a b = false ->
  key_ltb b a = true.
Proof.
  unfold comparable, key_ltb.
  destruct a as [s|z|e| |s], b as [t|w|f| |t]; cbn [key_lt key_eqb key_int];
    try congruence;
    intros _ He Hl;
    try (destruct (pystr_ltb t s) eqn:E; [reflexivity|];
         rewrite (pystr_ltb_total _ _ Hl E), pystr_eqb_refl in He;
         discriminate);
    apply Z.eqb_neq in He; apply Z.ltb_ge in Hl; apply Z.ltb_lt; lia.
Qed.

Lemma comparable_sym (a b : pykey) : comparable a b = comparable b a.
Proof.
  unfold comparable.
  destruct a as [s|z|e| |s], b as [t|w|f| |t]; reflexivity.
Qed.

Lemma key_eqb_sym (a b : pykey) : key_eqb a b = key_eqb b a.
Proof.
  assert (Hs : forall s t, pystr_eqb s t = pystr_eqb t s).
  { intros s t. destruct (pystr_eqb s t) eqn:E.
    - apply pystr_eqb_eq in E. subst. symmetry. apply pystr_eqb_refl.
    - destruct (pystr_eqb t s) eqn:E'; [|reflexivity].
      apply pystr_eqb_eq in E'. subst. now rewrite pystr_eqb_refl in E. }
  destruct a as [s|z|e| |s], b as [t|w|f| |t]; cbn [key_lt key_eqb key_int];
    auto using Z.eqb_sym.
Qed.

(** * Sorting the items of a dict *)

Lemma insert_item_perm (kv : pykey * pyval) (l : pydict) :
  Permutation (insert_item kv l) (kv :: l).
Proof.
  induction l as [|a l IH]; simpl; [reflexivity|].
  destruct (key_ltb (fst a) (fst kv)); [|reflexivity].
  rewrite IH. apply perm_swap.
Qed.

Lemma sort_items_perm (d : pydict) : Permutation (sort_items d) d.
Proof.
  induction d as [|kv d IH]; simpl; [reflexivity|].
  rewrite insert_item_perm. now constructor.
Qed.

Lemma compatible_sym (a b : pykey) : compatible a b -> compatible b a.
Proof.
  unfold compatible. now rewrite (comparable_sym b a), (key_eqb_sym b a).
Qed.

Lemma keys_compatible (ks : list pykey) :
  all_comparable ks = true -> keys_distinct ks = true ->
  ForallOrdPairs compatible ks.
Proof.
  induction ks as [|k ks IH]; simpl; intros Hc Hd; constructor.
  - apply andb_true_iff in Hc as [Hc _]. apply andb_true_iff in Hd as [Hd _].
    apply negb_true_iff in Hd. rewrite forallb_forall in Hc.
    apply Forall_forall. intros x Hx. split; [now apply Hc|].
    destruct (key_eqb k x) eqn:E; [|reflexivity].
    rewrite <- Hd. symmetry. apply existsb_exists. now exists x.
  - apply andb_true_iff in Hc as [_ Hc]. apply andb_true_iff in Hd as [_ Hd].
    now apply IH.
Qed.

Lemma compatible_perm (ks ks2 : list pykey) :
  Permutation ks ks2 ->
  ForallOrdPairs compatible ks -> ForallOrdPairs compatible ks2.
Proof.
  induction 1 as [|x l l2 HP IH|x y l|l l2 l3 _ IH1 _ IH2]; intro H.
  - exact H.
  - inversion H; subst. constructor; [|now apply IH].
    eapply Permutation_Forall; eassumption.
  - inversion H as [|? ? Hy Hr]; subst. inversion Hr as [|? ? Hx Hl]; subst.
    inversion Hy as [|? ? Hyx Hyl]; subst.
    constructor; [constructor; [now apply compatible_sym|assumption]|].
    now constructor.
  - auto.
Qed.

Lemma insert_item_sorted (kv : pykey * pyval) (l : pydict) :
  StronglySorted klt l ->
  Forall (fun x => compatible (fst kv) (fst x)) l ->
  StronglySorted klt (insert_item kv l).
Proof.
  induction 1 as [|a l Hs IH Ha]; intro Hkv; simpl.
  - repeat constructor.
  - inversion Hkv as [|? ? [Hcmp Hne] Hrest]; subst.
    destruct (key_ltb (fst a) (fst kv)) eqn:E.
    + constructor; [now apply IH|].
      eapply Permutation_Forall; [symmetry; apply insert_item_perm|].
      now constructor.
    + assert (Hlt : klt kv a).
      { unfold klt. apply key_ltb_total;
          [rewrite comparable_sym|rewrite key_eqb_sym|]; assumption. }
      constructor; [now constructor|]. constructor; [exact Hlt|].
      eapply Forall_impl; [|exact Ha].
      intros x Hx. unfold klt in *. eapply key_ltb_trans; eassumption.
Qed.

Lemma sort_items_sorted (d : pydict) :
  ForallOrdPairs compatible (map fst d) -> StronglySorted klt (sort_items d).
Proof.
  induction d as [|kv d IH]; simpl; intro H; [constructor|].
  inversion H as [|? ? Hk Hd]; subst.
  apply insert_item_sorted; [now apply IH|].
  eapply Permutation_Forall; [symmetry; apply sort_items_perm|].
  rewrite Forall_map in Hk. exact Hk.
Qed.

(** A list of items in strict key order is the only one among its
    permutations. *)
Lemma sorted_perm_unique (l1 l2 : pydict) :
  StronglySorted klt l1 -> StronglySorted klt l2 -> Permutation l1 l2 ->
  l1 = l2.
Proof.
  intro H1. revert l2.
  induction H1 as [|a l1 Hs IH Ha]; intros l2 H2 HP.
  - apply Permutation_nil in HP. now subst.
  - destruct H2 as [|b l2 Hs2 Hb].
    + symmetry in HP. apply Permutation_nil in HP. discriminate.
    + assert (Hab : a = b).
      { assert (Hin : In a (b :: l2))
          by (eapply Permutation_in; [exact HP|now left]).
        destruct Hin as [->|Hin]; [reflexivity|].
        assert (Hin2 : In b (a :: l1))
          by (eapply Permutation_in; [symmetry; exact HP|now left]).
        destruct Hin2 as [->|Hin2]; [reflexivity|].
        rewrite Forall_forall in Ha, Hb.
        pose proof (Ha _ Hin2) as Hlt1. pose proof (Hb _ Hin) as Hlt2.
        unfold klt in *. apply key_ltb_asym in Hlt1. congruence. }
      subst b. f_equal. apply IH; [assumption|].
      eapply Permutation_cons_inv; eassumption.
Qed.

(** The sorted items do not depend on the insertion order. *)
Lemma sort_items_invariant (d d2 : pydict) :
  ForallOrdPairs compatible (map fst d) -> Permutation d d2 ->
  sort_items d = sort_items d2.
Proof.
  intros Hk HP. apply sorted_perm_unique.
  - now apply sort_items_sorted.
  - apply sort_items_sorted. eapply compatible_perm; [|exact Hk].
    now apply Permutation_map.
  - now rewrite !sort_items_perm.
Qed.

Lemma insert_item_on_values (h : pyval -> pyval) (kv : pykey * pyval)
    (l : pydict) :
  insert_item (fst kv, h (snd kv)) (on_values h l)
  = on_values h (insert_item kv l).
Proof.
  induction l as [|a l IH]; simpl; [reflexivity|].
  destruct (key_ltb (fst a) (fst kv)); simpl; [|reflexivity].
  f_equal. exact IH.
Qed.

Lemma sort_items_on_values (h : pyval -> pyval) (d : pydict) :
  sort_items (on_values h d) = on_values h (sort_items d).
Proof.
  induction d as [|kv d IH]; simpl; [reflexivity|].
  rewrite IH. apply insert_item_on_values.
Qed.

Lemma on_values_keys (h : pyval -> pyval) (d : pydict) :
  map fst (on_values h d) = map fst d.
Proof. unfold on_values. rewrite map_map. reflexivity. Qed.

Lemma sorted_increasing (l : pydict) :
  StronglySorted klt l -> increasing (map fst l) = true.
Proof.
  induction 1 as [|a l Hs IH Ha]; [reflexivity|].
  destruct l as [|b l]; [reflexivity|].
  cbn [map increasing]. inversion Ha; subst.
  apply andb_true_iff. split; assumption.
Qed.

(** * [sort_object] *)

Lemma mapM_spec (A B : Type) (f : A -> pyresult B) (ok : A -> bool)
    (g : A -> B) (e : pyexc) (l : list A) :
  Forall (fun x => f x = if ok x then Ok (g x) else Raise e) l ->
  mapM f l = if forallb ok l then Ok (map g l) else Raise e.
Proof.
  induction 1 as [|x l Hx _ IH]; [reflexivity|].
  cbn [mapM forallb map]. rewrite Hx.
  destruct (ok x); [|reflexivity].
  cbn [bind andb]. rewrite IH. now destruct (forallb ok l).
Qed.

Lemma mapM_ok (A B : Type) (f : A -> pyresult B) (g : A -> B) (l : list A) :
  (forall x, In x l -> f x = Ok (g x)) -> mapM f l = Ok (map g l).
Proof.
  induction l as [|x l IH]; intro H; [reflexivity|].
  cbn [mapM map]. rewrite (H x (or_introl eq_refl)). cbn [bind].
  rewrite IH by (intros y Hy; apply H; now right). reflexivity.
Qed.

Lemma mapM_exists (A B : Type) (f : A -> pyresult B) (l : list A) :
  (forall x, In x l -> exists y, f x = Ok y) -> exists ys, mapM f l = Ok ys.
Proof.
  induction l as [|x l IH]; intro H; [now exists []|].
  destruct (H x (or_introl eq_refl)) as [y Hy].
  destruct IH as [ys Hys]; [intros z Hz; apply H; now right|].
  exists (y :: ys). cbn [mapM]. now rewrite Hy, Hys.
Qed.

Lemma mapM_ok_inv (A B : Type) (f : A -> pyresult B) (l : list A)
    (ys : list B) :
  mapM f l = Ok ys -> forall x, In x l -> exists y, f x = Ok y.
Proof.
  revert ys. induction l as [|x l IH]; intros ys H z Hz; [destruct Hz|].
  cbn [mapM] in H.
  destruct (f x) as [y|] eqn:Hx; cbn [bind] in H; [|discriminate].
  destruct (mapM f l) as [ys'|] eqn:Hl; cbn [bind] in H; [|discriminate].
  destruct Hz as [<-|Hz]; [now exists y|]. now apply (IH ys').
Qed.

Lemma mapM_raise_inv (A B : Type) (f : A -> pyresult B) (l : list A)
    (e : pyexc) :
  mapM f l = Raise e -> exists x, In x l /\ f x = Raise e.
Proof.
  induction l as [|x l IH]; intro H; [discriminate|].
  cbn [mapM] in H.
  destruct (f x) as [y|e'] eqn:Hx; cbn [bind] in H.
  - destruct (mapM f l) as [ys|e'] eqn:Hl; cbn [bind] in H; [discriminate|].
    destruct (IH H) as (z & Hz & Hfz). exists z. split; [now right|exact Hfz].
  - apply Raise_inj in H. subst e'. exists x. split; [now left|exact Hx].
Qed.

Lemma forallb_false_in (A : Type) (p : A -> bool) (l : list A) (x : A) :
  In x l -> p x = false -> forallb p l = false.
Proof.
  intros Hin Hp. destruct (forallb p l) eqn:E; [|reflexivity].
  rewrite forallb_forall in E. now rewrite (E x Hin) in Hp.
Qed.

Lemma sort_items_in (d : pydict) (kv : pykey * pyval) :
  In kv (sort_items d) <-> In kv d.
Proof.
  split; apply Permutation_in; [|symmetry]; apply sort_items_perm.
Qed.

(** A value whose keys can be compared, and which is within the depth, is
    sorted. *)
Lemma sort_object_fits (v : pyval) :
  forall depth, sortable v = true -> within_depth depth v = true ->
                sort_object depth v = Ok (sorted_value v).
Proof.
  induction v as [| | | | |l IH|l IH|d IH|] using pyval_nested_ind;
    intros depth Hs Hw; try (now rewrite sort_object_eq).
  - rewrite sort_object_eq. cbn [sortable within_depth sorted_value] in *.
    rewrite forallb_forall in Hs, Hw. rewrite Forall_forall in IH.
    rewrite (@mapM_ok _ _ (sort_nested depth) sorted_value); [reflexivity|].
    intros x Hx. specialize (Hw x Hx). destruct depth as [|n]; [discriminate|].
    cbn [sort_nested]. apply IH; auto.
  - rewrite sort_object_eq. cbn [sortable within_depth] in Hs, Hw.
    apply andb_true_iff in Hs as [Hc Hs].
    rewrite forallb_forall in Hs, Hw. rewrite Forall_forall in IH.
    unfold sorted_items. rewrite Hc. cbn [bind].
    rewrite (@mapM_ok _ _ _ (fun kv => (fst kv, sorted_value (snd kv)))).
    + cbn [bind sorted_value]. do 2 f_equal.
      change (map (fun kv => (fst kv, sorted_value (snd kv))) ?l)
        with (on_values sorted_value l).
      symmetry. apply sort_items_on_values.
    + intros kv Hkv. apply (proj1 (sort_items_in d kv)) in Hkv.
      specialize (Hw kv Hkv).
      destruct depth as [|n]; [discriminate|].
      cbn [sort_nested]. rewrite (IH kv Hkv n); auto.
Qed.

(** Where [sort_object] returns, the keys could be compared and the value
    was within the depth. *)
Lemma sort_object_ok_inv (v : pyval) :
  forall depth r, sort_object depth v = Ok r ->
                  sortable v = true /\ within_depth depth v = true.
Proof.
  induction v as [| | | | |l IH|l IH|d IH|] using pyval_nested_ind;
    intros depth r H; try (split; reflexivity).
  - rewrite sort_object_eq in H. cbn [sortable within_depth].
    destruct (mapM (sort_nested depth) l) as [l'|] eqn:Hl; [|discriminate].
    rewrite Forall_forall in IH. rewrite !forallb_forall.
    split; intros x Hx; destruct (mapM_ok_inv _ _ Hl x Hx) as [y Hy];
      (destruct depth as [|n]; [discriminate|]);
      cbn [sort_nested] in Hy; now apply (IH x Hx n y).
  - rewrite sort_object_eq in H. cbn [sortable within_depth].
    unfold sorted_items in H.
    destruct (all_comparable (map fst d)); [|discriminate].
    cbn [bind andb] in H. cbn [andb].
    match type of H with
    | bind (mapM ?f ?l) _ = _ => destruct (mapM f l) as [d'|] eqn:Hd
    end; [|discriminate].
    rewrite Forall_forall in IH. rewrite !forallb_forall.
    split; intros kv Hkv;
      (destruct (mapM_ok_inv _ _ Hd kv (proj2 (sort_items_in d kv) Hkv))
         as [y Hy]);
      (destruct depth as [|n]; [discriminate|]);
      cbn [sort_nested] in Hy;
      (destruct (sort_object n (snd kv)) as [w|] eqn:Hw; [|discriminate]);
      now apply (IH kv Hkv n w).
Qed.

(** Where [sort_object] raises, it is TypeError, for keys that cannot be
    compared, or RecursionError, for a value beyond the depth. *)
Lemma sort_object_raise (v : pyval) :
  forall depth e, sort_object depth v = Raise e ->
                  (e = TypeError /\ sortable v = false) \/
                  (e = RecursionError /\ within_depth depth v = false).
Proof.
  induction v as [| | | | |l IH|l IH|d IH|] using pyval_nested_ind;
    intros depth e H; try (rewrite sort_object_eq in H; discriminate).
  - rewrite sort_object_eq in H. cbn [sortable within_depth].
    destruct (mapM (sort_nested depth) l) as [l'|e'] eqn:Hl; [discriminate|].
    cbn [bind] in H. apply Raise_inj in H. subst e'.
    destruct (mapM_raise_inv _ _ Hl) as (x & Hx & Hfx).
    rewrite Forall_forall in IH.
    destruct depth as [|n]; cbn [sort_nested] in Hfx.
    + apply Raise_inj in Hfx. right. split; [now symmetry|].
      now apply (forallb_false_in _ _ _ Hx).
    + destruct (IH x Hx n e Hfx) as [[-> Hs]|[-> Hw]]; [left|right];
        (split; [reflexivity|]); now apply (forallb_false_in _ _ _ Hx).
  - rewrite sort_object_eq in H. cbn [sortable within_depth].
    unfold sorted_items in H.
    destruct (all_comparable (map fst d));
      [|apply Raise_inj in H; left; now split].
    cbn [bind andb] in H. cbn [andb].
    match type of H with
    | bind (mapM ?f ?l) _ = _ => destruct (mapM f l) as [d'|e'] eqn:Hd
    end; [discriminate|].
    cbn [bind] in H. apply Raise_inj in H. subst e'.
    destruct (mapM_raise_inv _ _ Hd) as (kv & Hkv & Hfkv).
    apply (proj1 (sort_items_in d kv)) in Hkv. rewrite Forall_forall in IH.
    destruct depth as [|n]; cbn [sort_nested] in Hfkv.
    + cbn [bind] in Hfkv. apply Raise_inj in Hfkv. right.
      split; [now symmetry|]. now apply (forallb_false_in _ _ _ Hkv).
    + destruct (sort_object n (snd kv)) as [w|e'] eqn:Hw; [discriminate|].
      cbn [bind] in Hfkv. apply Raise_inj in Hfkv. subst e'.
      destruct (IH kv Hkv n e Hw) as [[-> Hs]|[-> Hw']]; [left|right];
        (split; [reflexivity|]); now apply (forallb_false_in _ _ _ Hkv).
Qed.

(** Within the depth, [sort_object] raises TypeError where it meets keys it
    cannot compare, and returns the sorted value otherwise. *)
Lemma sort_object_spec (depth : nat) (v : pyval) :
  within_depth depth v = true ->
  sort_object depth v = if sortable v then Ok (sorted_value v) else Raise TypeError.
Proof.
  intro Hw. destruct (sortable v) eqn:Hs; [now apply sort_object_fits|].
  destruct (sort_object depth v) as [r|e] eqn:E.
  - apply sort_object_ok_inv in E as [E _]. congruence.
  - apply sort_object_raise in E as [[-> _]|[_ E]]; [reflexivity|congruence].
Qed.

(** Where the keys can be compared, [sort_object] returns the sorted value
    within the depth and raises RecursionError beyond it. *)
Lemma sort_object_sortable (depth : nat) (v : pyval) :
  sortable v = true ->
  sort_object depth v
  = if within_depth depth v then Ok (sorted_value v) else Raise RecursionError.
Proof.
  intro Hs. destruct (within_depth depth v) eqn:Hw; [now apply sort_object_fits|].
  destruct (sort_object depth v) as [r|e] eqn:E.
  - apply sort_object_ok_inv in E as [_ E]. congruence.
  - apply sort_object_raise in E as [[_ E]|[-> _]]; [congruence|reflexivity].
Qed.

Lemma sort_object_value (depth : nat) (v r : pyval) :
  sort_object depth v = Ok r ->
  r = sorted_value v /\ sortable v = true /\ within_depth depth v = true.
Proof.
  intro H. destruct (sort_object_ok_inv _ _ H) as [Hs Hw].
  rewrite (sort_object_fits _ _ Hs Hw) in H. apply Ok_inj in H. auto.
Qed.

(** More depth does no harm. *)
Lemma within_depth_S (v : pyval) :
  forall depth, within_depth depth v = true -> within_depth (S depth) v = true.
Proof.
  induction v as [| | | | |l IH|l IH|d IH|] using pyval_nested_ind;
    intros depth H; try reflexivity.
  - cbn [within_depth] in *. rewrite forallb_forall in *.
    rewrite Forall_forall in IH. intros x Hx. specialize (H x Hx).
    destruct depth as [|n]; [discriminate|]. now apply IH.
  - cbn [within_depth] in *. rewrite forallb_forall in *.
    rewrite Forall_forall in IH. intros x Hx. specialize (H x Hx).
    destruct depth as [|n]; [discriminate|]. now apply IH.
Qed.

Lemma str_keys_comparable (ks : list pykey) :
  forallb is_str_key ks = true -> all_comparable ks = true.
Proof.
  induction ks as [|k ks IH]; [reflexivity|].
  cbn [forallb all_comparable]. intro H.
  apply andb_true_iff in H as [Hk Hks].
  rewrite (IH Hks), andb_true_r.
  rewrite forallb_forall in *. intros x Hx. specialize (Hks x Hx).
  destruct k, x; try discriminate. reflexivity.
Qed.

Lemma is_json_dict (d : pydict) :
  is_json (PDict d) = true ->
  forallb is_str_key (map fst d) = true /\
  (forall kv, In kv d -> is_json (snd kv) = true).
Proof.
  cbn [is_json]. rewrite forallb_forall. intro H. split.
  - apply forallb_forall. intros k Hk. apply in_map_iff in Hk as (kv & <- & Hkv).
    specialize (H kv Hkv). now apply andb_true_iff in H.
  - intros kv Hkv. specialize (H kv Hkv). now apply andb_true_iff in H.
Qed.

Lemma is_json_sortable (v : pyval) : is_json v = true -> sortable v = true.
Proof.
  induction v as [| | | | |l IH|l IH|d IH|] using pyval_nested_ind;
    try reflexivity; try discriminate.
  - cbn [is_json sortable]. rewrite !forallb_forall. rewrite Forall_forall in IH.
    intros H x Hx. auto.
  - intro H. apply is_json_dict in H as [Hk Hv]. cbn [sortable].
    rewrite (str_keys_comparable _ Hk). cbn [andb].
    rewrite forallb_forall. rewrite Forall_forall in IH. intros kv Hkv. auto.
Qed.

Lemma sort_object_json (depth : nat) (v : pyval) :
  is_json v = true ->
  sort_object depth v
  = if within_depth depth v then Ok (sorted_value v) else Raise RecursionError.
Proof. intro H. apply sort_object_sortable. now apply is_json_sortable. Qed.

Lemma dict_keys_compatible (d : pydict) :
  is_json (PDict d) = true -> well_formed (PDict d) = true ->
  ForallOrdPairs compatible (map fst d).
Proof.
  intros Hj Hw. apply is_json_dict in Hj as [Hk _].
  cbn [well_formed] in Hw. apply andb_true_iff in Hw as [Hd _].
  apply keys_compatible; [now apply str_keys_comparable|exact Hd].
Qed.

(** * Key-order invariance *)

Lemma well_formed_dict (d : pydict) :
  well_formed (PDict d) = true ->
  forall kv, In kv d -> well_formed (snd kv) = true.
Proof.
  cbn [well_formed]. intro H. apply andb_true_iff in H as [_ H].
  rewrite forallb_forall in H. exact H.
Qed.

Lemma Forall2_map_eq (A B : Type) (R : A -> A -> Prop) (f : A -> B)
    (l1 l2 : list A) :
  Forall2 R l1 l2 -> (forall x y, In x l1 -> R x y -> f x = f y) ->
  map f l1 = map f l2.
Proof.
  induction 1 as [|x y l1 l2 Hxy _ IH]; intro H; [reflexivity|].
  cbn [map]. rewrite (H x y (or_introl eq_refl) Hxy). f_equal.
  apply IH. intros a b Ha. apply H. now right.
Qed.

Lemma Forall2_forallb (A : Type) (R : A -> A -> Prop) (p : A -> bool)
    (l1 l2 : list A) :
  Forall2 R l1 l2 -> (forall x y, In x l1 -> R x y -> p y = true) ->
  forallb p l2 = true.
Proof.
  induction 1 as [|x y l1 l2 Hxy _ IH]; intro H; [reflexivity|].
  cbn [forallb]. rewrite (H x y (or_introl eq_refl) Hxy). cbn [andb].
  apply IH. intros a b Ha. apply H. now right.
Qed.

(** A value and a reordering of it are sorted to the same value. *)
Lemma reordered_sorted_value (v1 : pyval) :
  forall v2, is_json v1 = true -> well_formed v1 = true -> reordered v1 v2 ->
             sorted_value v1 = sorted_value v2 /\ is_json v2 = true.
Proof.
  induction v1 as [| | | | |l IH|l IH|d IH|] using pyval_nested_ind;
    intros v2 Hj Hw Hr; inversion Hr; subst; try (split; [reflexivity|exact Hj]).
  - (* a list, element by element *)
    cbn [is_json well_formed] in Hj, Hw.
    rewrite forallb_forall in Hj, Hw. rewrite Forall_forall in IH.
    match goal with H : Forall2 reordered l l2 |- _ => rename H into Hl end.
    cbn [sorted_value is_json]. split.
    + f_equal. apply (Forall2_map_eq sorted_value Hl).
      intros x y Hx Hxy. now apply (IH x Hx y); auto.
    + apply (Forall2_forallb is_json Hl).
      intros x y Hx Hxy. now apply (IH x Hx y); auto.
  - (* a dict: a permutation, then item by item *)
    rename d0 into dm.
    match goal with
    | HP : Permutation d dm, HF : Forall2 _ dm d2 |- _ =>
        rename HP into Hperm; rename HF into Hitems
    end.
    pose proof (dict_keys_compatible _ Hj Hw) as Hkeys.
    destruct (is_json_dict _ Hj) as [Hstr Hjv].
    pose proof (well_formed_dict _ Hw) as Hwv.
    rewrite Forall_forall in IH.
    assert (Hdm : forall kv, In kv dm -> In kv d)
      by (intros kv Hkv; eapply Permutation_in; [symmetry; exact Hperm|exact Hkv]).
    assert (E1 : on_values sorted_value dm = on_values sorted_value d2).
    { apply (Forall2_map_eq (fun kv => (fst kv, sorted_value (snd kv))) Hitems).
      intros x y Hx [Hk Hxy].
      rewrite Hk. f_equal. now apply (IH x (Hdm x Hx) (snd y)); auto. }
    assert (E2 : forallb (fun kv => is_str_key (fst kv) && is_json (snd kv)) d2
                 = true).
    { apply (Forall2_forallb
               (fun kv => is_str_key (fst kv) && is_json (snd kv)) Hitems).
      intros x y Hx [Hk Hxy].
      apply andb_true_iff. split.
      - rewrite <- Hk. rewrite forallb_forall in Hstr. apply Hstr.
        apply in_map. auto.
      - now apply (IH x (Hdm x Hx) (snd y)); auto. }
    split; [|exact E2].
    change (sorted_value (PDict d))
      with (PDict (sort_items (on_values sorted_value d))).
    change (sorted_value (PDict d2))
      with (PDict (sort_items (on_values sorted_value d2))).
    f_equal. rewrite <- E1. apply sort_items_invariant.
    + now rewrite on_values_keys.
    + unfold on_values. now apply Permutation_map.
Qed.

(** Sorting only reorders the items of mappings. *)
Lemma sorted_value_reordered (v : pyval) : reordered v (sorted_value v).
Proof.
  induction v as [| | | | |l IH|l IH|d IH|] using pyval_nested_ind;
    try apply reordered_same.
  - cbn [sorted_value]. apply reordered_list.
    induction IH; constructor; assumption.
  - change (sorted_value (PDict d))
      with (PDict (sort_items (on_values sorted_value d))).
    rewrite sort_items_on_values.
    apply reordered_dict with (d := sort_items d).
    + symmetry. apply sort_items_perm.
    + assert (H : Forall (fun kv => reordered (snd kv) (sorted_value (snd kv)))
                    (sort_items d))
        by (eapply Permutation_Forall; [symmetry; apply sort_items_perm|exact IH]).
      induction H; constructor; auto.
Qed.

(** After sorting, the keys of every mapping stand in increasing order. *)
Lemma sorted_value_keys_sorted (v : pyval) :
  is_json v = true -> well_formed v = true ->
  keys_sorted (sorted_value v) = true.
Proof.
  induction v as [| | | | |l IH|l IH|d IH|] using pyval_nested_ind;
    intros Hj Hw; try reflexivity; try discriminate.
  - cbn [is_json well_formed sorted_value keys_sorted] in *.
    rewrite forallb_forall in *. rewrite Forall_forall in IH.
    intros x Hx. apply in_map_iff in Hx as (y & <- & Hy). auto.
  - pose proof (dict_keys_compatible _ Hj Hw) as Hkeys.
    destruct (is_json_dict _ Hj) as [_ Hjv].
    pose proof (well_formed_dict _ Hw) as Hwv.
    rewrite Forall_forall in IH.
    change (sorted_value (PDict d))
      with (PDict (sort_items (on_values sorted_value d))).
    cbn [keys_sorted]. apply andb_true_iff. split.
    + apply sorted_increasing, sort_items_sorted. now rewrite on_values_keys.
    + apply forallb_forall. intros x Hx.
      apply (Permutation_in _ (sort_items_perm _)) in Hx.
      unfold on_values in Hx. apply in_map_iff in Hx as (kv & <- & Hkv).
      cbn [snd]. auto.
Qed.

(** * What the serializer accepts *)

Lemma mapM_cases (A B : Type) (f : A -> pyresult B) (ok : A -> bool)
    (e : pyexc) (l : list A) :
  Forall (fun x => if ok x then exists y, f x = Ok y else f x = Raise e) l ->
  if forallb ok l then exists ys, mapM f l = Ok ys else mapM f l = Raise e.
Proof.
  induction 1 as [|x l Hx _ IH]; [now exists []|].
  cbn [mapM forallb]. destruct (ok x).
  - destruct Hx as [y ->]. cbn [bind andb].
    destruct (forallb ok l).
    + destruct IH as [ys ->]. now exists (y :: ys).
    + now rewrite IH.
  - now rewrite Hx.
Qed.

Lemma forallb_perm (A : Type) (p : A -> bool) (l l2 : list A) :
  Permutation l l2 -> forallb p l = forallb p l2.
Proof.
  induction 1 as [|x l l2 _ IH|x y l|l l2 l3 _ IH1 _ IH2]; cbn [forallb].
  - reflexivity.
  - now rewrite IH.
  - now rewrite !andb_assoc, (andb_comm (p y)).
  - congruence.
Qed.

Lemma forallb_map_ext (A B : Type) (p : B -> bool) (q : A -> bool)
    (g : A -> B) (l : list A) :
  Forall (fun x => p (g x) = q x) l -> forallb p (map g l) = forallb q l.
Proof.
  induction 1 as [|x l Hx _ IH]; [reflexivity|].
  cbn [map forallb]. now rewrite Hx, IH.
Qed.

(** The conversion of an int raises ValueError beyond the limit, and gives
    the numeral otherwise. *)
Lemma int_repr_spec (it : interpreter) (z : Z) :
  int_repr it z = if int_fits it z then Ok (int_text z) else Raise ValueError.
Proof.
  unfold int_repr, int_fits.
  destruct (N.eqb_spec (int_max_str_digits it) 0) as [E|E].
  - rewrite E. reflexivity.
  - assert (H : N.ltb 0 (int_max_str_digits it) = true)
      by (apply N.ltb_lt; lia).
    rewrite H. cbn [andb orb].
    destruct (N.ltb_spec (int_max_str_digits it) (int_digits z));
      destruct (N.leb_spec (int_digits z) (int_max_str_digits it));
      try reflexivity; lia.
Qed.

(** A numeral of one digit is within every limit. *)
Lemma int_repr_small (it : interpreter) (z : Z) :
  int_digits z = 1%N -> int_repr it z = Ok (int_text z).
Proof.
  intro H. rewrite int_repr_spec. unfold int_fits. rewrite H.
  destruct (N.eqb_spec (int_max_str_digits it) 0) as [E|E]; [reflexivity|].
  cbn [orb]. destruct (N.leb_spec 1 (int_max_str_digits it)); [reflexivity|lia].
Qed.

Lemma key_text_fits (it : interpreter) (k : pykey) :
  is_bytes_key k = false -> key_fits it k = true ->
  exists t, key_text it k = Ok t.
Proof.
  destruct k as [s|z|[]| |s]; cbn [key_text is_bytes_key key_fits];
    intros Hb Hf; try discriminate; eauto.
  rewrite int_repr_spec, Hf. eauto.
Qed.

Lemma key_text_ok_inv (it : interpreter) (k : pykey) (t : pystr) :
  key_text it k = Ok t -> is_bytes_key k = false /\ key_fits it k = true.
Proof.
  destruct k as [s|z|[]| |s]; cbn [key_text is_bytes_key key_fits];
    intro H; try discriminate; try (split; reflexivity).
  rewrite int_repr_spec in H. split; [reflexivity|].
  destruct (int_fits it z); [reflexivity|discriminate].
Qed.

Lemma key_text_raise (it : interpreter) (k : pykey) (e : pyexc) :
  key_text it k = Raise e ->
  (e = TypeError /\ is_bytes_key k = true) \/
  (e = ValueError /\ key_fits it k = false).
Proof.
  destruct k as [s|z|[]| |s]; cbn [key_text is_bytes_key key_fits];
    intro H; try discriminate.
  - rewrite int_repr_spec in H. right.
    destruct (int_fits it z); [discriminate|].
    apply Raise_inj in H. now split.
  - apply Raise_inj in H. left. now split.
Qed.

Section EncoderCases.
Variable it : interpreter.
Variables item_separator key_separator : pystr.

Let dumps := json_dumps it item_separator key_separator.

(** The encoder writes every value that holds no bytes object, lies within
    its depth and holds no int beyond the limit. *)
Lemma json_dumps_fits (v : pyval) :
  forall depth,
    dumpable v = true -> encodes_within depth v = true ->
    ints_fit it v = true ->
    exists s, dumps depth v = Ok s.
Proof.
  unfold dumps.
  induction v as [|b|z| | |l IH|l IH|d IH|] using pyval_nested_ind;
    intros depth Hd Hw Hi; try (cbn; eauto; fail).
  - destruct b; cbn; eauto.
  - cbn [json_dumps]. cbn [ints_fit] in Hi. rewrite int_repr_spec, Hi. eauto.
  - cbn [dumpable encodes_within ints_fit] in *.
    destruct depth as [|n]; [discriminate|]. cbn [json_dumps].
    rewrite forallb_forall in Hd, Hw, Hi. rewrite Forall_forall in IH.
    destruct (@mapM_exists _ _ (json_dumps it item_separator key_separator n) l)
      as [ys ->]; [intros x Hx; apply IH; auto|].
    cbn [bind]. eauto.
  - cbn [dumpable encodes_within ints_fit] in *.
    destruct depth as [|n]; [discriminate|]. cbn [json_dumps].
    rewrite forallb_forall in Hd, Hw, Hi. rewrite Forall_forall in IH.
    destruct (@mapM_exists _ _ (json_dumps it item_separator key_separator n) l)
      as [ys ->]; [intros x Hx; apply IH; auto|].
    cbn [bind]. eauto.
  - cbn [dumpable encodes_within ints_fit] in *.
    destruct depth as [|n]; [discriminate|]. cbn [json_dumps].
    rewrite forallb_forall in Hd, Hw, Hi. rewrite Forall_forall in IH.
    match goal with
    | |- context [mapM ?f d] => destruct (@mapM_exists _ _ f d) as [ys ->]
    end; [|cbn [bind]; eauto].
    intros kv Hkv.
    specialize (Hd kv Hkv). specialize (Hi kv Hkv).
    apply andb_true_iff in Hd as [Hk Hd]. apply andb_true_iff in Hi as [Hf Hi].
    apply negb_true_iff in Hk.
    destruct (key_text_fits it (fst kv) Hk Hf) as [t ->].
    destruct (IH kv Hkv n Hd (Hw kv Hkv) Hi) as [s ->].
    cbn [bind]. eauto.
  - discriminate.
Qed.

(** Where the encoder returns, the value was one of those. *)
Lemma json_dumps_ok_inv (v : pyval) :
  forall depth s,
    dumps depth v = Ok s ->
    dumpable v = true /\ encodes_within depth v = true /\ ints_fit it v = true.
Proof.
  unfold dumps.
  induction v as [|b|z| | |l IH|l IH|d IH|] using pyval_nested_ind;
    intros depth txt H; try (repeat split; reflexivity).
  - cbn [json_dumps] in H. rewrite int_repr_spec in H. cbn [ints_fit].
    destruct (int_fits it z); [repeat split|discriminate].
  - cbn [dumpable encodes_within ints_fit].
    destruct depth as [|n]; [discriminate|]. cbn [json_dumps] in H.
    destruct (mapM (json_dumps it item_separator key_separator n) l)
      as [ys|] eqn:Hl; [|discriminate].
    rewrite Forall_forall in IH. rewrite !forallb_forall.
    repeat split; intros x Hx; destruct (mapM_ok_inv _ _ Hl x Hx) as [y Hy];
      now destruct (IH x Hx n y Hy) as (? & ? & ?).
  - cbn [dumpable encodes_within ints_fit].
    destruct depth as [|n]; [discriminate|]. cbn [json_dumps] in H.
    destruct (mapM (json_dumps it item_separator key_separator n) l)
      as [ys|] eqn:Hl; [|discriminate].
    rewrite Forall_forall in IH. rewrite !forallb_forall.
    repeat split; intros x Hx; destruct (mapM_ok_inv _ _ Hl x Hx) as [y Hy];
      now destruct (IH x Hx n y Hy) as (? & ? & ?).
  - cbn [dumpable encodes_within ints_fit].
    destruct depth as [|n]; [discriminate|]. cbn [json_dumps] in H.
    match type of H with
    | bind (mapM ?f d) _ = _ => destruct (mapM f d) as [ys|] eqn:Hl
    end; [|discriminate].
    rewrite Forall_forall in IH. rewrite !forallb_forall.
    assert (Hall : forall kv, In kv d ->
              (is_bytes_key (fst kv) = false /\ key_fits it (fst kv) = true) /\
              dumpable (snd kv) = true /\ encodes_within n (snd kv) = true /\
              ints_fit it (snd kv) = true).
    { intros kv Hkv. destruct (mapM_ok_inv _ _ Hl kv Hkv) as [y Hy].
      destruct (key_text it (fst kv)) as [t|] eqn:Ht; [|discriminate].
      cbn [bind] in Hy.
      destruct (json_dumps it item_separator key_separator n (snd kv))
        as [w|] eqn:Hw; [|discriminate].
      split; [now apply (key_text_ok_inv _ _ Ht)|now apply (IH kv Hkv n w)]. }
    repeat split; intros kv Hkv;
      destruct (Hall kv Hkv) as ((Hb & Hf) & Hd & Hw & Hi); auto.
    + now rewrite Hb, Hd.
    + now rewrite Hf, Hi.
  - discriminate.
Qed.

(** Where the encoder raises, it is TypeError for a bytes object,
    ValueError for an int beyond the limit, or RecursionError for a value
    beyond its depth. *)
Lemma json_dumps_raise (v : pyval) :
  forall depth e,
    dumps depth v = Raise e ->
    (e = TypeError /\ dumpable v = false) \/
    (e = ValueError /\ ints_fit it v = false) \/
    (e = RecursionError /\ encodes_within depth v = false).
Proof.
  unfold dumps.
  induction v as [|b|z| | |l IH|l IH|d IH|] using pyval_nested_ind;
    intros depth e H; try discriminate.
  - destruct b; discriminate.
  - cbn [json_dumps] in H. rewrite int_repr_spec in H. cbn [ints_fit].
    destruct (int_fits it z); [discriminate|].
    apply Raise_inj in H. right. left. now split.
  - cbn [dumpable encodes_within ints_fit].
    destruct depth as [|n]; cbn [json_dumps] in H;
      [apply Raise_inj in H; right; right; now split|].
    destruct (mapM (json_dumps it item_separator key_separator n) l)
      as [ys|e'] eqn:Hl; [discriminate|].
    cbn [bind] in H. apply Raise_inj in H. subst e'.
    destruct (mapM_raise_inv _ _ Hl) as (x & Hx & Hfx).
    rewrite Forall_forall in IH.
    destruct (IH x Hx n e Hfx) as [[-> Hc]|[[-> Hc]|[-> Hc]]];
      [left|right; left|right; right];
      (split; [reflexivity|]); now apply (forallb_false_in _ _ _ Hx).
  - cbn [dumpable encodes_within ints_fit].
    destruct depth as [|n]; cbn [json_dumps] in H;
      [apply Raise_inj in H; right; right; now split|].
    destruct (mapM (json_dumps it item_separator key_separator n) l)
      as [ys|e'] eqn:Hl; [discriminate|].
    cbn [bind] in H. apply Raise_inj in H. subst e'.
    destruct (mapM_raise_inv _ _ Hl) as (x & Hx & Hfx).
    rewrite Forall_forall in IH.
    destruct (IH x Hx n e Hfx) as [[-> Hc]|[[-> Hc]|[-> Hc]]];
      [left|right; left|right; right];
      (split; [reflexivity|]); now apply (forallb_false_in _ _ _ Hx).
  - cbn [dumpable encodes_within ints_fit].
    destruct depth as [|n]; cbn [json_dumps] in H;
      [apply Raise_inj in H; right; right; now split|].
    match type of H with
    | bind (mapM ?f d) _ = _ => destruct (mapM f d) as [ys|e'] eqn:Hl
    end; [discriminate|].
    cbn [bind] in H. apply Raise_inj in H. subst e'.
    destruct (mapM_raise_inv _ _ Hl) as (kv & Hkv & Hfkv).
    rewrite Forall_forall in IH.
    destruct (key_text it (fst kv)) as [t|e'] eqn:Ht; cbn [bind] in Hfkv.
    + destruct (json_dumps it item_separator key_separator n (snd kv))
        as [w|e'] eqn:Hw; [discriminate|].
      cbn [bind] in Hfkv. apply Raise_inj in Hfkv. subst e'.
      destruct (IH kv Hkv n e Hw) as [[-> Hc]|[[-> Hc]|[-> Hc]]];
        [left|right; left|right; right];
        (split; [reflexivity|]); apply (forallb_false_in _ _ _ Hkv);
        rewrite ?Hc; auto using andb_false_r.
    + apply Raise_inj in Hfkv. subst e'.
      destruct (key_text_raise _ _ Ht) as [[-> Hc]|[-> Hc]];
        [left|right; left];
        (split; [reflexivity|]); apply (forallb_false_in _ _ _ Hkv);
        now rewrite Hc.
  - cbn [json_dumps] in H. apply Raise_inj in H. left. now split.
Qed.
End EncoderCases.

(** * [process_data] *)

Lemma convert_special_float (f : spec_float) :
  convert_special_values (PFloat f)
  = if is_nonfinite f then PNone else PFloat f.
Proof.
  destruct f as [s|s| |s m e]; try (destruct s; reflexivity); try reflexivity.
  unfold convert_special_values, SFeqb, SFcompare, pos_inf, neg_inf.
  rewrite Z.compare_refl, Pos.compare_cont_refl.
  now destruct s.
Qed.

(** The code's replacement is the specification's, for a value within the
    depth; beyond it RecursionError is raised. *)
Lemma process_data_spec (v : pyval) :
  forall depth,
    process_data depth v
    = if within_depth depth v then Ok (null_nonfinite v)
      else Raise RecursionError.
Proof.
  induction v as [| | |f| |l IH|l IH|d IH|] using pyval_nested_ind;
    intro depth; try (now rewrite process_data_eq).
  - rewrite process_data_eq. cbn [within_depth null_nonfinite].
    now rewrite convert_special_float.
  - rewrite process_data_eq. cbn [within_depth null_nonfinite].
    rewrite (@mapM_spec _ _ (process_nested depth)
               (fun x => match depth with
                         | O => false
                         | S inner => within_depth inner x
                         end) null_nonfinite RecursionError).
    + now destruct (forallb _ l).
    + eapply Forall_impl; [|exact IH]. intros x Hx.
      destruct depth as [|n]; [reflexivity|]. cbn [process_nested]. apply Hx.
  - rewrite process_data_eq. cbn [within_depth null_nonfinite].
    rewrite (@mapM_spec _ _
               (fun kv => v <- process_nested depth (snd kv) ;; Ok (fst kv, v))
               (fun kv => match depth with
                          | O => false
                          | S inner => within_depth inner (snd kv)
                          end)
               (fun kv => (fst kv, null_nonfinite (snd kv))) RecursionError).
    + now destruct (forallb _ d).
    + eapply Forall_impl; [|exact IH]. intros kv Hkv. cbn beta.
      destruct depth as [|n]; [reflexivity|]. cbn [process_nested].
      rewrite Hkv. now destruct (within_depth n (snd kv)).
Qed.

Lemma null_nonfinite_dumpable (v : pyval) :
  dumpable (null_nonfinite v) = dumpable v.
Proof.
  induction v as [| | |f| |l IH|l IH|d IH|] using pyval_nested_ind;
    try reflexivity.
  - cbn [null_nonfinite]. now destruct (is_nonfinite f).
  - cbn [null_nonfinite dumpable]. now apply forallb_map_ext.
  - cbn [null_nonfinite dumpable]. apply forallb_map_ext.
    eapply Forall_impl; [|exact IH]. intros kv H. cbn [fst snd]. now rewrite H.
Qed.

Lemma sorted_value_dumpable (v : pyval) :
  dumpable (sorted_value v) = dumpable v.
Proof.
  induction v as [| | | | |l IH|l IH|d IH|] using pyval_nested_ind;
    try reflexivity.
  - cbn [sorted_value dumpable]. now apply forallb_map_ext.
  - cbn [sorted_value dumpable].
    rewrite (forallb_perm _ (sort_items_perm _)).
    apply forallb_map_ext.
    eapply Forall_impl; [|exact IH]. intros kv H. cbn [fst snd]. now rewrite H.
Qed.

Lemma is_json_dumpable (v : pyval) : is_json v = true -> dumpable v = true.
Proof.
  induction v as [| | | | |l IH|l IH|d IH|] using pyval_nested_ind;
    try reflexivity; try discriminate.
  - cbn [is_json dumpable]. rewrite !forallb_forall. rewrite Forall_forall in IH.
    intros H x Hx. auto.
  - cbn [is_json dumpable]. rewrite !forallb_forall. rewrite Forall_forall in IH.
    intros H kv Hkv. specialize (H kv Hkv).
    apply andb_true_iff in H as [Hk Hv]. rewrite (IH kv Hkv Hv), andb_true_r.
    now destruct (fst kv).
Qed.

(** * The limits are those of the value that is encoded *)

Lemma within_depth_sorted_value (v : pyval) :
  forall depth, within_depth depth (sorted_value v) = within_depth depth v.
Proof.
  induction v as [| | | | |l IH|l IH|d IH|] using pyval_nested_ind;
    intro depth; try reflexivity.
  - cbn [sorted_value within_depth]. apply forallb_map_ext.
    eapply Forall_impl; [|exact IH]. intros x Hx.
    destruct depth; [reflexivity|apply Hx].
  - cbn [sorted_value within_depth].
    rewrite (forallb_perm _ (sort_items_perm _)).
    apply forallb_map_ext.
    eapply Forall_impl; [|exact IH]. intros kv H. cbn [snd].
    destruct depth; [reflexivity|apply H].
Qed.

Lemma within_depth_null_nonfinite (v : pyval) :
  forall depth, within_depth depth (null_nonfinite v) = within_depth depth v.
Proof.
  induction v as [| | |f| |l IH|l IH|d IH|] using pyval_nested_ind;
    intro depth; try reflexivity.
  - cbn [null_nonfinite]. now destruct (is_nonfinite f).
  - cbn [null_nonfinite within_depth]. apply forallb_map_ext.
    eapply Forall_impl; [|exact IH]. intros x Hx.
    destruct depth; [reflexivity|apply Hx].
  - cbn [null_nonfinite within_depth]. apply forallb_map_ext.
    eapply Forall_impl; [|exact IH]. intros kv H. cbn [snd].
    destruct depth; [reflexivity|apply H].
Qed.

Lemma encodes_within_sorted_value (v : pyval) :
  forall depth, encodes_within depth (sorted_value v) = encodes_within depth v.
Proof.
  induction v as [| | | | |l IH|l IH|d IH|] using pyval_nested_ind;
    intro depth; try reflexivity.
  - cbn [sorted_value encodes_within]. destruct depth as [|n]; [reflexivity|].
    apply forallb_map_ext. eapply Forall_impl; [|exact IH]. intros x Hx. apply Hx.
  - cbn [sorted_value encodes_within]. destruct depth as [|n]; [reflexivity|].
    rewrite (forallb_perm _ (sort_items_perm _)).
    apply forallb_map_ext.
    eapply Forall_impl; [|exact IH]. intros kv H. cbn [snd]. apply H.
Qed.

Lemma encodes_within_null_nonfinite (v : pyval) :
  forall depth,
    encodes_within depth (null_nonfinite v) = encodes_within depth v.
Proof.
  induction v as [| | |f| |l IH|l IH|d IH|] using pyval_nested_ind;
    intro depth; try reflexivity.
  - cbn [null_nonfinite]. now destruct (is_nonfinite f).
  - cbn [null_nonfinite encodes_within]. destruct depth as [|n]; [reflexivity|].
    apply forallb_map_ext. eapply Forall_impl; [|exact IH]. intros x Hx. apply Hx.
  - cbn [null_nonfinite encodes_within]. destruct depth as [|n]; [reflexivity|].
    apply forallb_map_ext.
    eapply Forall_impl; [|exact IH]. intros kv H. cbn [snd]. apply H.
Qed.

Lemma ints_fit_sorted_value (it : interpreter) (v : pyval) :
  ints_fit it (sorted_value v) = ints_fit it v.
Proof.
  induction v as [| | | | |l IH|l IH|d IH|] using pyval_nested_ind;
    try reflexivity.
  - cbn [sorted_value ints_fit]. now apply forallb_map_ext.
  - cbn [sorted_value ints_fit].
    rewrite (forallb_perm _ (sort_items_perm _)).
    apply forallb_map_ext.
    eapply Forall_impl; [|exact IH]. intros kv H. cbn [fst snd]. now rewrite H.
Qed.

Lemma ints_fit_null_nonfinite (it : interpreter) (v : pyval) :
  ints_fit it (null_nonfinite v) = ints_fit it v.
Proof.
  induction v as [| | |f| |l IH|l IH|d IH|] using pyval_nested_ind;
    try reflexivity.
  - cbn [null_nonfinite]. now destruct (is_nonfinite f).
  - cbn [null_nonfinite ints_fit]. now apply forallb_map_ext.
  - cbn [null_nonfinite ints_fit]. apply forallb_map_ext.
    eapply Forall_impl; [|exact IH]. intros kv H. cbn [fst snd]. now rewrite H.
Qed.

Lemma encoder_fits_canonical (it : interpreter) (v : pyval) :
  encoder_fits it (null_nonfinite (sorted_value v)) = encoder_fits it v.
Proof.
  unfold encoder_fits.
  now rewrite encodes_within_null_nonfinite, encodes_within_sorted_value,
    ints_fit_null_nonfinite, ints_fit_sorted_value.
Qed.

(** * What the serializer accepts *)

(** The canonical serializer in one equation, for a value whose keys can be
    compared and which is within the depth of the two traversals: the
    encoding of the sorted value with null for its non-finite numbers. *)
Lemma to_deterministic_json_eq (it : interpreter) (v : pyval) :
  sortable v = true -> within_depth (recursion_depth it) v = true ->
  to_deterministic_json it v
  = json_dumps it (py ",") (py ":") (encoder_depth it)
      (null_nonfinite (sorted_value v)).
Proof.
  intros Hs Hw. unfold to_deterministic_json.
  rewrite (sort_object_fits _ _ Hs Hw). cbn [bind].
  now rewrite process_data_spec, within_depth_sorted_value, Hw.
Qed.

Lemma to_deterministic_json_fits (it : interpreter) (v : pyval) :
  sortable v = true -> dumpable v = true -> within_limits it v = true ->
  exists s, to_deterministic_json it v = Ok s.
Proof.
  unfold within_limits. intros Hs Hd Hl.
  apply andb_true_iff in Hl as [Hw He].
  rewrite (to_deterministic_json_eq _ _ Hs Hw).
  rewrite <- encoder_fits_canonical in He. unfold encoder_fits in He.
  apply andb_true_iff in He as [He Hi].
  apply json_dumps_fits; [|exact He|exact Hi].
  now rewrite null_nonfinite_dumpable, sorted_value_dumpable.
Qed.

Lemma to_deterministic_json_ok_inv (it : interpreter) (v : pyval) (s : pystr) :
  to_deterministic_json it v = Ok s ->
  sortable v = true /\ dumpable v = true /\ within_limits it v = true.
Proof.
  intro H. unfold to_deterministic_json in H.
  destruct (sort_object (recursion_depth it) v) as [r|] eqn:Hr; [|discriminate].
  apply sort_object_value in Hr as (-> & Hs & Hw). cbn [bind] in H.
  rewrite process_data_spec, within_depth_sorted_value, Hw in H. cbn [bind] in H.
  apply json_dumps_ok_inv in H as (Hd & He & Hi).
  rewrite null_nonfinite_dumpable, sorted_value_dumpable in Hd.
  split; [exact Hs|]. split; [exact Hd|].
  unfold within_limits. rewrite Hw. cbn [andb].
  rewrite <- encoder_fits_canonical. unfold encoder_fits. now rewrite He, Hi.
Qed.

Lemma to_deterministic_json_raise (it : interpreter) (v : pyval) (e : pyexc) :
  to_deterministic_json it v = Raise e ->
  (e = TypeError /\ sortable v && dumpable v = false) \/
  ((e = ValueError \/ e = RecursionError) /\ within_limits it v = false).
Proof.
  intro H. unfold to_deterministic_json in H.
  destruct (sort_object (recursion_depth it) v) as [r|e'] eqn:Hr.
  - apply sort_object_value in Hr as (-> & Hs & Hw). cbn [bind] in H.
    rewrite process_data_spec, within_depth_sorted_value, Hw in H.
    cbn [bind] in H. rewrite Hs. cbn [andb].
    apply json_dumps_raise in H as [[-> Hc]|[[-> Hc]|[-> Hc]]].
    + left. split; [reflexivity|].
      now rewrite null_nonfinite_dumpable, sorted_value_dumpable in Hc.
    + right. split; [now left|].
      rewrite ints_fit_null_nonfinite, ints_fit_sorted_value in Hc.
      unfold within_limits, encoder_fits. rewrite Hc.
      now rewrite !andb_false_r.
    + right. split; [now right|].
      rewrite encodes_within_null_nonfinite, encodes_within_sorted_value in Hc.
      unfold within_limits, encoder_fits. rewrite Hc.
      now rewrite andb_false_r.
  - cbn [bind] in H. apply Raise_inj in H. subst e'.
    apply sort_object_raise in Hr as [[-> Hc]|[-> Hc]].
    + left. split; [reflexivity|]. now rewrite Hc.
    + right. split; [now right|]. unfold within_limits. now rewrite Hc.
Qed.

(** On a value of the JSON sum type the serializer returns within the
    limits of the interpreter, and raises ValueError or RecursionError
    beyond them. *)
Lemma to_deterministic_json_json (it : interpreter) (v : pyval) :
  is_json v = true ->
  if within_limits it v
  then exists s, to_deterministic_json it v = Ok s
  else exists e, to_deterministic_json it v = Raise e /\
                 (e = ValueError \/ e = RecursionError).
Proof.
  intro Hj.
  pose proof (is_json_sortable _ Hj) as Hs.
  pose proof (is_json_dumpable _ Hj) as Hd.
  destruct (within_limits it v) eqn:Hl;
    [now apply to_deterministic_json_fits|].
  destruct (to_deterministic_json it v) as [s|e] eqn:E.
  - apply to_deterministic_json_ok_inv in E as (_ & _ & E). congruence.
  - exists e. split; [reflexivity|].
    apply to_deterministic_json_raise in E as [[_ E]|[E _]]; [|exact E].
    now rewrite Hs, Hd in E.
Qed.

Lemma within_limits_sorted_value (it : interpreter) (v : pyval) :
  within_limits it (sorted_value v) = within_limits it v.
Proof.
  unfold within_limits, encoder_fits.
  now rewrite within_depth_sorted_value, encodes_within_sorted_value,
    ints_fit_sorted_value.
Qed.

Lemma within_limits_null_nonfinite (it : interpreter) (v : pyval) :
  within_limits it (null_nonfinite v) = within_limits it v.
Proof.
  unfold within_limits, encoder_fits.
  now rewrite within_depth_null_nonfinite, encodes_within_null_nonfinite,
    ints_fit_null_nonfinite.
Qed.

(** * Key-order invariance of the serializer *)

(** C5: the canonical serializer gives the same result for a JSON value and
    for any reordering of the items of its mappings, at any depth.  Within
    the limits of the interpreter both are sorted to one value, a
    reordering of the input (so sequences keep their order) in which the
    keys of every mapping stand in increasing code-point order, and the
    result is the encoding of that value; beyond the limits both raise the
    same ValueError or RecursionError. *)
Theorem canonical_key_order_invariance
    (it : interpreter) (v1 v2 : pyval) :
  is_json v1 = true -> well_formed v1 = true -> reordered v1 v2 ->
  to_deterministic_json it v1 = to_deterministic_json it v2 /\
  within_limits it v2 = within_limits it v1 /\
  if within_limits it v1
  then exists r q s,
      sort_object (recursion_depth it) v1 = Ok r /\
      sort_object (recursion_depth it) v2 = Ok r /\
      reordered v1 r /\ keys_sorted r = true /\
      process_data (recursion_depth it) r = Ok q /\
      json_dumps it (py ",") (py ":") (encoder_depth it) q = Ok s /\
      to_deterministic_json it v1 = Ok s
  else exists e,
      to_deterministic_json it v1 = Raise e /\
      (e = ValueError \/ e = RecursionError).
Proof.
  intros Hj Hw Hr.
  destruct (reordered_sorted_value Hj Hw Hr) as [Hs Hj2].
  assert (Hd : forall depth, within_depth depth v2 = within_depth depth v1).
  { intro depth. rewrite <- (within_depth_sorted_value v2), <- Hs.
    apply within_depth_sorted_value. }
  assert (Hsort : sort_object (recursion_depth it) v2
                  = sort_object (recursion_depth it) v1).
  { rewrite !sort_object_json by assumption. now rewrite Hd, Hs. }
  split; [unfold to_deterministic_json; now rewrite Hsort|].
  split.
  { rewrite <- (within_limits_sorted_value it v2), <- Hs.
    apply within_limits_sorted_value. }
  pose proof (to_deterministic_json_json it v1 Hj) as Hv.
  destruct (within_limits it v1) eqn:Hl; [|exact Hv].
  destruct Hv as [s Hv].
  pose proof Hl as Hl'. unfold within_limits in Hl'.
  apply andb_true_iff in Hl' as [Hwd _].
  pose proof (is_json_sortable _ Hj) as Hso.
  exists (sorted_value v1), (null_nonfinite (sorted_value v1)), s.
  rewrite Hsort, (sort_object_fits _ _ Hso Hwd).
  repeat split; auto.
  - apply sorted_value_reordered.
  - now apply sorted_value_keys_sorted.
  - now rewrite process_data_spec, within_depth_sorted_value, Hwd.
  - now rewrite <- (to_deterministic_json_eq _ _ Hso Hwd).
Qed.

Lemma canonical_key_order_invariance_witness :
  to_deterministic_json sample_interpreter sample_nested
    = to_deterministic_json sample_interpreter sample_nested_reordered /\
  to_deterministic_json sample_interpreter sample_nested
    = Ok (pyq "{`a`:`x`,`b`:[{`a`:null,`z`:1}]}").
Proof.
  assert (Hr : reordered sample_nested sample_nested_reordered).
  { unfold sample_nested, sample_nested_reordered.
    eapply reordered_dict; [apply perm_swap|].
    constructor; [split; [reflexivity|apply reordered_same]|].
    constructor; [|constructor]. split; [reflexivity|].
    apply reordered_list. constructor; [|constructor].
    eapply reordered_dict; [apply perm_swap|].
    repeat constructor. }
  destruct (@canonical_key_order_invariance sample_interpreter sample_nested
              sample_nested_reordered eq_refl eq_refl Hr) as [H _].
  split; [exact H|reflexivity].
Defined.

(** * Non-finite numbers *)

Lemma on_values_ext (h k : pyval -> pyval) (d : pydict) :
  Forall (fun kv => h (snd kv) = k (snd kv)) d -> on_values h d = on_values k d.
Proof.
  intro H. unfold on_values. apply map_ext_Forall.
  eapply Forall_impl; [|exact H]. intros kv E. cbn beta. now rewrite E.
Qed.

Lemma on_values_compose (h k : pyval -> pyval) (d : pydict) :
  on_values h (on_values k d) = on_values (fun v => h (k v)) d.
Proof. unfold on_values. rewrite map_map. reflexivity. Qed.

Lemma null_nonfinite_sorted_value (v : pyval) :
  sorted_value (null_nonfinite v) = null_nonfinite (sorted_value v).
Proof.
  induction v as [| | |f| |l IH|l IH|d IH|] using pyval_nested_ind;
    try reflexivity.
  - cbn [null_nonfinite sorted_value]. now destruct (is_nonfinite f).
  - cbn [null_nonfinite sorted_value]. f_equal. rewrite !map_map.
    apply map_ext_Forall. exact IH.
  - change (sorted_value (null_nonfinite (PDict d)))
      with (PDict (sort_items
                     (on_values sorted_value (on_values null_nonfinite d)))).
    change (null_nonfinite (sorted_value (PDict d)))
      with (PDict (on_values null_nonfinite
                     (sort_items (on_values sorted_value d)))).
    f_equal. rewrite <- sort_items_on_values. f_equal.
    rewrite !on_values_compose. now apply on_values_ext.
Qed.

Lemma null_nonfinite_idempotent (v : pyval) :
  null_nonfinite (null_nonfinite v) = null_nonfinite v.
Proof.
  induction v as [| | |f| |l IH|l IH|d IH|] using pyval_nested_ind;
    try reflexivity.
  - cbn [null_nonfinite]. destruct (is_nonfinite f) eqn:E; [reflexivity|].
    cbn [null_nonfinite]. now rewrite E.
  - cbn [null_nonfinite]. f_equal. rewrite map_map.
    apply map_ext_Forall. exact IH.
  - change (null_nonfinite (null_nonfinite (PDict d)))
      with (PDict (on_values null_nonfinite (on_values null_nonfinite d))).
    change (null_nonfinite (PDict d)) with (PDict (on_values null_nonfinite d)).
    f_equal. rewrite on_values_compose. now apply on_values_ext.
Qed.

Lemma null_nonfinite_is_json (v : pyval) :
  is_json (null_nonfinite v) = is_json v.
Proof.
  induction v as [| | |f| |l IH|l IH|d IH|] using pyval_nested_ind;
    try reflexivity.
  - cbn [null_nonfinite is_json]. now destruct (is_nonfinite f).
  - cbn [null_nonfinite is_json]. now apply forallb_map_ext.
  - cbn [null_nonfinite is_json]. apply forallb_map_ext.
    eapply Forall_impl; [|exact IH]. intros kv H. cbn [fst snd]. now rewrite H.
Qed.

Lemma null_nonfinite_all_finite (v : pyval) :
  is_json v = true -> all_finite (null_nonfinite v) = true.
Proof.
  induction v as [| | |f| |l IH|l IH|d IH|] using pyval_nested_ind;
    try reflexivity; try discriminate.
  - intros _. cbn [null_nonfinite].
    destruct (is_nonfinite f) eqn:E; [reflexivity|].
    cbn [all_finite]. now rewrite E.
  - cbn [is_json null_nonfinite all_finite]. intro H.
    rewrite forallb_forall in *. rewrite Forall_forall in IH.
    intros x Hx. apply in_map_iff in Hx as (y & <- & Hy). auto.
  - intro H. destruct (is_json_dict _ H) as [_ Hv].
    cbn [null_nonfinite all_finite]. rewrite forallb_forall.
    rewrite Forall_forall in IH.
    intros x Hx. apply in_map_iff in Hx as (kv & <- & Hkv). cbn [snd]. auto.
Qed.

Lemma sorted_value_is_json (v : pyval) :
  is_json (sorted_value v) = is_json v.
Proof.
  induction v as [| | | | |l IH|l IH|d IH|] using pyval_nested_ind;
    try reflexivity.
  - cbn [sorted_value is_json]. now apply forallb_map_ext.
  - cbn [sorted_value is_json].
    rewrite (forallb_perm _ (sort_items_perm _)).
    apply forallb_map_ext.
    eapply Forall_impl; [|exact IH]. intros kv H. cbn [fst snd]. now rewrite H.
Qed.

(** C6: the canonical serializer writes null for every NaN and every
    infinity of a JSON value, at any depth: [process_data] is the
    replacement of the non-finite numbers by null (on every value within
    its depth), the value that is encoded holds no non-finite number, and
    the result is the one the serializer gives for the value with null in
    their place; for the mapping of x to NaN, and of x to null, the string
    is [{"x":null}].  The serializer returns on every JSON value within the
    limits of the interpreter. *)
Theorem nonfinite_numbers_become_null
    (it : interpreter) (v : pyval) :
  is_json v = true ->
  to_deterministic_json it v
    = to_deterministic_json it (null_nonfinite v) /\
  (forall depth r,
      process_data depth r
      = if within_depth depth r then Ok (null_nonfinite r)
        else Raise RecursionError) /\
  (if within_limits it v
   then exists r q s,
       sort_object (recursion_depth it) v = Ok r /\
       process_data (recursion_depth it) r = Ok q /\
       q = null_nonfinite r /\
       all_finite q = true /\
       json_dumps it (py ",") (py ":") (encoder_depth it) q = Ok s /\
       to_deterministic_json it v = Ok s
   else exists e,
       to_deterministic_json it v = Raise e /\
       (e = ValueError \/ e = RecursionError)) /\
  (within_limits it sample_nan = true ->
   to_deterministic_json it sample_nan = Ok (pyq "{`x`:null}") /\
   to_deterministic_json it sample_null = Ok (pyq "{`x`:null}")).
Proof.
  intro Hj.
  pose proof (is_json_sortable _ Hj) as Hso.
  assert (Hj' : is_json (null_nonfinite v) = true)
    by now rewrite null_nonfinite_is_json.
  pose proof (is_json_sortable _ Hj') as Hso'.
  split; [|split; [intros depth r; apply process_data_spec|split]].
  - destruct (within_depth (recursion_depth it) v) eqn:Hw.
    + rewrite !to_deterministic_json_eq; auto;
        [|now rewrite within_depth_null_nonfinite].
      now rewrite null_nonfinite_sorted_value, null_nonfinite_idempotent.
    + unfold to_deterministic_json.
      rewrite !sort_object_json by assumption.
      now rewrite within_depth_null_nonfinite, Hw.
  - pose proof (to_deterministic_json_json it v Hj) as Hv.
    destruct (within_limits it v) eqn:Hl; [|exact Hv].
    destruct Hv as [s Hv].
    pose proof Hl as Hl'. unfold within_limits in Hl'.
    apply andb_true_iff in Hl' as [Hwd _].
    exists (sorted_value v), (null_nonfinite (sorted_value v)), s.
    rewrite (sort_object_fits _ _ Hso Hwd).
    repeat split; auto.
    + now rewrite process_data_spec, within_depth_sorted_value, Hwd.
    + apply null_nonfinite_all_finite. now rewrite sorted_value_is_json.
    + now rewrite <- (to_deterministic_json_eq _ _ Hso Hwd).
  - unfold within_limits, encoder_fits. intro H.
    apply andb_true_iff in H as [Hw H]. apply andb_true_iff in H as [He _].
    assert (Hw' : within_depth (recursion_depth it) sample_null = true)
      by (destruct (recursion_depth it); [discriminate Hw|reflexivity]).
    rewrite !to_deterministic_json_eq by (try assumption; reflexivity).
    destruct (encoder_depth it) as [|e]; [discriminate He|].
    split; reflexivity.
Qed.

Lemma nonfinite_numbers_become_null_witness :
  all_finite sample_infinities = false /\
  to_deterministic_json sample_interpreter sample_infinities
    = Ok (pyq "[{`x`:null,`y`:[null,7]}]") /\
  to_deterministic_json sample_interpreter sample_nan
    = to_deterministic_json sample_interpreter sample_null.
Proof.
  split; [reflexivity|].
  destruct (@nonfinite_numbers_become_null sample_interpreter sample_infinities
              eq_refl) as (H & _ & _ & Hx).
  destruct (Hx eq_refl) as [Hnan Hnull].
  split; [rewrite H; reflexivity|].
  now rewrite Hnan, Hnull.
Defined.

(** * The failures of the serializer *)

(** C7, as the code has it: the canonical serializer checks nothing itself.
    Within the limits of the interpreter (no int with more digits than it
    converts, no nesting deeper than its recursion allows) it returns a
    string for every value of the JSON sum type, and more generally for
    every value whose mappings have keys that can be compared with each
    other and that holds no bytes object; on every other value it raises
    TypeError, from the sort of the keys or from the encoder.  Beyond the
    limits it raises ValueError or RecursionError, also on a value of the
    JSON sum type. *)
Theorem canonical_serializer_failures
    (it : interpreter) (v : pyval) :
  if within_limits it v
  then if sortable v && dumpable v
       then exists s, to_deterministic_json it v = Ok s
       else is_json v = false /\
            to_deterministic_json it v = Raise TypeError
  else exists e,
      to_deterministic_json it v = Raise e /\
      (e = ValueError \/ e = RecursionError \/
       (e = TypeError /\ is_json v = false)).
Proof.
  assert (Hjson : sortable v && dumpable v = false -> is_json v = false).
  { intro E. destruct (is_json v) eqn:Hj; [|reflexivity].
    now rewrite (is_json_sortable _ Hj), (is_json_dumpable _ Hj) in E. }
  destruct (within_limits it v) eqn:Hl.
  - destruct (sortable v && dumpable v) eqn:E.
    + apply andb_true_iff in E as [Hs Hd].
      now apply to_deterministic_json_fits.
    + split; [now apply Hjson|].
      destruct (to_deterministic_json it v) as [s|e] eqn:Hv.
      * apply to_deterministic_json_ok_inv in Hv as (Hs & Hd & _).
        now rewrite Hs, Hd in E.
      * apply to_deterministic_json_raise in Hv as [[-> _]|[_ Hv]];
          [reflexivity|congruence].
  - destruct (to_deterministic_json it v) as [s|e] eqn:Hv.
    + apply to_deterministic_json_ok_inv in Hv as (_ & _ & Hv). congruence.
    + exists e. split; [reflexivity|].
      apply to_deterministic_json_raise in Hv as [[-> E]|[[->| ->] _]]; auto.
Qed.

(** C7, as stated, fails: a mapping keyed by an integer and a tuple are
    outside the JSON sum type, and the canonical serializer writes them
    without any failure (the key as a string, the tuple as an array); it
    raises TypeError on a mapping that mixes integer and string keys and on
    a bytes object.  And it fails on values inside the JSON sum type: with
    ValueError on an integer of 641 digits where the interpreter converts
    640, with RecursionError on a list nested 401 times where it recurses
    400 levels. *)
Lemma values_outside_json_are_serialized :
  is_json sample_int_keyed = false /\
  to_deterministic_json sample_interpreter sample_int_keyed
    = Ok (pyq "{`1`:`a`}") /\
  is_json (PTuple [PInt 1; PNone]) = false /\
  to_deterministic_json sample_interpreter (PTuple [PInt 1; PNone])
    = Ok (py "[1,null]") /\
  to_deterministic_json sample_interpreter sample_mixed_keyed = Raise TypeError /\
  to_deterministic_json sample_interpreter (PBytes [104%N; 105%N])
    = Raise TypeError /\
  is_json (PInt (long_int 641)) = true /\
  to_deterministic_json shallow_interpreter (PInt (long_int 641))
    = Raise ValueError /\
  is_json (nested_list 401 PNone) = true /\
  to_deterministic_json sample_interpreter (nested_list 401 PNone)
    = Raise RecursionError.
Proof.
  repeat (split; [vm_compute; reflexivity|]). vm_compute. reflexivity.
Qed.

(** * Digests *)

Lemma be_bytes_octets (n : nat) (x : N) :
  Forall (fun b => (b < 256)%N) (SHA256.be_bytes n x).
Proof.
  induction n as [|n IH]; simpl; constructor; [|exact IH].
  change 255%N with (N.ones 8). rewrite N.land_ones.
  apply N.mod_lt. discriminate.
Qed.

Lemma digest_octets (msg : pybytes) :
  List.length (SHA256.digest msg) = 32%nat /\
  Forall (fun b => (b < 256)%N) (SHA256.digest msg).
Proof.
  unfold SHA256.digest.
  set (r := SHA256.blocks _ _ _). clearbody r. split; [reflexivity|].
  cbn [flat_map]. repeat (apply Forall_app; split); try apply be_bytes_octets.
  constructor.
Qed.

Lemma hex_char_digit (n : N) : (n < 16)%N -> is_hex_digit (SHA256.hex_char n) = true.
Proof.
  intro H. unfold is_hex_digit, SHA256.hex_char.
  destruct (N.ltb_spec n 10).
  - apply orb_true_iff. left. apply andb_true_iff.
    split; apply N.leb_le; lia.
  - apply orb_true_iff. right. apply andb_true_iff.
    split; apply N.leb_le; lia.
Qed.

(** A hexdigest is 64 lowercase hexadecimal digits. *)
Lemma hexdigest_format (msg : pybytes) :
  List.length (SHA256.hexdigest msg) = 64%nat /\
  forallb is_hex_digit (SHA256.hexdigest msg) = true.
Proof.
  unfold SHA256.hexdigest.
  destruct (digest_octets msg) as [Hlen Hoct].
  generalize dependent (SHA256.digest msg). intros d Hlen Hoct. split.
  - assert (H : forall l : pybytes,
               List.length
                 (flat_map (fun b => [SHA256.hex_char (b / 16);
                                      SHA256.hex_char (b mod 16)]%N) l)
               = (2 * List.length l)%nat).
    { induction l as [|b l IH]; [reflexivity|].
      cbn [flat_map List.length app]. rewrite IH. lia. }
    rewrite H, Hlen. reflexivity.
  - clear Hlen. induction Hoct as [|b l Hb _ IH]; [reflexivity|].
    cbn [flat_map forallb app]. rewrite IH.
    assert (H1 : is_hex_digit (SHA256.hex_char (b / 16)) = true)
      by (apply hex_char_digit, N.Div0.div_lt_upper_bound; lia).
    assert (H2 : is_hex_digit (SHA256.hex_char (b mod 16)) = true)
      by (apply hex_char_digit, N.mod_lt; discriminate).
    now rewrite H1, H2.
Qed.

(** * Escaping loses nothing *)

Lemma escape_char_small (c : N) : is_escaped c = true -> (c < 93)%N.
Proof.
  unfold is_escaped. intro E.
  destruct (N.ltb_spec c 32); [lia|].
  destruct (N.eqb_spec c 34); [lia|].
  destruct (N.eqb_spec c 92); [lia|discriminate].
Qed.

Lemma unescape_escape_char (c : N) (r : pystr) :
  unescape_char (escape_char c ++ r) = Some (c, r).
Proof.
  pose proof (escape_char_spec c) as H.
  destruct (is_escaped c) eqn:E.
  - clear H. apply escape_char_small in E.
    rewrite <- (N2Nat.id c). assert (Hn : (N.to_nat c < 93)%nat) by lia.
    generalize dependent (N.to_nat c). intros n Hn. clear E.
    do 93 (destruct n as [|n]; [reflexivity|]). lia.
  - rewrite H. cbn [app unescape_char].
    unfold is_escaped in E. apply orb_false_iff in E as [_ E]. now rewrite E.
Qed.

Lemma escape_char_not_empty (c : N) : escape_char c <> [].
Proof.
  pose proof (unescape_escape_char c []) as H. rewrite app_nil_r in H.
  intro E. rewrite E in H. discriminate.
Qed.

Lemma escape_body_injective (s t : pystr) :
  escape_body s = escape_body t -> s = t.
Proof.
  revert t. induction s as [|c s IH]; intros [|d t] H.
  - reflexivity.
  - change (escape_body (d :: t)) with (escape_char d ++ escape_body t) in H.
    symmetry in H. apply app_eq_nil in H as [H _].
    now apply escape_char_not_empty in H.
  - change (escape_body (c :: s)) with (escape_char c ++ escape_body s) in H.
    apply app_eq_nil in H as [H _]. now apply escape_char_not_empty in H.
  - change (escape_body (c :: s)) with (escape_char c ++ escape_body s) in H.
    change (escape_body (d :: t)) with (escape_char d ++ escape_body t) in H.
    apply (f_equal unescape_char) in H. rewrite !unescape_escape_char in H.
    injection H as -> H. f_equal. now apply IH.
Qed.

(** * Encodable texts *)

Lemma encode_cases (s : pystr) :
  if encodable s
  then exists b, UTF8.encode s = Ok b
  else UTF8.encode s = Raise UnicodeEncodeError.
Proof.
  induction s as [|c s IH]; [now exists []|].
  cbn [encodable forallb UTF8.encode] in *.
  destruct (UTF8.encode_char c) as [b|]; [|reflexivity].
  cbn [andb]. fold (encodable s). destruct (encodable s).
  - destruct IH as [bs ->]. now exists (b ++ bs).
  - now rewrite IH.
Qed.

Lemma encoded_ok (s : pystr) (b : pybytes) :
  UTF8.encode s = Ok b -> encoded s = b.
Proof. intro H. unfold encoded. now rewrite H. Qed.

Lemma encodable_escape_char_eq (c : N) :
  encodable (escape_char c) = encodable [c].
Proof.
  pose proof (escape_char_spec c) as H.
  destruct (is_escaped c) eqn:E; [|now rewrite H].
  assert (Hc : encodable [c] = true).
  { apply escape_char_small in E. unfold encodable, UTF8.encode_char.
    cbn [forallb]. destruct (N.ltb_spec c 128); [reflexivity|lia]. }
  rewrite Hc. now apply encodable_escape_char.
Qed.

Lemma encodable_escape_body_eq (s : pystr) :
  encodable (escape_body s) = encodable s.
Proof.
  induction s as [|c s IH]; [reflexivity|].
  change (escape_body (c :: s)) with (escape_char c ++ escape_body s).
  change (c :: s) with ([c] ++ s).
  now rewrite !encodable_app, encodable_escape_char_eq, IH.
Qed.

Lemma replace_from_skip (old new : pystr) (k : nat) (s : pystr) :
  replace_from old new k s = replace_from old new 0 (skipn k s).
Proof.
  revert k. induction s as [|c s IH]; intros [|k]; try reflexivity.
  cbn [replace_from skipn]. apply IH.
Qed.

Lemma startswith_split (old s : pystr) :
  startswith old s = true -> s = old ++ skipn (List.length old) s.
Proof.
  revert s. induction old as [|o old IH]; intros [|c s]; cbn; try discriminate;
    try reflexivity.
  intro H. apply andb_true_iff in H as [H1 H2].
  apply N.eqb_eq in H1. subst. f_equal. now apply IH.
Qed.

(** Replacing occurrences of a text by another keeps what holds of every
    character of both. *)
Lemma forallb_replace (P : N -> bool) (old new : pystr) :
  old <> [] -> forallb P old = true -> forallb P new = true ->
  forall s, forallb P (replace s old new) = forallb P s.
Proof.
  intros Hne Hold Hnew s.
  assert (H : forall n s, (List.length s <= n)%nat ->
                          forallb P (replace s old new) = forallb P s).
  { clear s. induction n as [|n IH]; intros [|c s] Hlen;
      try (destruct old; [congruence|reflexivity]); [simpl in Hlen; lia|].
    unfold replace. cbn [replace_from].
    destruct (startswith old (c :: s)) eqn:Hs.
    - destruct old as [|o old']; [congruence|].
      rewrite replace_from_skip, forallb_app, Hnew. cbn [andb].
      change (List.length (o :: old') - 1)%nat with (S (List.length old') - 1)%nat.
      replace (S (List.length old') - 1)%nat with (List.length old') by lia.
      fold (replace (skipn (List.length old') s) (o :: old') new).
      rewrite IH.
      + apply startswith_split in Hs. cbn [List.length skipn app] in Hs.
        injection Hs as -> Hs. rewrite Hs at 2.
        cbn [forallb] in *. rewrite forallb_app.
        apply andb_true_iff in Hold as [-> ->]. reflexivity.
      + rewrite length_skipn. simpl in Hlen. lia.
    - cbn [forallb]. f_equal. apply IH. simpl in Hlen. lia. }
  apply (H (List.length s)). lia.
Qed.

Lemma encodable_replace (s new : pystr) :
  encodable new = true ->
  encodable (replace s PRE_LAUNCH_SCRIPT new) = encodable s.
Proof.
  intro H. apply forallb_replace; [discriminate|reflexivity|exact H].
Qed.

Lemma encodable_rendering (c p : pystr) :
  encodable (manifest_layout
               (replace (escape_body c) PRE_LAUNCH_SCRIPT (escape_body p))
               (escape_body p) default_salt)
  = encodable c && encodable p.
Proof.
  unfold manifest_layout. rewrite !encodable_app.
  rewrite (encodable_escape_body_eq p).
  destruct (encodable p) eqn:Hp.
  - rewrite encodable_replace by now rewrite encodable_escape_body_eq.
    rewrite encodable_escape_body_eq.
    destruct (encodable c); reflexivity.
  - rewrite !andb_false_r. reflexivity.
Qed.

(** * Placeholders and escaping *)

Lemma contains_nil (s : pystr) : contains [] s = true.
Proof. now destruct s. Qed.

Lemma startswith_not_in (old : pystr) (x : N) (r : pystr) :
  old <> [] -> ~ In x old -> startswith old (x :: r) = false.
Proof.
  destruct old as [|o old']; [congruence|]. intros _ Hx. cbn [startswith].
  destruct (N.eqb_spec o x) as [->|]; [|reflexivity].
  exfalso. apply Hx. now left.
Qed.

Lemma contains_skip_apart (old xs r : pystr) :
  old <> [] -> Forall (fun x => ~ In x old) xs ->
  contains old (xs ++ r) = contains old r.
Proof.
  intros Hne H. induction H as [|x xs Hx _ IH]; [reflexivity|].
  change ((x :: xs) ++ r) with (x :: (xs ++ r)). cbn [contains].
  now rewrite startswith_not_in, IH.
Qed.

Lemma startswith_escape_body (s : pystr) :
  forall old,
    (forall c, is_escaped c = true ->
               ~ In c old /\ Forall (fun x => ~ In x old) (escape_char c)) ->
    startswith old (escape_body s) = startswith old s.
Proof.
  induction s as [|c s IH]; intros old H; [reflexivity|].
  destruct old as [|o old']; [reflexivity|].
  change (escape_body (c :: s)) with (escape_char c ++ escape_body s).
  pose proof (escape_char_spec c) as Hc.
  destruct (is_escaped c) eqn:E.
  - destruct (H c E) as [Hin Hall].
    rewrite (@startswith_not_in (o :: old') c s) by (auto; discriminate).
    destruct (escape_char c) as [|x xs] eqn:Ex;
      [now apply escape_char_not_empty in Ex|].
    inversion Hall; subst.
    change ((x :: xs) ++ escape_body s) with (x :: (xs ++ escape_body s)).
    apply startswith_not_in; [discriminate|assumption].
  - rewrite Hc. cbn [app startswith]. f_equal. apply IH.
    intros c' E'. destruct (H c' E') as [Hin Hall]. split.
    + intro Hx. apply Hin. now right.
    + eapply Forall_impl; [|exact Hall]. intros x Hx Hx'. apply Hx. now right.
Qed.

(** Escaping neither makes nor hides an occurrence of a text whose
    characters are apart from the escape table. *)
Lemma contains_escape_body (old s : pystr) :
  (forall c, is_escaped c = true ->
             ~ In c old /\ Forall (fun x => ~ In x old) (escape_char c)) ->
  contains old (escape_body s) = contains old s.
Proof.
  intro H. destruct old as [|o old'] eqn:Eo; [now rewrite !contains_nil|].
  rewrite <- Eo in *. assert (Hne : old <> []) by (subst; discriminate).
  clear Eo. induction s as [|c s IH]; [reflexivity|].
  cbn [contains]. rewrite <- (startswith_escape_body (c :: s) old H).
  change (escape_body (c :: s)) with (escape_char c ++ escape_body s).
  pose proof (escape_char_spec c) as Hc.
  destruct (is_escaped c) eqn:E.
  - destruct (H c E) as [Hin Hall].
    rewrite (@contains_skip_apart old (escape_char c) (escape_body s) Hne Hall), IH.
    destruct (escape_char c) as [|x xs] eqn:Ex;
      [now apply escape_char_not_empty in Ex|].
    inversion Hall; subst.
    change ((x :: xs) ++ escape_body s) with (x :: (xs ++ escape_body s)).
    now rewrite startswith_not_in.
  - rewrite Hc. cbn [app contains]. now rewrite IH.
Qed.

Lemma placeholder_apart (c : N) :
  is_escaped c = true ->
  ~ In c PRE_LAUNCH_SCRIPT /\
  Forall (fun x => ~ In x PRE_LAUNCH_SCRIPT) (escape_char c).
Proof.
  intro E. pose proof (escape_char_small _ E) as Hlt.
  assert (Hall : forallb
            (fun n => negb (is_escaped (N.of_nat n)) ||
                      forallb
                        (fun x => negb (existsb (N.eqb x) PRE_LAUNCH_SCRIPT))
                        (N.of_nat n :: escape_char (N.of_nat n)))
            (seq 0 93) = true) by (vm_compute; reflexivity).
  rewrite forallb_forall in Hall.
  specialize (Hall (N.to_nat c)). rewrite N2Nat.id, E in Hall.
  assert (Hin : In (N.to_nat c) (seq 0 93)) by (apply in_seq; lia).
  specialize (Hall Hin). cbn [negb orb] in Hall. rewrite forallb_forall in Hall.
  assert (Hno : forall x, In x (c :: escape_char c) -> ~ In x PRE_LAUNCH_SCRIPT).
  { intros x Hx Hx'. specialize (Hall x Hx). apply negb_true_iff in Hall.
    assert (Ht : existsb (N.eqb x) PRE_LAUNCH_SCRIPT = true)
      by (apply existsb_exists; exists x; split;
          [exact Hx'|apply N.eqb_refl]).
    congruence. }
  split; [apply Hno; now left|].
  apply Forall_forall. intros x Hx. apply Hno. now right.
Qed.

Lemma contains_placeholder_escaped (s : pystr) :
  contains PRE_LAUNCH_SCRIPT (escape_body s) = contains PRE_LAUNCH_SCRIPT s.
Proof. apply contains_escape_body, placeholder_apart. Qed.

(** * Further properties of the literal rendering *)

(** X1: a manifest whose compose text does not hold the word
    PRE_LAUNCH_SCRIPT is rendered to the layout of the template with the
    escaped compose text and the escaped boot script in their places and the
    default salt; what the boot script holds, and whether either text holds
    the word DOCKER_COMPOSE_CONTENT, does not matter. *)
Theorem literal_rendering_embeds_texts
    (it : interpreter) (d : pydict) (c p : pystr) :
  dict_lookup d (KStr (py "docker_compose_file")) = Some (PStr c) ->
  dict_lookup d (KStr (py "pre_launch_script")) = Some (PStr p) ->
  contains PRE_LAUNCH_SCRIPT c = false ->
  to_dstack_format_json it (PDict d)
    = Ok (manifest_layout (escape_body c) (escape_body p) default_salt).
Proof.
  intros Hc Hp Hno.
  rewrite (to_dstack_format_json_strings it _ Hc Hp).
  rewrite (@replace_absent PRE_LAUNCH_SCRIPT (escape_body p) (escape_body c));
    [reflexivity|discriminate|].
  now rewrite contains_placeholder_escaped.
Qed.

Lemma literal_rendering_embeds_texts_witness :
  to_dstack_format_json sample_interpreter
    (PDict [ (KStr (py "pre_launch_script"), PStr DOCKER_COMPOSE_CONTENT);
             (KStr (py "docker_compose_file"),
              PStr (pyq "image: `DOCKER_COMPOSE_CONTENT`")) ])
  = Ok (manifest_layout (escape_body (pyq "image: `DOCKER_COMPOSE_CONTENT`"))
          (escape_body DOCKER_COMPOSE_CONTENT) default_salt).
Proof.
  apply (@literal_rendering_embeds_texts sample_interpreter); reflexivity.
Defined.

(** The encoder on this interpreter: within its limits it writes every
    value without a bytes object and raises TypeError on the others; beyond
    them it raises. *)
Lemma json_dumps_cases (it : interpreter) (item_separator key_separator : pystr)
    (v : pyval) :
  if encoder_fits it v
  then if dumpable v
       then exists s, json_dumps it item_separator key_separator
                        (encoder_depth it) v = Ok s
       else json_dumps it item_separator key_separator (encoder_depth it) v
            = Raise TypeError
  else exists e,
      json_dumps it item_separator key_separator (encoder_depth it) v = Raise e /\
      (e = ValueError \/ e = RecursionError \/ e = TypeError).
Proof.
  unfold encoder_fits.
  destruct (json_dumps it item_separator key_separator (encoder_depth it) v)
    as [s|e] eqn:E.
  - apply json_dumps_ok_inv in E as (-> & -> & ->). cbn [andb]. eauto.
  - apply json_dumps_raise in E as [[-> Hc]|[[-> Hc]|[-> Hc]]]; rewrite Hc.
    + destruct (encodes_within _ v && ints_fit it v); eauto.
    + rewrite andb_false_r. eauto.
    + cbn [andb]. eauto.
Qed.

(** X2: the failures of the literal rendering: TypeError when its input is
    not a mapping, KeyError when one of the two keys it reads is missing,
    and otherwise those of encoding the two values: TypeError when one of
    them holds a bytes object, ValueError or RecursionError when one of
    them is beyond the limits of the interpreter (an int with too many
    digits, too many containers inside one another); in every other case it
    returns a text. *)
Theorem literal_rendering_outcomes
    (it : interpreter) (data : pyval) :
  match data with
  | PDict d =>
      match dict_lookup d (KStr (py "docker_compose_file")),
            dict_lookup d (KStr (py "pre_launch_script")) with
      | Some c, Some p =>
          if encoder_fits it c && encoder_fits it p
          then if dumpable c && dumpable p
               then exists r, to_dstack_format_json it data = Ok r
               else to_dstack_format_json it data = Raise TypeError
          else exists e,
              to_dstack_format_json it data = Raise e /\
              (e = ValueError \/ e = RecursionError \/ e = TypeError)
      | _, _ => to_dstack_format_json it data = Raise KeyError
      end
  | _ => to_dstack_format_json it data = Raise TypeError
  end.
Proof.
  destruct data as [| | | | | | |d|]; try reflexivity.
  rewrite to_dstack_format_json_eq. unfold getitem.
  destruct (dict_lookup d (KStr (py "docker_compose_file"))) as [c|];
    [|reflexivity].
  destruct (dict_lookup d (KStr (py "pre_launch_script"))) as [p|];
    [|reflexivity].
  cbn [bind]. unfold dumps_unquoted.
  pose proof (json_dumps_cases it (py ", ") (py ": ") c) as Hc.
  pose proof (json_dumps_cases it (py ", ") (py ": ") p) as Hp.
  destruct (encoder_fits it c); cbn [andb].
  - destruct (dumpable c); cbn [andb].
    + destruct Hc as [sc ->]. cbn [bind].
      destruct (encoder_fits it p).
      * destruct (dumpable p).
        -- destruct Hp as [sp ->]. cbn [bind]. eauto.
        -- now rewrite Hp.
      * destruct Hp as (e & -> & He). cbn [bind]. eauto.
    + rewrite Hc. cbn [bind].
      destruct (encoder_fits it p); [reflexivity|eauto 6].
  - destruct Hc as (e & -> & He). cbn [bind]. eauto.
Qed.

Lemma get_compose_hash_strings
    (it : interpreter) (d : pydict) (c p : pystr) :
  dict_lookup d (KStr (py "docker_compose_file")) = Some (PStr c) ->
  dict_lookup d (KStr (py "pre_launch_script")) = Some (PStr p) ->
  get_compose_hash it (PDict d) =
  if encodable c && encodable p
  then Ok (SHA256.hexdigest
             (encoded (manifest_layout
                         (replace (escape_body c) PRE_LAUNCH_SCRIPT
                            (escape_body p))
                         (escape_body p) default_salt)))
  else Raise UnicodeEncodeError.
Proof.
  intros Hc Hp. unfold get_compose_hash.
  rewrite (to_dstack_format_json_strings it _ Hc Hp). cbn [bind].
  pose proof (encode_cases
                (manifest_layout
                   (replace (escape_body c) PRE_LAUNCH_SCRIPT (escape_body p))
                   (escape_body p) default_salt)) as H.
  rewrite encodable_rendering in H. unfold encoded.
  destruct (encodable c && encodable p).
  - destruct H as [b ->]. reflexivity.
  - now rewrite H.
Qed.

(** X3: for a manifest whose two texts are strings, the compose hash is
    returned exactly when both texts can be encoded to UTF-8 (they hold no
    surrogate); it is then the SHA-256 digest of the encoded rendering, 64
    lowercase hexadecimal digits.  Otherwise UnicodeEncodeError is raised. *)
Theorem get_compose_hash_outcomes
    (it : interpreter) (d : pydict) (c p : pystr) :
  dict_lookup d (KStr (py "docker_compose_file")) = Some (PStr c) ->
  dict_lookup d (KStr (py "pre_launch_script")) = Some (PStr p) ->
  if encodable c && encodable p
  then exists rendering bytes,
      to_dstack_format_json it (PDict d) = Ok rendering /\
      UTF8.encode rendering = Ok bytes /\
      get_compose_hash it (PDict d) = Ok (SHA256.hexdigest bytes) /\
      List.length (SHA256.hexdigest bytes) = 64%nat /\
      forallb is_hex_digit (SHA256.hexdigest bytes) = true
  else get_compose_hash it (PDict d) = Raise UnicodeEncodeError.
Proof.
  intros Hc Hp. rewrite (get_compose_hash_strings it _ Hc Hp).
  pose proof (to_dstack_format_json_strings it _ Hc Hp) as Hr.
  pose proof (encode_cases
                (manifest_layout
                   (replace (escape_body c) PRE_LAUNCH_SCRIPT (escape_body p))
                   (escape_body p) default_salt)) as H.
  rewrite encodable_rendering in H.
  destruct (encodable c && encodable p); [|reflexivity].
  destruct H as [b Hb].
  match type of Hr with _ = Ok ?r => exists r, b end.
  rewrite (encoded_ok _ Hb). destruct (hexdigest_format b).
  repeat split; assumption.
Qed.

Lemma get_compose_hash_outcomes_witness :
  get_compose_hash sample_interpreter
    (PDict [ (KStr (py "docker_compose_file"), PStr [55296%N]);
             (KStr (py "pre_launch_script"), PStr (py "#!/bin/sh")) ])
  = Raise UnicodeEncodeError.
Proof.
  apply (@get_compose_hash_outcomes sample_interpreter
           [ (KStr (py "docker_compose_file"), PStr [55296%N]);
             (KStr (py "pre_launch_script"), PStr (py "#!/bin/sh")) ]
           [55296%N] (py "#!/bin/sh") eq_refl eq_refl).
Defined.

(** X4: escaping loses nothing: two strings with the same escaped form
    (the JSON encoding without its outer quotes, as the renderer and the
    verifier embed it) are the same string, and so are two strings the
    canonical serializer writes alike. *)
Theorem escaped_form_determines_text
    (it : interpreter) (s t : pystr) :
  (dumps_unquoted it (PStr s) = dumps_unquoted it (PStr t)
   \/ to_deterministic_json it (PStr s)
      = to_deterministic_json it (PStr t)) ->
  s = t.
Proof.
  intros [H|H]; apply escape_body_injective.
  - rewrite !dumps_unquoted_str in H. now apply Ok_inj in H.
  - rewrite !to_deterministic_json_str in H. apply Ok_inj in H.
    unfold encode_basestring in H. injection H as H.
    now apply app_inv_tail in H.
Qed.

Lemma escaped_form_determines_text_witness :
  pyq "a`b" ++ [10%N] = pyq "a`b" ++ [10%N].
Proof.
  apply (@escaped_form_determines_text sample_interpreter); left; reflexivity.
Defined.

(** * The verifier *)

Lemma encodable_manifest_layout_eq (c p salt : pystr) :
  encodable (manifest_layout c p salt)
  = encodable c && encodable p && encodable salt.
Proof.
  unfold manifest_layout. rewrite !encodable_app.
  change (encodable verify_head) with true.
  change (encodable verify_middle) with true.
  change (encodable verify_before_salt) with true.
  change (encodable verify_tail) with true.
  cbn [andb]. now rewrite andb_true_r, andb_assoc.
Qed.

(** The manifest the verifier builds holds the local compose text and the
    default boot script under the two keys it reads back. *)
Lemma our_app_compose_fields (text : pystr) (salt : pyval) :
  exists m,
    setitem (app_compose_of text) (py "salt") salt = Ok m /\
    getitem m (py "docker_compose_file") = Ok (PStr text) /\
    getitem m (py "pre_launch_script") = Ok (PStr get_default_pre_launch_script).
Proof.
  eexists. split; [reflexivity|]. split; vm_compute; reflexivity.
Qed.

Lemma print_lines_ok (out : console) (lines : list pystr) :
  (forall line, print_line out line = None) -> print_lines out lines = Ok tt.
Proof.
  intro H. induction lines as [|line rest IH]; [reflexivity|].
  cbn [print_lines]. now rewrite H.
Qed.


(** A run of the verifier in closed form: the reads of the deployed file,
    the salt as text, the two lines of the report, the read of the compose
    file, the layout with the deployed salt saved to its file, the two
    digests, the lines of the verdict, and the equality of the digests;
    building the manifest, reading its two texts back and escaping them
    never fail. *)
Lemma verify_deployed_hash_closed
    (it : interpreter) (fs : files) (dk : disk) (out : console)
    (p1 p2 : pystr) :
  verify_deployed_hash it fs dk out p1 p2 =
  (doc <- json_load fs p2 ;;
   salt <- get_method doc (py "salt") ;;
   bytes <- read_bytes fs p2 ;;
   salt_text <- format_value it salt ;;
   _ <- print_lines out (report_lines salt_text (SHA256.hexdigest bytes)) ;;
   text <- read_text fs p1 ;;
   let rendering :=
     manifest_layout (escape_body text)
       (escape_body get_default_pre_launch_script) salt_text in
   _ <- effect (write_text dk saved_name rendering) ;;
   if encodable text && encodable salt_text
   then
     _ <- print_lines out
            (verdict_lines p2 (SHA256.hexdigest (encoded rendering))
               (SHA256.hexdigest bytes)) ;;
     Ok (Verification rendering
           (SHA256.hexdigest (encoded rendering)) (SHA256.hexdigest bytes)
           (pystr_eqb (SHA256.hexdigest (encoded rendering))
              (SHA256.hexdigest bytes)))
   else Raise UnicodeEncodeError).
Proof.
  unfold verify_deployed_hash, docker_compose_to_app_compose.
  destruct (json_load fs p2) as [doc|e]; [|reflexivity]. cbn [bind].
  destruct (get_method doc (py "salt")) as [salt|e]; [|reflexivity].
  cbn [bind].
  destruct (read_bytes fs p2) as [bytes|e]; [|reflexivity]. cbn [bind].
  unfold format_manifest.
  destruct (format_value it salt) as [salt_text|e]; [|reflexivity].
  cbn [bind print_lines report_lines].
  destruct (effect (print_line out (py "Deployed salt: " ++ salt_text)))
    as [[]|e]; [|reflexivity]. cbn [bind].
  destruct (effect (print_line out (py "Deployed hash: " ++ _)))
    as [[]|e]; [|reflexivity]. cbn [bind].
  destruct (read_text fs p1) as [text|e]; [|reflexivity]. cbn [bind].
  destruct (our_app_compose_fields text salt) as (m & Hm & Hc & Hp).
  rewrite Hm. cbn [bind]. rewrite Hc, Hp. cbn [bind].
  rewrite !dumps_unquoted_str. cbn [bind]. cbv zeta.
  fold (manifest_layout (escape_body text)
          (escape_body get_default_pre_launch_script) salt_text).
  set (rendering := manifest_layout _ _ _).
  fold saved_name.
  destruct (effect (write_text dk saved_name rendering)) as [[]|e];
    [|reflexivity]. cbn [bind].
  pose proof (encode_cases rendering) as H.
  assert (He : encodable rendering = encodable text && encodable salt_text).
  { subst rendering. rewrite encodable_manifest_layout_eq.
    rewrite encodable_default_script, encodable_escape_body_eq.
    now rewrite andb_true_r. }
  rewrite He in H.
  destruct (encodable text && encodable salt_text); [|now rewrite H].
  destruct H as [b Hb]. rewrite Hb, (encoded_ok _ Hb). cbn [bind].
  unfold verdict_lines. cbn [print_lines].
  destruct (effect (print_line out (py "Our hash (with deployed salt): " ++ _)))
    as [[]|e]; [|reflexivity]. cbn [bind].
  destruct (pystr_eqb (SHA256.hexdigest b) (SHA256.hexdigest bytes)).
  - cbn [print_lines].
    destruct (effect (print_line out match_line)) as [[]|e]; reflexivity.
  - cbn [print_lines].
    destruct (effect (print_line out mismatch_line)) as [[]|e];
      [|reflexivity]. cbn [bind].
    destruct (effect (print_line out (10%N :: _))) as [[]|e];
      [|reflexivity]. cbn [bind].
    destruct (effect (print_line out
                        (py "- our-app-compose-with-deployed-salt.json")))
      as [[]|e]; [|reflexivity]. cbn [bind].
    destruct (effect (print_line out (py "- " ++ p2))) as [[]|e]; reflexivity.
Qed.

(** With both files read, the salt formatted, the texts encodable, and the
    file and the lines written, a run returns the layout with the deployed
    salt, its digest and the digest of the deployed file, and their
    equality. *)
Lemma verify_deployed_hash_returns
    (it : interpreter) (fs : files) (dk : disk) (out : console)
    (p1 p2 : pystr) (doc salt : pyval) (salt_text : pystr)
    (bytes : pybytes) (text : pystr) :
  json_load fs p2 = Ok doc ->
  get_method doc (py "salt") = Ok salt ->
  format_value it salt = Ok salt_text ->
  read_bytes fs p2 = Ok bytes ->
  read_text fs p1 = Ok text ->
  encodable text = true ->
  encodable salt_text = true ->
  (forall t, write_text dk saved_name t = None) ->
  (forall line, print_line out line = None) ->
  let rendering :=
    manifest_layout (escape_body text)
      (escape_body get_default_pre_launch_script) salt_text in
  UTF8.encode rendering = Ok (encoded rendering) /\
  verify_deployed_hash it fs dk out p1 p2 =
  Ok (Verification rendering
        (SHA256.hexdigest (encoded rendering)) (SHA256.hexdigest bytes)
        (pystr_eqb (SHA256.hexdigest (encoded rendering))
           (SHA256.hexdigest bytes))).
Proof.
  intros Hdoc Hsalt Hfmt Hbytes Htext Het Hes Hw Hp rendering.
  split.
  - pose proof (encode_cases rendering) as H.
    assert (He : encodable rendering = true).
    { subst rendering. rewrite encodable_manifest_layout_eq.
      now rewrite encodable_default_script, encodable_escape_body_eq, Het, Hes. }
    rewrite He in H. destruct H as [b Hb]. now rewrite (encoded_ok _ Hb).
  - rewrite verify_deployed_hash_closed.
    rewrite Hdoc. cbn [bind]. rewrite Hsalt. cbn [bind].
    rewrite Hbytes. cbn [bind]. rewrite Hfmt. cbn [bind].
    rewrite (print_lines_ok _ _ Hp). cbn [bind].
    rewrite Htext. cbn [bind]. cbv zeta. fold rendering.
    rewrite Hw, Het, Hes. cbn [effect bind andb].
    now rewrite (print_lines_ok _ _ Hp).
Qed.

(** What every completed run satisfies: the manifest it rendered is the
    layout with the compose text, the default boot script and the deployed
    salt as text, it was saved, the two digests are those of the rendered
    manifest and of the deployed file, and the value returned is their
    equality as strings. *)
Lemma verify_deployed_hash_inv
    (it : interpreter) (fs : files) (dk : disk) (out : console)
    (p1 p2 : pystr) (v : verification) :
  verify_deployed_hash it fs dk out p1 p2 = Ok v ->
  exists doc salt salt_text text our_bytes deployed_bytes,
    json_load fs p2 = Ok doc /\
    get_method doc (py "salt") = Ok salt /\
    format_value it salt = Ok salt_text /\
    read_text fs p1 = Ok text /\
    our_formatted_json v
      = manifest_layout (escape_body text)
          (escape_body get_default_pre_launch_script) salt_text /\
    write_text dk saved_name (our_formatted_json v) = None /\
    UTF8.encode (our_formatted_json v) = Ok our_bytes /\
    our_hash v = SHA256.hexdigest our_bytes /\
    read_bytes fs p2 = Ok deployed_bytes /\
    deployed_hash v = SHA256.hexdigest deployed_bytes /\
    returned v = pystr_eqb (our_hash v) (deployed_hash v).
Proof.
  rewrite verify_deployed_hash_closed. intro E.
  destruct (json_load fs p2) as [doc|] eqn:Hdoc; [|discriminate].
  cbn [bind] in E.
  destruct (get_method doc (py "salt")) as [salt|] eqn:Hsalt; [|discriminate].
  cbn [bind] in E.
  destruct (read_bytes fs p2) as [bytes|] eqn:Hbytes; [|discriminate].
  cbn [bind] in E.
  destruct (format_value it salt) as [salt_text|] eqn:Hst; [|discriminate].
  cbn [bind] in E.
  destruct (print_lines out (report_lines _ _)); [|discriminate].
  cbn [bind] in E.
  destruct (read_text fs p1) as [text|] eqn:Htext; [|discriminate].
  cbn [bind] in E. cbv zeta in E.
  set (rendering := manifest_layout _ _ _) in *.
  destruct (write_text dk saved_name rendering) eqn:Hw; [discriminate|].
  cbn [effect bind] in E.
  destruct (encodable text && encodable salt_text) eqn:Henc; [|discriminate].
  destruct (print_lines out (verdict_lines _ _ _)); [|discriminate].
  cbn [bind] in E. apply Ok_inj in E. subst v.
  cbn [our_formatted_json our_hash deployed_hash returned].
  exists doc, salt, salt_text, text, (encoded rendering), bytes.
  repeat split; try reflexivity; try assumption.
  pose proof (encode_cases rendering) as H.
  assert (He : encodable rendering = true).
  { subst rendering. rewrite encodable_manifest_layout_eq.
    rewrite encodable_default_script, encodable_escape_body_eq.
    now rewrite andb_true_r. }
  rewrite He in H. destruct H as [b Hb]. now rewrite (encoded_ok _ Hb).
Qed.

(** C4: a run of the verifier that returns has rendered the layout with the
    local compose text and the deployed salt, and returns True exactly when
    the digest of that rendering and the digest of the deployed file are
    the same string, and False otherwise; the command exits with status 0
    in the first case and with status 1 in the second.  An exception ends
    the run before any verdict is returned, with status 1.  With both files
    readable, the salt formatted, the texts encodable, and the file and the
    lines written, the run does return. *)
Theorem verdict_is_digest_equality
    (it : interpreter) (fs : files) (dk : disk) (out : console)
    (p1 p2 : pystr) :
  match verify_deployed_hash it fs dk out p1 p2 with
  | Ok v =>
      (exists doc salt salt_text text our_bytes deployed_bytes,
          json_load fs p2 = Ok doc /\
          get_method doc (py "salt") = Ok salt /\
          format_value it salt = Ok salt_text /\
          read_text fs p1 = Ok text /\
          our_formatted_json v
            = manifest_layout (escape_body text)
                (escape_body get_default_pre_launch_script) salt_text /\
          write_text dk saved_name (our_formatted_json v) = None /\
          UTF8.encode (our_formatted_json v) = Ok our_bytes /\
          our_hash v = SHA256.hexdigest our_bytes /\
          read_bytes fs p2 = Ok deployed_bytes /\
          deployed_hash v = SHA256.hexdigest deployed_bytes) /\
      (returned v = true <-> our_hash v = deployed_hash v) /\
      (returned v = false <-> our_hash v <> deployed_hash v) /\
      (forall prog,
          exit_status (verify_main it fs dk out [prog; p1; p2])
          = if returned v then 0%N else 1%N)
  | Raise e =>
      forall prog,
        verify_main it fs dk out [prog; p1; p2] = Raise e /\
        exit_status (verify_main it fs dk out [prog; p1; p2]) = 1%N
  end /\
  (forall doc salt salt_text bytes text,
      json_load fs p2 = Ok doc ->
      get_method doc (py "salt") = Ok salt ->
      format_value it salt = Ok salt_text ->
      read_bytes fs p2 = Ok bytes ->
      read_text fs p1 = Ok text ->
      encodable text = true ->
      encodable salt_text = true ->
      (forall t, write_text dk saved_name t = None) ->
      (forall line, print_line out line = None) ->
      exists v,
        verify_deployed_hash it fs dk out p1 p2 = Ok v /\
        returned v
        = pystr_eqb
            (SHA256.hexdigest
               (encoded (manifest_layout (escape_body text)
                           (escape_body get_default_pre_launch_script)
                           salt_text)))
            (SHA256.hexdigest bytes)).
Proof.
  split.
  - destruct (verify_deployed_hash it fs dk out p1 p2) as [v|e] eqn:E.
    + destruct (verify_deployed_hash_inv _ _ _ _ _ _ E)
        as (doc & salt & st & text & ob & db & Hdoc & Hsalt & Hst & Htext
            & Hf & Hw & Hob & Hoh & Hdb & Hdh & Hret).
      assert (Hiff : returned v = true <-> our_hash v = deployed_hash v)
        by (rewrite Hret; apply pystr_eqb_eq).
      split; [exists doc, salt, st, text, ob, db; repeat split; assumption|].
      split; [exact Hiff|]. split.
      * destruct (returned v); split; intro H; try discriminate.
        -- exfalso. apply H. now apply Hiff.
        -- intro H'. apply Hiff in H'. discriminate.
        -- reflexivity.
      * intro prog. unfold verify_main. rewrite E. reflexivity.
    + intro prog. unfold verify_main. rewrite E. now split.
  - intros doc salt st bytes text Hdoc Hsalt Hst Hbytes Htext Het Hes Hw Hp.
    destruct (verify_deployed_hash_returns it fs dk out p1 p2
                Hdoc Hsalt Hst Hbytes Htext Het Hes Hw Hp) as [_ Hv].
    eexists. split; [exact Hv|]. reflexivity.
Qed.

Lemma sample_run_matches :
  exists v,
    verify_deployed_hash sample_interpreter sample_files sample_disk
      sample_console (py "docker-compose.yml") (py "app-compose.json") = Ok v /\
    returned v = true.
Proof. eexists. split; [vm_compute; reflexivity|reflexivity]. Qed.

Lemma verdict_is_digest_equality_witness :
  exists v,
    verify_deployed_hash sample_interpreter sample_files sample_disk
      sample_console (py "docker-compose.yml") (py "app-compose.json") = Ok v /\
    returned v = true /\
    exit_status (verify_main sample_interpreter sample_files sample_disk
                   sample_console
                   [py "verify-deployed-hash.py"; py "docker-compose.yml";
                    py "app-compose.json"]) = 0%N.
Proof.
  pose proof (@verdict_is_digest_equality sample_interpreter sample_files
                sample_disk sample_console (py "docker-compose.yml")
                (py "app-compose.json")) as [Hrun Hret].
  destruct (Hret (PDict sample_manifest_other_salt) (PStr sample_salt)
              sample_salt sample_deployed_bytes sample_compose
              eq_refl eq_refl eq_refl eq_refl eq_refl eq_refl eq_refl
              (fun _ => eq_refl) (fun _ => eq_refl))
    as [v [Hv _]].
  exists v. rewrite Hv in Hrun.
  destruct Hrun as (_ & Hiff & _ & Hexit).
  assert (Hr : returned v = true).
  { destruct sample_run_matches as (v' & Hv' & Hr').
    rewrite Hv in Hv'. apply Ok_inj in Hv'. now subst v'. }
  split; [exact Hv|]. split; [exact Hr|].
  rewrite (Hexit (py "verify-deployed-hash.py")), Hr. reflexivity.
Defined.

(** C3: the manifest the verifier renders, saves and hashes holds the salt
    of the deployed document at the salt position, not the default
    constant: it is the layout with the text of the deployed salt in it (a
    string as it is, None, True, False and an integer as Python writes
    them), and it is the layout with the default salt only when that text
    is the default salt.  Stated for a run whose files are read, whose salt
    and compose text can be encoded, and whose file and lines are
    written. *)
Theorem verifier_renders_deployed_salt
    (it : interpreter) (fs : files) (dk : disk) (out : console)
    (p1 p2 : pystr) (doc salt : pyval) (salt_text : pystr)
    (bytes : pybytes) (text : pystr) :
  json_load fs p2 = Ok doc ->
  get_method doc (py "salt") = Ok salt ->
  format_value it salt = Ok salt_text ->
  read_bytes fs p2 = Ok bytes ->
  read_text fs p1 = Ok text ->
  encodable text = true ->
  encodable salt_text = true ->
  (forall t, write_text dk saved_name t = None) ->
  (forall line, print_line out line = None) ->
  exists v our_bytes,
    verify_deployed_hash it fs dk out p1 p2 = Ok v /\
    our_formatted_json v
      = manifest_layout (escape_body text)
          (escape_body get_default_pre_launch_script) salt_text /\
    UTF8.encode (our_formatted_json v) = Ok our_bytes /\
    our_hash v = SHA256.hexdigest our_bytes /\
    (our_formatted_json v
       = manifest_layout (escape_body text)
           (escape_body get_default_pre_launch_script) default_salt
     <-> salt_text = default_salt) /\
    match salt with
    | PStr s => salt_text = s
    | PNone => salt_text = py "None"
    | PBool true => salt_text = py "True"
    | PBool false => salt_text = py "False"
    | PInt z => salt_text = int_text z /\ int_fits it z = true
    | _ => True
    end.
Proof.
  intros Hdoc Hsalt Hst Hbytes Htext Het Hes Hw Hp.
  destruct (verify_deployed_hash_returns it fs dk out p1 p2
              Hdoc Hsalt Hst Hbytes Htext Het Hes Hw Hp) as [Hb Hv].
  eexists. eexists. split; [exact Hv|].
  cbn [our_formatted_json our_hash].
  split; [reflexivity|]. split; [exact Hb|]. split; [reflexivity|].
  split.
  - split; [apply manifest_layout_salt_inj|now intros ->].
  - destruct salt as [|[]|z| | | | | |]; cbn [format_value] in Hst;
      try exact I; try (apply Ok_inj in Hst; now symmetry).
    rewrite int_repr_spec in Hst.
    destruct (int_fits it z); [|discriminate].
    apply Ok_inj in Hst. now split.
Qed.

Lemma verifier_renders_deployed_salt_witness :
  pystr_eqb sample_salt default_salt = false /\
  exists v our_bytes,
    verify_deployed_hash sample_interpreter sample_files sample_disk
      sample_console (py "docker-compose.yml") (py "app-compose.json") = Ok v /\
    our_formatted_json v
      = manifest_layout (escape_body sample_compose)
          (escape_body get_default_pre_launch_script) sample_salt /\
    UTF8.encode (our_formatted_json v) = Ok our_bytes /\
    our_hash v = SHA256.hexdigest our_bytes /\
    (our_formatted_json v
       = manifest_layout (escape_body sample_compose)
           (escape_body get_default_pre_launch_script) default_salt
     <-> sample_salt = default_salt).
Proof.
  split; [vm_compute; reflexivity|].
  destruct (@verifier_renders_deployed_salt sample_interpreter sample_files
              sample_disk sample_console
              (py "docker-compose.yml") (py "app-compose.json")
              (PDict sample_manifest_other_salt) (PStr sample_salt)
              sample_salt sample_deployed_bytes sample_compose
              eq_refl eq_refl eq_refl eq_refl eq_refl eq_refl eq_refl
              (fun _ => eq_refl) (fun _ => eq_refl))
    as (v & b & Hv & Hf & Hb & Hh & Hd & _).
  exists v, b. split; [exact Hv|]. split; [exact Hf|]. split; [exact Hb|].
  split; [exact Hh|exact Hd].
Defined.

(** C10: when the deployed document is a mapping without a salt key, the
    salt read is None, the rendered manifest holds the four characters None
    between the quotes of the salt field, and the run ends in the
    comparison of the two digests: it raises nothing when both files are
    read, the compose text can be encoded, and the file and the lines are
    written. *)
Theorem verifier_without_salt_key
    (it : interpreter) (fs : files) (dk : disk) (out : console)
    (p1 p2 : pystr) (doc : pydict) (bytes : pybytes) (text : pystr) :
  json_load fs p2 = Ok (PDict doc) ->
  dict_lookup doc (KStr (py "salt")) = None ->
  read_bytes fs p2 = Ok bytes ->
  read_text fs p1 = Ok text ->
  encodable text = true ->
  (forall t, write_text dk saved_name t = None) ->
  (forall line, print_line out line = None) ->
  get_method (PDict doc) (py "salt") = Ok PNone /\
  format_value it PNone = Ok (py "None") /\
  exists v our_bytes,
    verify_deployed_hash it fs dk out p1 p2 = Ok v /\
    our_formatted_json v
      = manifest_layout (escape_body text)
          (escape_body get_default_pre_launch_script) (py "None") /\
    UTF8.encode (our_formatted_json v) = Ok our_bytes /\
    our_hash v = SHA256.hexdigest our_bytes /\
    deployed_hash v = SHA256.hexdigest bytes /\
    returned v = pystr_eqb (our_hash v) (deployed_hash v).
Proof.
  intros Hdoc Hsalt Hbytes Htext Het Hw Hp.
  assert (Hget : get_method (PDict doc) (py "salt") = Ok PNone)
    by (unfold get_method; now rewrite Hsalt).
  split; [exact Hget|]. split; [reflexivity|].
  destruct (@verify_deployed_hash_returns it fs dk out p1 p2 (PDict doc) PNone
              (py "None") bytes text Hdoc Hget eq_refl Hbytes Htext Het
              eq_refl Hw Hp) as [Hb Hv].
  eexists. eexists. split; [exact Hv|].
  cbn [our_formatted_json our_hash deployed_hash returned].
  repeat split; try reflexivity. exact Hb.
Qed.

Lemma verifier_without_salt_key_witness :
  exists v,
    verify_deployed_hash sample_interpreter sample_files_no_salt sample_disk
      sample_console (py "docker-compose.yml") (py "app-compose.json") = Ok v /\
    our_formatted_json v
      = manifest_layout (escape_body sample_compose)
          (escape_body get_default_pre_launch_script) (py "None") /\
    returned v = pystr_eqb (our_hash v) (deployed_hash v).
Proof.
  destruct (@verifier_without_salt_key sample_interpreter sample_files_no_salt
              sample_disk sample_console (py "docker-compose.yml")
              (py "app-compose.json") [] (py "{}") sample_compose
              eq_refl eq_refl eq_refl eq_refl eq_refl
              (fun _ => eq_refl) (fun _ => eq_refl))
    as (_ & _ & v & b & Hv & Hf & _ & _ & _ & Hr).
  exists v. split; [exact Hv|]. split; [exact Hf|exact Hr].
Defined.

(** X6: two compose files with different texts, verified against the same
    deployed file, give different rendered manifests: the text that is
    hashed determines the compose text. *)
Theorem verifier_rendering_separates_compose_texts
    (it : interpreter) (fs : files) (dk : disk) (out : console)
    (p1 p1' p2 : pystr) (text text' : pystr) (v v' : verification) :
  read_text fs p1 = Ok text ->
  read_text fs p1' = Ok text' ->
  pystr_eqb text text' = false ->
  verify_deployed_hash it fs dk out p1 p2 = Ok v ->
  verify_deployed_hash it fs dk out p1' p2 = Ok v' ->
  pystr_eqb (our_formatted_json v) (our_formatted_json v') = false.
Proof.
  intros Ht Ht' Hne Hv Hv'.
  destruct (verify_deployed_hash_inv _ _ _ _ _ _ Hv)
    as (doc & salt & st & t & _ & _ & Hdoc & Hsalt & Hst & Htext & Hf & _).
  destruct (verify_deployed_hash_inv _ _ _ _ _ _ Hv')
    as (doc' & salt' & st' & t' & _ & _ & Hdoc' & Hsalt' & Hst' & Htext' & Hf'
        & _).
  rewrite Ht in Htext. rewrite Ht' in Htext'.
  apply Ok_inj in Htext, Htext'. subst t t'.
  rewrite Hdoc in Hdoc'. apply Ok_inj in Hdoc'. subst doc'.
  rewrite Hsalt in Hsalt'. apply Ok_inj in Hsalt'. subst salt'.
  rewrite Hst in Hst'. apply Ok_inj in Hst'. subst st'.
  rewrite Hf, Hf'.
  destruct (pystr_eqb (manifest_layout _ _ _) _) eqn:E; [|reflexivity].
  apply pystr_eqb_eq in E. unfold manifest_layout in E.
  apply app_inv_head in E.
  set (rest := verify_middle ++ _) in E.
  apply app_inv_tail in E. apply escape_body_injective in E.
  subst. now rewrite pystr_eqb_refl in Hne.
Qed.

Lemma sample_runs_by_path :
  exists v v',
    verify_deployed_hash sample_interpreter sample_files_by_path sample_disk
      sample_console (py "services: {}") (py "app-compose.json") = Ok v /\
    verify_deployed_hash sample_interpreter sample_files_by_path sample_disk
      sample_console (py "services: { }") (py "app-compose.json") = Ok v' /\
    returned v = true /\ returned v' = false.
Proof.
  eexists. eexists.
  split; [vm_compute; reflexivity|]. split; [vm_compute; reflexivity|].
  split; reflexivity.
Qed.

Lemma verifier_rendering_separates_compose_texts_witness :
  exists v v',
    verify_deployed_hash sample_interpreter sample_files_by_path sample_disk
      sample_console (py "services: {}") (py "app-compose.json") = Ok v /\
    verify_deployed_hash sample_interpreter sample_files_by_path sample_disk
      sample_console (py "services: { }") (py "app-compose.json") = Ok v' /\
    returned v = true /\ returned v' = false /\
    pystr_eqb (our_formatted_json v) (our_formatted_json v') = false.
Proof.
  destruct sample_runs_by_path as (v & v' & Hv & Hv' & Hr & Hr').
  exists v, v'. repeat (split; [assumption|]).
  apply (@verifier_rendering_separates_compose_texts sample_interpreter
           sample_files_by_path sample_disk sample_console
           (py "services: {}") (py "services: { }") (py "app-compose.json")
           (py "services: {}") (py "services: { }") v v'
           eq_refl eq_refl eq_refl Hv Hv').
Defined.




(** X14: the verdict needs the console.  When the digests are equal but
    the line of the verdict cannot be printed (the encoding of the console
    has no form for the mark that opens it), the run raises the exception
    of the print instead of returning True, and the command exits with
    status 1, as it does for a mismatch. *)
Theorem verdict_line_must_be_printed
    (it : interpreter) (fs : files) (dk : disk) (out : console)
    (p1 p2 : pystr) (doc salt : pyval) (salt_text : pystr)
    (bytes : pybytes) (text : pystr) (e : pyexc) :
  json_load fs p2 = Ok doc ->
  get_method doc (py "salt") = Ok salt ->
  format_value it salt = Ok salt_text ->
  read_bytes fs p2 = Ok bytes ->
  read_text fs p1 = Ok text ->
  encodable text = true ->
  encodable salt_text = true ->
  (forall t, write_text dk saved_name t = None) ->
  SHA256.hexdigest
    (encoded (manifest_layout (escape_body text)
                (escape_body get_default_pre_launch_script) salt_text))
  = SHA256.hexdigest bytes ->
  print_lines out (report_lines salt_text (SHA256.hexdigest bytes)) = Ok tt ->
  print_line out (py "Our hash (with deployed salt): " ++ SHA256.hexdigest bytes)
  = None ->
  print_line out match_line = Some e ->
  verify_deployed_hash it fs dk out p1 p2 = Raise e /\
  forall prog,
    exit_status (verify_main it fs dk out [prog; p1; p2]) = 1%N.
Proof.
  intros Hdoc Hsalt Hst Hbytes Htext Het Hes Hw Heq Hp1 Hp2 Hp3.
  assert (Hrun : verify_deployed_hash it fs dk out p1 p2 = Raise e).
  { rewrite verify_deployed_hash_closed.
    rewrite Hdoc. cbn [bind]. rewrite Hsalt. cbn [bind].
    rewrite Hbytes. cbn [bind]. rewrite Hst. cbn [bind].
    rewrite Hp1. cbn [bind]. rewrite Htext. cbn [bind]. cbv zeta.
    rewrite Hw, Het, Hes. cbn [effect bind andb].
    rewrite Heq. unfold verdict_lines. rewrite pystr_eqb_refl.
    cbn [print_lines]. rewrite Hp2, Hp3. reflexivity. }
  split; [exact Hrun|].
  intro prog. unfold verify_main. rewrite Hrun. reflexivity.
Qed.

Lemma sample_digests_match :
  SHA256.hexdigest
    (encoded (manifest_layout (escape_body sample_compose)
                (escape_body get_default_pre_launch_script) sample_salt))
  = SHA256.hexdigest sample_deployed_bytes.
Proof. unfold sample_deployed_bytes, sample_deployed_text. reflexivity. Qed.

Lemma verdict_line_must_be_printed_witness :
  verify_deployed_hash sample_interpreter sample_files sample_disk
    ascii_console (py "docker-compose.yml") (py "app-compose.json")
  = Raise UnicodeEncodeError /\
  exit_status (verify_main sample_interpreter sample_files sample_disk
                 ascii_console
                 [py "verify-deployed-hash.py"; py "docker-compose.yml";
                  py "app-compose.json"]) = 1%N.
Proof.
  assert (Hp1 : print_lines ascii_console
                  (report_lines sample_salt
                     (SHA256.hexdigest sample_deployed_bytes)) = Ok tt)
    by (vm_compute; reflexivity).
  assert (Hp2 : print_line ascii_console
                  (py "Our hash (with deployed salt): "
                     ++ SHA256.hexdigest sample_deployed_bytes) = None)
    by (vm_compute; reflexivity).
  destruct (@verdict_line_must_be_printed sample_interpreter sample_files
              sample_disk ascii_console (py "docker-compose.yml")
              (py "app-compose.json") (PDict sample_manifest_other_salt)
              (PStr sample_salt) sample_salt sample_deployed_bytes
              sample_compose UnicodeEncodeError
              eq_refl eq_refl eq_refl eq_refl eq_refl eq_refl eq_refl
              (fun _ => eq_refl) sample_digests_match Hp1 Hp2 eq_refl)
    as [Hrun Hexit].
  split; [exact Hrun|apply Hexit].
Defined.


(** * The generator's command line *)

(** The manifest the generator builds is written by the canonical
    serializer in the order of the template: its keys are already sorted.
    It holds a list in a mapping, so the serializer needs two levels of
    nesting. *)
Lemma canonical_generated_manifest
    (it : interpreter) (text : pystr) :
  to_deterministic_json it (app_compose_of text)
  = if Nat.leb 2 (recursion_depth it) && Nat.leb 2 (encoder_depth it)
    then Ok (compact_layout (escape_body text)
               (escape_body get_default_pre_launch_script) default_salt)
    else Raise RecursionError.
Proof.
  assert (Hs : sortable (app_compose_of text) = true) by reflexivity.
  destruct (recursion_depth it) as [|[|r]] eqn:Hr;
    try (unfold to_deterministic_json;
         rewrite Hr, (sort_object_sortable _ _ Hs); reflexivity).
  assert (Hw : within_depth (recursion_depth it) (app_compose_of text) = true)
    by (rewrite Hr; reflexivity).
  rewrite (to_deterministic_json_eq _ _ Hs Hw).
  unfold app_compose_of, compact_layout.
  generalize get_default_pre_launch_script. intro p.
  destruct (encoder_depth it) as [|[|e]]; try reflexivity.
  cbn -[int_repr]. rewrite int_repr_small by (vm_compute; reflexivity).
  cbn. unfold encode_basestring. f_equal.
  cbn. rewrite <- ?app_assoc. cbn. rewrite <- ?app_assoc. cbn.
  reflexivity.
Qed.

Lemma generated_manifest_rendering
    (it : interpreter) (text : pystr) :
  to_dstack_format_json it (app_compose_of text)
  = Ok (manifest_layout
          (replace (escape_body text) PRE_LAUNCH_SCRIPT
             (escape_body get_default_pre_launch_script))
          (escape_body get_default_pre_launch_script) default_salt).
Proof. now apply to_dstack_format_json_strings. Qed.

Lemma generated_manifest_hash
    (it : interpreter) (text : pystr) :
  get_compose_hash it (app_compose_of text) =
  if encodable text
  then Ok (SHA256.hexdigest
             (encoded (manifest_layout
                         (replace (escape_body text) PRE_LAUNCH_SCRIPT
                            (escape_body get_default_pre_launch_script))
                         (escape_body get_default_pre_launch_script)
                         default_salt)))
  else Raise UnicodeEncodeError.
Proof.
  unfold app_compose_of.
  match goal with
  | |- get_compose_hash _ (PDict ?d) = _ =>
      rewrite (@get_compose_hash_strings it d text
                 get_default_pre_launch_script eq_refl eq_refl)
  end.
  assert (H : encodable get_default_pre_launch_script = true)
    by (vm_compute; reflexivity).
  now rewrite H, andb_true_r.
Qed.

(** A run of the generator in closed form. *)
Lemma main_closed (it : interpreter) (fs : files) (dk : disk)
    (argv : list pystr) :
  main it fs dk argv =
  if negb (path_exists dk (input_path argv)) then Run [] (Exited 1)
  else
    match read_text fs (input_path argv) with
    | Raise e => Run [] (Uncaught e)
    | Ok text =>
        let generated :=
          manifest_layout
            (replace (escape_body text) PRE_LAUNCH_SCRIPT
               (escape_body get_default_pre_launch_script))
            (escape_body get_default_pre_launch_script) default_salt in
        let deterministic :=
          compact_layout (escape_body text)
            (escape_body get_default_pre_launch_script) default_salt in
        let compose_hash := SHA256.hexdigest (encoded generated) in
        match write_text dk (py "app-compose-generated.json") generated with
        | Some e => Run [] (Uncaught e)
        | None =>
            let w1 := [(py "app-compose-generated.json", generated)] in
            if Nat.leb 2 (recursion_depth it) && Nat.leb 2 (encoder_depth it)
            then
              match write_text dk (py "app-compose-deterministic.json")
                      deterministic with
              | Some e => Run w1 (Uncaught e)
              | None =>
                  let w2 :=
                    w1 ++ [(py "app-compose-deterministic.json", deterministic)] in
                  if encodable text then
                    match write_text dk (py "compose-hash.txt") compose_hash with
                    | Some e => Run w2 (Uncaught e)
                    | None =>
                        Run (w2 ++ [(py "compose-hash.txt", compose_hash)])
                            (Returned compose_hash)
                    end
                  else Run w2 (Uncaught UnicodeEncodeError)
              end
            else Run w1 (Uncaught RecursionError)
        end
    end.
Proof.
  unfold main, main_script. fold (input_path argv).
  destruct (path_exists dk (input_path argv)); [|reflexivity].
  cbn [negb]. unfold docker_compose_to_app_compose.
  destruct (read_text fs (input_path argv)) as [text|e]; [|reflexivity].
  cbn [bind]. unfold script_bind at 1. cbn [lift].
  unfold script_bind at 1. rewrite generated_manifest_rendering. cbn [lift].
  unfold script_bind at 1. unfold write_file at 1.
  destruct (write_text dk (py "app-compose-generated.json") _);
    [reflexivity|].
  unfold script_bind at 1. rewrite canonical_generated_manifest.
  destruct (Nat.leb 2 (recursion_depth it) && Nat.leb 2 (encoder_depth it));
    [|reflexivity].
  cbn [lift].
  unfold script_bind at 1. unfold write_file at 1.
  destruct (write_text dk (py "app-compose-deterministic.json") _);
    [reflexivity|].
  unfold script_bind at 1. rewrite generated_manifest_hash.
  destruct (encodable text); [|reflexivity]. cbn [lift].
  unfold script_bind at 1. unfold write_file at 1.
  destruct (write_text dk (py "compose-hash.txt") _); reflexivity.
Qed.




Lemma Run_inj (w w' : list (pystr * pystr)) (e e' : ending) :
  Run w e = Run w' e' -> w = w' /\ e = e'.
Proof. intro H. now injection H. Qed.

Lemma Returned_inj (h h' : pystr) : Returned h = Returned h' -> h = h'.
Proof. intro H. now injection H. Qed.

(** X10: generate, then verify.  When the generator has returned for a
    compose text that does not hold the word PRE_LAUNCH_SCRIPT, and the
    deployed file holds the bytes of the text it wrote to
    app-compose-generated.json and parses to a mapping with the default
    salt, the verifier run on the same compose file, when it can save its
    rendering and print its lines, returns True, with the digest the
    generator returned, and the command exits with status 0. *)
Theorem generate_then_verify
    (it : interpreter) (fs : files) (dk : disk) (out : console)
    (argv : list pystr) (p2 : pystr)
    (w : list (pystr * pystr)) (h text generated : pystr) (doc : pydict) :
  main it fs dk argv = Run w (Returned h) ->
  read_text fs (input_path argv) = Ok text ->
  contains PRE_LAUNCH_SCRIPT text = false ->
  In (py "app-compose-generated.json", generated) w ->
  read_bytes fs p2 = Ok (encoded generated) ->
  json_load fs p2 = Ok (PDict doc) ->
  dict_lookup doc (KStr (py "salt")) = Some (PStr default_salt) ->
  (forall t, write_text dk saved_name t = None) ->
  (forall line, print_line out line = None) ->
  exists v,
    verify_deployed_hash it fs dk out (input_path argv) p2 = Ok v /\
    returned v = true /\ our_hash v = h /\ our_formatted_json v = generated /\
    forall prog,
      exit_status (verify_main it fs dk out [prog; input_path argv; p2]) = 0%N.
Proof.
  intros Hmain Hread Hno Hin Hbytes Hdoc Hsalt Hw Hp.
  rewrite main_closed, Hread in Hmain.
  destruct (path_exists dk (input_path argv)); cbn [negb] in Hmain;
    [|discriminate].
  cbv zeta in Hmain.
  rewrite (@replace_absent PRE_LAUNCH_SCRIPT
             (escape_body get_default_pre_launch_script) (escape_body text))
    in Hmain
    by (try discriminate; now rewrite contains_placeholder_escaped).
  set (rendering := manifest_layout (escape_body text)
                      (escape_body get_default_pre_launch_script)
                      default_salt) in *.
  destruct (write_text dk (py "app-compose-generated.json") rendering);
    [discriminate|].
  destruct (Nat.leb 2 (recursion_depth it) && Nat.leb 2 (encoder_depth it));
    [|discriminate].
  destruct (write_text dk (py "app-compose-deterministic.json") _);
    [discriminate|].
  destruct (encodable text) eqn:Henc; [|discriminate].
  destruct (write_text dk (py "compose-hash.txt") _); [discriminate|].
  apply Run_inj in Hmain as [Hwr Hh]. apply Returned_inj in Hh. subst w h.
  assert (Hg : generated = rendering).
  { destruct Hin as [E|[E|[E|[]]]].
    - apply (f_equal snd) in E. cbn [snd] in E. now symmetry.
    - apply (f_equal fst) in E. cbn [fst] in E. vm_compute in E. discriminate E.
    - apply (f_equal fst) in E. cbn [fst] in E. vm_compute in E. discriminate E. }
  subst generated.
  assert (Hget : get_method (PDict doc) (py "salt") = Ok (PStr default_salt))
    by (unfold get_method; now rewrite Hsalt).
  destruct (@verify_deployed_hash_returns it fs dk out (input_path argv) p2
              (PDict doc) (PStr default_salt) default_salt (encoded rendering)
              text Hdoc Hget eq_refl Hbytes Hread Henc eq_refl Hw Hp)
    as [_ Hv].
  fold rendering in Hv. rewrite pystr_eqb_refl in Hv.
  eexists. split; [exact Hv|]. cbn [returned our_hash our_formatted_json].
  repeat split. intro prog. unfold verify_main. now rewrite Hv.
Qed.

Lemma sample_generation :
  main sample_interpreter sample_files_generated sample_disk
    [py "get-compose-hash.py"]
  = Run [ (py "app-compose-generated.json", sample_generated_text);
          (py "app-compose-deterministic.json",
           compact_layout (escape_body sample_compose)
             (escape_body get_default_pre_launch_script) default_salt);
          (py "compose-hash.txt",
           SHA256.hexdigest (encoded sample_generated_text)) ]
        (Returned (SHA256.hexdigest (encoded sample_generated_text))).
Proof. vm_compute. reflexivity. Qed.

Lemma generate_then_verify_witness :
  exists v,
    verify_deployed_hash sample_interpreter sample_files_generated sample_disk
      sample_console (py "docker-compose.yml")
      (py "app-compose-generated.json") = Ok v /\
    returned v = true /\
    our_hash v = SHA256.hexdigest (encoded sample_generated_text) /\
    exit_status (verify_main sample_interpreter sample_files_generated
                   sample_disk sample_console
                   [py "verify-deployed-hash.py"; py "docker-compose.yml";
                    py "app-compose-generated.json"]) = 0%N.
Proof.
  assert (Hno : contains PRE_LAUNCH_SCRIPT sample_compose = false)
    by (vm_compute; reflexivity).
  assert (Hsalt : dict_lookup sample_manifest (KStr (py "salt"))
                  = Some (PStr default_salt)) by (vm_compute; reflexivity).
  destruct (@generate_then_verify sample_interpreter sample_files_generated
              sample_disk sample_console [py "get-compose-hash.py"]
              (py "app-compose-generated.json") _ _ sample_compose
              sample_generated_text sample_manifest
              sample_generation eq_refl Hno (or_introl eq_refl)
              eq_refl eq_refl Hsalt (fun _ => eq_refl) (fun _ => eq_refl))
    as (v & Hv & Hr & Hh & _ & Hexit).
  exists v. split; [exact Hv|]. split; [exact Hr|]. split; [exact Hh|].
  apply Hexit.
Defined.

(** * The canonical value *)

Lemma ForallOrdPairs_perm (A : Type) (R : A -> A -> Prop) (l l2 : list A) :
  (forall a b, R a b -> R b a) ->
  Permutation l l2 -> ForallOrdPairs R l -> ForallOrdPairs R l2.
Proof.
  intro Hsym.
  induction 1 as [|x l l2 HP IH|x y l|l l2 l3 _ IH1 _ IH2]; intro H.
  - exact H.
  - inversion H; subst. constructor; [|now apply IH].
    eapply Permutation_Forall; eassumption.
  - inversion H as [|? ? Hy Hr]; subst. inversion Hr as [|? ? Hx Hl]; subst.
    inversion Hy as [|? ? Hyx Hyl]; subst.
    constructor; [constructor; [now apply Hsym|assumption]|].
    now constructor.
  - auto.
Qed.


Lemma keys_distinct_pairs (ks : list pykey) :
  keys_distinct ks = true
  <-> ForallOrdPairs (fun a b => key_eqb a b = false) ks.
Proof.
  induction ks as [|k ks IH]; cbn [keys_distinct].
  - split; [constructor|reflexivity].
  - rewrite andb_true_iff, negb_true_iff, IH. split.
    + intros [H1 H2]. constructor; [|exact H2].
      apply Forall_forall. intros x Hx.
      destruct (key_eqb k x) eqn:E; [|reflexivity].
      rewrite <- H1. symmetry. apply existsb_exists. now exists x.
    + intro H. inversion H as [|? ? Hk Hr]; subst. split; [|assumption].
      rewrite Forall_forall in Hk.
      destruct (existsb (key_eqb k) ks) eqn:E; [|reflexivity].
      apply existsb_exists in E as (x & Hx & Hkx).
      now rewrite (Hk x Hx) in Hkx.
Qed.


Lemma keys_distinct_perm (ks ks2 : list pykey) :
  Permutation ks ks2 -> keys_distinct ks = keys_distinct ks2.
Proof.
  intro HP. apply eq_true_iff_eq. rewrite !keys_distinct_pairs.
  split; apply ForallOrdPairs_perm;
    try (intros a b; now rewrite key_eqb_sym);
    [exact HP|now symmetry].
Qed.

Lemma sort_items_keys_perm (d : pydict) :
  Permutation (map fst (sort_items d)) (map fst d).
Proof. apply Permutation_map, sort_items_perm. Qed.


Lemma sorted_value_well_formed (v : pyval) :
  well_formed v = true -> well_formed (sorted_value v) = true.
Proof.
  induction v as [| | | | |l IH|l IH|d IH|] using pyval_nested_ind;
    try (intro H; exact H).
  - cbn [sorted_value well_formed]. rewrite !forallb_forall.
    rewrite Forall_forall in IH. intros H x Hx.
    apply in_map_iff in Hx as (y & <- & Hy). auto.
  - intro H. pose proof (well_formed_dict _ H) as Hv.
    cbn [well_formed] in H. apply andb_true_iff in H as [Hk _].
    change (sorted_value (PDict d))
      with (PDict (sort_items (on_values sorted_value d))).
    cbn [well_formed]. apply andb_true_iff. split.
    + now rewrite (keys_distinct_perm (sort_items_keys_perm _)), on_values_keys.
    + rewrite (forallb_perm _ (sort_items_perm _)). apply forallb_forall.
      intros x Hx. unfold on_values in Hx.
      apply in_map_iff in Hx as (kv & <- & Hkv). cbn [snd].
      rewrite Forall_forall in IH. auto.
Qed.





(** * Sorting keeps the items *)

Lemma key_eqb_common (a b k : pykey) :
  key_eqb a k = true -> key_eqb b k = true -> key_eqb a b = true.
Proof.
  destruct a as [s|z|e| |s], b as [t|w|f| |t], k as [u|x|g| |u];
    cbn [key_eqb key_int]; try discriminate; try reflexivity;
    try (intros H1 H2; apply pystr_eqb_eq in H1, H2; subst;
         apply pystr_eqb_refl);
    intros H1 H2; apply Z.eqb_eq in H1, H2; apply Z.eqb_eq; congruence.
Qed.

Lemma dict_lookup_perm (d d2 : pydict) (k : pykey) :
  Permutation d d2 -> keys_distinct (map fst d) = true ->
  dict_lookup d k = dict_lookup d2 k.
Proof.
  induction 1 as [|[x vx] l l2 HP IH|[x vx] [y vy] l|l l2 l3 HP1 IH1 HP2 IH2];
    intro Hd.
  - reflexivity.
  - cbn [dict_lookup]. cbn [map fst keys_distinct] in Hd.
    apply andb_true_iff in Hd as [_ Hd]. now rewrite IH.
  - cbn [dict_lookup]. cbn [map fst keys_distinct existsb] in Hd.
    apply andb_true_iff in Hd as [Hyx _].
    apply negb_true_iff, orb_false_iff in Hyx as [Hyx _].
    destruct (key_eqb y k) eqn:Ey, (key_eqb x k) eqn:Ex; try reflexivity.
    now rewrite (@key_eqb_common y x k Ey Ex) in Hyx.
  - rewrite IH1 by assumption. apply IH2.
    rewrite <- (keys_distinct_perm (Permutation_map fst HP1)). exact Hd.
Qed.

Lemma dict_lookup_on_values (h : pyval -> pyval) (d : pydict) (k : pykey) :
  dict_lookup (on_values h d) k = option_map h (dict_lookup d k).
Proof.
  induction d as [|[x v] d IH]; [reflexivity|].
  cbn [on_values map fst snd dict_lookup].
  destruct (key_eqb x k); [reflexivity|exact IH].
Qed.

Lemma dict_lookup_in (d : pydict) (k : pykey) (v : pyval) :
  dict_lookup d k = Some v -> exists k', In (k', v) d.
Proof.
  induction d as [|[x w] d IH]; [discriminate|]. cbn [dict_lookup].
  destruct (key_eqb x k).
  - intro H. injection H as ->. exists x. now left.
  - intro H. destruct (IH H) as [k' Hk']. exists k'. now right.
Qed.

(** X12: sorting a mapping keeps its items: the result is a mapping with
    the same keys, and looking a key up in it gives the sorted form of the
    value the key had, as [sort_object] returns it one level down (and
    nothing for a key that was absent). *)
Theorem sort_object_keeps_items (depth : nat) (d : pydict) (r : pyval) :
  well_formed (PDict d) = true ->
  sort_object depth (PDict d) = Ok r ->
  exists d',
    r = PDict d' /\
    Permutation (map fst d') (map fst d) /\
    forall k,
      match dict_lookup d k with
      | Some v =>
          exists rv,
            sort_object (Nat.pred depth) v = Ok rv /\
            sort_object depth v = Ok rv /\
            dict_lookup d' k = Some rv
      | None => dict_lookup d' k = None
      end.
Proof.
  intros Hw Hs. apply sort_object_value in Hs as (-> & Hv & Hd).
  exists (sort_items (on_values sorted_value d)).
  split; [reflexivity|]. split.
  - rewrite sort_items_keys_perm, on_values_keys. reflexivity.
  - intro k.
    assert (Hk : keys_distinct (map fst (on_values sorted_value d)) = true).
    { rewrite on_values_keys. cbn [well_formed] in Hw.
      now apply andb_true_iff in Hw. }
    rewrite <- (dict_lookup_perm k (Permutation_sym (sort_items_perm _)) Hk).
    rewrite dict_lookup_on_values.
    destruct (dict_lookup d k) as [v|] eqn:E; [|reflexivity].
    exists (sorted_value v).
    cbn [sortable within_depth] in Hv, Hd.
    apply andb_true_iff in Hv as [_ Hv].
    rewrite forallb_forall in Hv, Hd.
    destruct (dict_lookup_in _ _ E) as [k' Hin].
    pose proof (Hv _ Hin) as Hsv. pose proof (Hd _ Hin) as Hdv.
    cbn [snd] in Hsv, Hdv.
    destruct depth as [|n]; [discriminate|]. cbn [Nat.pred].
    split; [now apply sort_object_fits|].
    split; [|reflexivity].
    apply sort_object_fits; [exact Hsv|now apply within_depth_S].
Qed.

Lemma sort_object_keeps_items_witness :
  exists d',
    sort_object 2 (PDict sample_int_items) = Ok (PDict d') /\
    map fst d' = [KInt (-2); KBool true; KInt 7] /\
    dict_lookup d' (KInt 1)
      = Some (PDict [(KStr (py "a"), PInt 0); (KStr (py "b"), PNone)]).
Proof.
  destruct (@sort_object_keeps_items 2 sample_int_items _ eq_refl eq_refl)
    as (d' & Hr & _ & _).
  exists d'. rewrite <- Hr. repeat split.
  - apply (f_equal (fun v => match v with PDict x => map fst x | _ => [] end))
      in Hr. symmetry. exact Hr.
  - apply (f_equal (fun v => match v with
                             | PDict x => dict_lookup x (KInt 1)
                             | _ => None
                             end)) in Hr. symmetry. exact Hr.
Defined.

(** * What the verifier reads of the deployed document *)

(** X7: of the parsed deployed document the verifier uses the salt and
    nothing else: two deployed documents with the same salt (or both
    without one), beside the same deployed bytes and the same compose text,
    give the same run. *)
Theorem verifier_reads_only_salt
    (it : interpreter) (dk : disk) (out : console)
    (fs fs' : files) (p1 p2 : pystr) (doc doc' : pyval) :
  read_text fs p1 = read_text fs' p1 ->
  read_bytes fs p2 = read_bytes fs' p2 ->
  json_load fs p2 = Ok doc ->
  json_load fs' p2 = Ok doc' ->
  get_method doc (py "salt") = get_method doc' (py "salt") ->
  verify_deployed_hash it fs dk out p1 p2
    = verify_deployed_hash it fs' dk out p1 p2.
Proof.
  intros Ht Hb Hd Hd' Hs. rewrite !verify_deployed_hash_closed.
  rewrite Hd, Hd'. cbn [bind]. now rewrite Hs, Hb, Ht.
Qed.

Lemma verifier_reads_only_salt_witness :
  verify_deployed_hash sample_interpreter sample_files sample_disk
    sample_console (py "docker-compose.yml") (py "app-compose.json")
  = verify_deployed_hash sample_interpreter sample_files_salt_only sample_disk
      sample_console (py "docker-compose.yml") (py "app-compose.json").
Proof.
  assert (Hs : get_method (PDict sample_manifest_other_salt) (py "salt")
               = get_method (PDict [(KStr (py "salt"), PStr sample_salt)])
                   (py "salt")) by (vm_compute; reflexivity).
  exact (@verifier_reads_only_salt sample_interpreter sample_disk
           sample_console sample_files sample_files_salt_only
           (py "docker-compose.yml") (py "app-compose.json") _ _
           eq_refl eq_refl eq_refl eq_refl Hs).
Defined.

(** * The placeholder in the compose text *)

(** Replacing by a longer text never shortens, and lengthens a text that
    holds an occurrence. *)
Lemma replace_length (old new : pystr) :
  old <> [] -> (List.length old < List.length new)%nat ->
  forall s,
    (List.length s <= List.length (replace s old new))%nat /\
    (contains old s = true ->
     (List.length s < List.length (replace s old new))%nat).
Proof.
  intros Hne Hlen s.
  assert (H : forall n s, (List.length s <= n)%nat ->
            (List.length s <= List.length (replace s old new))%nat /\
            (contains old s = true ->
             (List.length s < List.length (replace s old new))%nat)).
  { clear s. induction n as [|n IH]; intros [|c s] Hs.
    - destruct old; [congruence|]. split; [cbn; lia|discriminate].
    - simpl in Hs. lia.
    - destruct old; [congruence|]. split; [cbn; lia|discriminate].
    - unfold replace. cbn [replace_from contains].
      destruct (startswith old (c :: s)) eqn:E.
      + destruct old as [|o old']; [congruence|].
        rewrite replace_from_skip.
        replace (List.length (o :: old') - 1)%nat with (List.length old')
          by (cbn; lia).
        fold (replace (skipn (List.length old') s) (o :: old') new).
        apply startswith_split in E. cbn [List.length skipn app] in E.
        injection E as _ E.
        destruct (IH (skipn (List.length old') s)) as [Hle _].
        { rewrite length_skipn. simpl in Hs. lia. }
        assert (Hs' : List.length s
                      = (List.length old'
                         + List.length (skipn (List.length old') s))%nat)
          by (rewrite E at 1; now rewrite length_app).
        rewrite length_app. cbn [List.length] in *. split; intros; lia.
      + cbn [orb List.length].
        fold (replace s old new).
        destruct (IH s) as [Hle Hlt]; [simpl in Hs; lia|].
        split; [lia|]. intro Hc. specialize (Hlt Hc). lia. }
  apply (H (List.length s)). lia.
Qed.

Lemma manifest_layout_length (c p salt : pystr) :
  List.length (manifest_layout c p salt)
  = (List.length verify_head + List.length c + List.length verify_middle
     + List.length p + List.length verify_before_salt + List.length salt
     + List.length verify_tail)%nat.
Proof. unfold manifest_layout. rewrite !length_app. lia. Qed.

(** X13: for the manifest the generator builds, the literal rendering
    always returns; it is the layout with the escaped compose text in it,
    which is what the verifier renders for the same text and the default
    salt, exactly when the compose text does not hold the word
    PRE_LAUNCH_SCRIPT; with the word in it, the rendering is strictly
    longer than that layout. *)
Theorem generated_rendering_is_layout_iff
    (it : interpreter) (text : pystr) :
  exists rendering,
    to_dstack_format_json it (app_compose_of text) = Ok rendering /\
    pystr_eqb rendering
      (manifest_layout (escape_body text)
         (escape_body get_default_pre_launch_script) default_salt)
    = negb (contains PRE_LAUNCH_SCRIPT text) /\
    (contains PRE_LAUNCH_SCRIPT text = true ->
     (List.length
        (manifest_layout (escape_body text)
           (escape_body get_default_pre_launch_script) default_salt)
      < List.length rendering)%nat) /\
    (forall (fs : files) (dk : disk) (out : console) (p1 p2 : pystr)
            (doc : pyval) (v : verification),
        read_text fs p1 = Ok text ->
        json_load fs p2 = Ok doc ->
        get_method doc (py "salt") = Ok (PStr default_salt) ->
        verify_deployed_hash it fs dk out p1 p2 = Ok v ->
        our_formatted_json v
          = manifest_layout (escape_body text)
              (escape_body get_default_pre_launch_script) default_salt /\
        pystr_eqb rendering (our_formatted_json v)
          = negb (contains PRE_LAUNCH_SCRIPT text)).
Proof.
  assert (Hlen : (List.length PRE_LAUNCH_SCRIPT
                  < List.length (escape_body get_default_pre_launch_script))%nat)
    by (vm_compute; lia).
  destruct (@replace_length PRE_LAUNCH_SCRIPT
              (escape_body get_default_pre_launch_script)
              placeholder_not_empty Hlen (escape_body text)) as [_ Hlt].
  rewrite contains_placeholder_escaped in Hlt.
  assert (Heq : pystr_eqb
                  (manifest_layout
                     (replace (escape_body text) PRE_LAUNCH_SCRIPT
                        (escape_body get_default_pre_launch_script))
                     (escape_body get_default_pre_launch_script) default_salt)
                  (manifest_layout (escape_body text)
                     (escape_body get_default_pre_launch_script) default_salt)
                = negb (contains PRE_LAUNCH_SCRIPT text)).
  { destruct (contains PRE_LAUNCH_SCRIPT text) eqn:E; cbn [negb].
    - destruct (pystr_eqb _ _) eqn:Eq; [|reflexivity].
      apply pystr_eqb_eq in Eq. apply (f_equal (@List.length N)) in Eq.
      rewrite !manifest_layout_length in Eq. specialize (Hlt eq_refl). lia.
    - rewrite (@replace_absent PRE_LAUNCH_SCRIPT
                 (escape_body get_default_pre_launch_script) (escape_body text))
        by (try discriminate; now rewrite contains_placeholder_escaped).
      apply pystr_eqb_refl. }
  eexists. split; [apply generated_manifest_rendering|].
  split; [exact Heq|]. split.
  - intro E. specialize (Hlt E). rewrite !manifest_layout_length. lia.
  - intros fs dk out p1 p2 doc v Htext Hdoc Hsalt Hv.
    destruct (verify_deployed_hash_inv _ _ _ _ _ _ Hv)
      as (doc' & salt & st & t & _ & _ & Hdoc' & Hsalt' & Hst & Htext' & Hf & _).
    rewrite Htext in Htext'. apply Ok_inj in Htext'. subst t.
    rewrite Hdoc in Hdoc'. apply Ok_inj in Hdoc'. subst doc'.
    rewrite Hsalt in Hsalt'. apply Ok_inj in Hsalt'. subst salt.
    cbn [format_value] in Hst. apply Ok_inj in Hst. subst st.
    rewrite Hf. split; [reflexivity|exact Heq].
Qed.

Lemma sample_run_placeholder :
  exists v,
    verify_deployed_hash sample_interpreter sample_files_placeholder
      sample_disk sample_console (py "docker-compose.yml")
      (py "app-compose.json") = Ok v.
Proof. eexists. vm_compute. reflexivity. Qed.

Lemma generated_rendering_is_layout_iff_witness :
  exists rendering v,
    to_dstack_format_json sample_interpreter (app_compose_of PRE_LAUNCH_SCRIPT)
      = Ok rendering /\
    verify_deployed_hash sample_interpreter sample_files_placeholder
      sample_disk sample_console (py "docker-compose.yml")
      (py "app-compose.json") = Ok v /\
    pystr_eqb rendering (our_formatted_json v) = false /\
    (List.length (our_formatted_json v) < List.length rendering)%nat.
Proof.
  destruct (generated_rendering_is_layout_iff sample_interpreter
              PRE_LAUNCH_SCRIPT) as (r & Hr & _ & Hlen & Hver).
  destruct sample_run_placeholder as [v Hv].
  destruct (Hver sample_files_placeholder sample_disk sample_console
              (py "docker-compose.yml") (py "app-compose.json")
              (PDict sample_manifest) v eq_refl eq_refl eq_refl Hv)
    as [Hf Hne].
  exists r, v. split; [exact Hr|]. split; [exact Hv|].
  split; [exact Hne|]. rewrite Hf. apply Hlen. reflexivity.
Defined.
